(** * Drone authentication: ZKPModule, GroundStation and DroneAuthApp

    A shallow embedding of the C++ sources (ZKPModule.cc, GroundStation.cc,
    DroneAuthApp.cc) and the properties of the handshake that the
    specification states about them.

    Conventions of the embedding.
    - [std::vector<uint8_t>] is [list byte]; [std::string] is [string] (one
      character per byte, converted with [list_byte_of_string]).
    - [uint32_t], [uint64_t], [int64_t] and [size_t] values are [Z] with the
      wrap-around of the conversion written out ([u32], [to_int64]); the
      64-bit difference of the freshness test is computed as the compiled
      program computes it, in two's complement ([int64_sub], [int64_abs]).
    - A read past the end of a vector and the overflow of an [int] counter
      yield [Undefined]; a thrown exception yields [Throws].  Neither is a
      returned value.
    - Simulation time is the kernel's 64-bit tick count: a sum of times that
      leaves the 64 bits raises an error ([DroneAuthApp.simtime_add]).
    - Clocks and the random generator are inputs ([Env]).
    - [std::map] is [gmap]; iteration over a [std::map] visits the keys in
      ascending order, which [GroundStation.findDroneId] spells out. *)

From Stdlib Require Import ZArith Lia List Strings.String Strings.Ascii Strings.Byte.
From Stdlib Require Import Numbers.DecimalString Numbers.DecimalZ Numbers.DecimalPos.
From stdpp Require Import gmap strings list fin_maps sorting.

Local Open Scope Z_scope.

(* ===================================================================== *)
(** * Part I: the model                                                   *)
(* ===================================================================== *)

(** ** Outcomes of a C++ call *)

Inductive fault : Type :=
| OutOfBoundsRead      (* an access past the end of a vector *)
| SignedOverflow.      (* overflow of an int counter *)

Inductive result (A : Type) : Type :=
| Ok (a : A)
| Throws (what : string)
| Undefined (f : fault).

Arguments Ok {A} a.
Arguments Throws {A} what.
Arguments Undefined {A} f.

#[global] Instance result_ret : MRet result := fun A a => Ok a.

#[global] Instance result_bind : MBind result := fun A B k r =>
  match r with
  | Ok a => k a
  | Throws w => Throws w
  | Undefined f => Undefined f
  end.

#[global] Instance result_fmap : FMap result := fun A B g r =>
  match r with
  | Ok a => Ok (g a)
  | Throws w => Throws w
  | Undefined f => Undefined f
  end.

#[global] Instance byte_eq_decision : EqDecision byte :=
  fun x y =>
    match Byte.eqb x y as b return Byte.eqb x y = b -> Decision (x = y) with
    | true => fun E => left (Byte.byte_dec_bl x y E)
    | false => fun E => right (Byte.eqb_false E)
    end eq_refl.

Definition is_Throws {A : Type} (r : result A) : bool :=
  match r with Throws _ => true | _ => false end.

Definition is_Ok {A : Type} (r : result A) : bool :=
  match r with Ok _ => true | _ => false end.

(** ** Machine integers *)

Module Machine.

Definition INT_MAX : Z := 2147483647.
Definition INT64_MIN : Z := -9223372036854775808.
Definition INT64_MAX : Z := 9223372036854775807.

(** [uint32_t x = n]: conversion of a [size_t] to 32 bits. *)
Definition u32 (n : Z) : Z := n mod 4294967296.

(** [(int64_t)x] for a 64-bit unsigned [x]: two's complement. *)
Definition to_int64 (x : Z) : Z :=
  let r := x mod 18446744073709551616 in
  if r <? 9223372036854775808 then r else r - 18446744073709551616.

(** [(uint64_t)x] for a 64-bit signed [x]. *)
Definition to_uint64 (x : Z) : Z := x mod 18446744073709551616.

(** [a - b] on [int64_t], as the compiled program computes it: the
    difference in two's complement, which wraps around past either end of
    the 64 bits. *)
Definition int64_sub (a b : Z) : Z := to_int64 (a - b).

(** [std::abs] on [int64_t]: a negative value is negated in two's
    complement, and the negation of [INT64_MIN] is [INT64_MIN]. *)
Definition int64_abs (d : Z) : Z := if d <? 0 then to_int64 (- d) else d.

(** [n++] on an [int] counter. *)
Definition int_incr (n : Z) : result Z :=
  if n <? INT_MAX then Ok (n + 1) else Undefined SignedOverflow.

Definition size_of {A : Type} (l : list A) : Z := Z.of_nat (length l).

End Machine.

(** ** Byte buffers: the length-prefixed wire encoding *)

Module Wire.
Import Machine.

Definition byte_of_Z (z : Z) : byte :=
  match Byte.of_N (Z.to_N (z mod 256)) with
  | Some b => b
  | None => x00
  end.

Definition Z_of_byte (b : byte) : Z := Z.of_N (Byte.to_N b).

(** The [n] bytes of the object representation of an unsigned integer,
    least significant byte first: what
    [insert(end, (uint8_t* )&x, (uint8_t* )&x + n)] appends. *)
Fixpoint encode_le (n : nat) (z : Z) : list byte :=
  match n with
  | O => []
  | S n' => byte_of_Z z :: encode_le n' (z / 256)
  end.

(** The unsigned integer whose object representation is the given bytes:
    what [memcpy(&x, p, n)] stores. *)
Fixpoint decode_le (bs : list byte) : Z :=
  match bs with
  | [] => 0
  | b :: bs' => Z_of_byte b + 256 * decode_le bs'
  end.

(** [data.begin() + from .. data.begin() + from + n]: the iterator range
    is inside the vector only when [from + n <= data.size()]. *)
Definition read_range (data : list byte) (from n : Z) : result (list byte) :=
  if (0 <=? from) && (0 <=? n) && (from + n <=? size_of data)
  then Ok (take (Z.to_nat n) (drop (Z.to_nat from) data))
  else Undefined OutOfBoundsRead.

(** [std::memcpy(&x, &data[offset], n)] into an [n]-byte unsigned [x]. *)
Definition read_le (n : nat) (data : list byte) (offset : Z) : result Z :=
  bs ← read_range data offset (Z.of_nat n); Ok (decode_le bs).

Definition read_u32 := read_le 4.
Definition read_u64 := read_le 8.

Definition AUTH_REQUEST : byte := x01.
Definition CHALLENGE : byte := x02.
Definition PROOF : byte := x03.
Definition AUTH_SUCCESS : byte := x04.
Definition AUTH_FAILURE : byte := x05.

End Wire.

(** ** ZKProof (ZKPModule.h, ZKPModule.cc) *)

Module ZKProof.
Import Machine Wire.

Record t : Type := mk {
  proofData : list byte;
  commitment : list byte;
  challenge : string;
  timestamp : Z                 (* uint64_t *)
}.

Definition empty : t :=
  {| proofData := []; commitment := []; challenge := ""; timestamp := 0 |}.

Definition serialize (p : t) : list byte :=
  let proofSize := u32 (size_of (proofData p)) in
  let commitSize := u32 (size_of (commitment p)) in
  let chalLen := u32 (Z.of_nat (String.length (challenge p))) in
  encode_le 4 proofSize ++ proofData p
  ++ encode_le 4 commitSize ++ commitment p
  ++ encode_le 4 chalLen ++ list_byte_of_string (challenge p)
  ++ encode_le 8 (timestamp p).

(** No length field is compared with the size of [data]: each read is
    performed where the offsets lead, inside the vector or not. *)
Definition deserialize (data : list byte) : result t :=
  let offset := 0 in
  proofSize ← read_u32 data offset;
  let offset := offset + 4 in
  pd ← read_range data offset proofSize;
  let offset := offset + proofSize in
  commitSize ← read_u32 data offset;
  let offset := offset + 4 in
  cm ← read_range data offset commitSize;
  let offset := offset + commitSize in
  chalLen ← read_u32 data offset;
  let offset := offset + 4 in
  ch ← read_range data offset chalLen;
  let offset := offset + chalLen in
  ts ← read_u64 data offset;
  Ok {| proofData := pd; commitment := cm;
        challenge := string_of_list_byte ch; timestamp := ts |}.

(** The value ranges of the C++ types: [timestamp] is a [uint64_t]. *)
Definition well_typed (p : t) : Prop :=
  0 <= timestamp p < 18446744073709551616.

(** Every variable-length field fits its 32-bit length prefix. *)
Definition fits_u32 (p : t) : Prop :=
  size_of (proofData p) < 4294967296
  /\ size_of (commitment p) < 4294967296
  /\ Z.of_nat (String.length (challenge p)) < 4294967296.

End ZKProof.

(** ** The environment of a call: clocks and the random generator *)

Record Env : Type := mkEnv {
  sys_now : Z;            (* std::chrono::system_clock::now() tick count *)
  hr_start : Z;           (* high_resolution_clock at the start of a call *)
  hr_end : Z;             (* high_resolution_clock at the end of a call *)
  entropy : nat -> byte   (* the bytes RAND_bytes delivers, in order *)
}.

(** ** ZKPModule (ZKPModule.h, ZKPModule.cc) *)

Module ZKPModule.
Import Machine Wire.

Definition SHA256_DIGEST_LENGTH : Z := 32.

(** [timeDiff > 5000000000LL]: the freshness window in ticks of
    [system_clock]. *)
Definition FRESHNESS_WINDOW : Z := 5000000000.

(** Ticks of [system_clock] per second where the tick is a nanosecond
    (libstdc++). *)
Definition TICKS_PER_SECOND : Z := 1000000000.

Record ProofStats : Type := mkStats {
  proofSize : Z;
  commitmentSize : Z;
  generationTime : Z;     (* elapsed ticks; the source stores them as ms *)
  verificationTime : Z
}.

Record t : Type := mk {
  privateSecret : list byte;
  publicCommitment : list byte;
  droneId : string;
  sessionNonce : list byte;
  provingKey : list byte;
  verificationKey : list byte;
  lastStats : ProofStats;
  proverInitialized : bool;
  verifierInitialized : bool;
  keysGenerated : bool;
  lastChallenge : string
}.

(** [ZKPModule::ZKPModule()] *)
Definition new : t :=
  {| privateSecret := []; publicCommitment := []; droneId := "";
     sessionNonce := []; provingKey := []; verificationKey := [];
     lastStats := mkStats 0 0 0 0;
     proverInitialized := false; verifierInitialized := false;
     keysGenerated := false; lastChallenge := "" |}.

(** [ZKPModule::ZKPModule(const std::string& id)] *)
Definition new_id (id : string) : t :=
  mk (privateSecret new) (publicCommitment new) id (sessionNonce new)
     (provingKey new) (verificationKey new) (lastStats new)
     (proverInitialized new) (verifierInitialized new)
     (keysGenerated new) (lastChallenge new).

(** [generateRandomBytes(length)], reading the generator from position
    [pos]. *)
Definition generateRandomBytes (e : Env) (pos length : nat) : list byte :=
  map (entropy e) (seq pos length).

Definition combineVectors (vectors : list (list byte)) : list byte :=
  concat vectors.

(** [generateKeys()] draws two 64-byte keys. *)
Definition generateKeys (e : Env) (pos : nat) (m : t) : t :=
  mk (privateSecret m) (publicCommitment m) (droneId m) (sessionNonce m)
     (generateRandomBytes e pos 64)
     (generateRandomBytes e (pos + 64) 64)
     (lastStats m) (proverInitialized m) (verifierInitialized m)
     true (lastChallenge m).

Definition setup := generateKeys.

Definition hex_digit (n : Z) : ascii :=
  ascii_of_N (Z.to_N (if n <? 10 then 48 + n else 87 + n)).

(** [std::hex << std::setfill('0') << std::setw(2) << (int)b] *)
Fixpoint bytesToHex (bytes : list byte) : string :=
  match bytes with
  | [] => ""
  | b :: bs =>
      String (hex_digit (Z_of_byte b / 16))
        (String (hex_digit (Z_of_byte b mod 16)) (bytesToHex bs))
  end.

(** [ss << now] for a signed 64-bit tick count. *)
Definition decimal (n : Z) : string := NilZero.string_of_int (Z.to_int n).

Definition initializeVerifier (commitment : list byte) (id : string) (m : t) : t :=
  mk (privateSecret m) commitment id (sessionNonce m)
     (provingKey m) (verificationKey m) (lastStats m)
     (proverInitialized m) true (keysGenerated m) (lastChallenge m).

Definition set_lastChallenge (c : string) (m : t) : t :=
  mk (privateSecret m) (publicCommitment m) (droneId m) (sessionNonce m)
     (provingKey m) (verificationKey m) (lastStats m)
     (proverInitialized m) (verifierInitialized m) (keysGenerated m) c.

Definition set_lastStats (s : ProofStats) (m : t) : t :=
  mk (privateSecret m) (publicCommitment m) (droneId m) (sessionNonce m)
     (provingKey m) (verificationKey m) s
     (proverInitialized m) (verifierInitialized m) (keysGenerated m)
     (lastChallenge m).

(** [generateChallenge()], with the 16 random bytes read from [pos]. *)
Definition generateChallenge (e : Env) (pos : nat) (m : t) : string * t :=
  let now := sys_now e in
  let randomBytes := generateRandomBytes e pos 16 in
  let ss := ("CHALLENGE_" +:+ decimal now +:+ "_"
             +:+ substring 0 16 (bytesToHex randomBytes))%string in
  (ss, set_lastChallenge ss m).

(** [verifyProof(proof)]: the verdict and the module after the call. *)
Definition verifyProof (e : Env) (m : t) (proof : ZKProof.t) : result (bool * t) :=
  let startTime := hr_start e in
  if negb (verifierInitialized m) then Throws "Verifier not initialized"
  else if negb (size_of (ZKProof.proofData proof) =? SHA256_DIGEST_LENGTH)
  then Ok (false, m)
  else if negb (bool_decide (ZKProof.commitment proof = publicCommitment m))
  then Ok (false, m)
  else
    let now := sys_now e in
    let timeDiff := int64_abs (int64_sub now (to_int64 (ZKProof.timestamp proof))) in
    if timeDiff >? FRESHNESS_WINDOW then Ok (false, m)
    else
      let endTime := hr_end e in
      let s := lastStats m in
      Ok (true,
          set_lastStats
            (mkStats (proofSize s) (commitmentSize s) (generationTime s)
                     (endTime - startTime)) m).

Definition getLastProofStats (m : t) : ProofStats := lastStats m.
Definition getCommitment (m : t) : list byte := publicCommitment m.
Definition isProverInitialized (m : t) : bool := proverInitialized m.
Definition isVerifierInitialized (m : t) : bool := verifierInitialized m.
Definition getDroneId (m : t) : string := droneId m.

Definition reset (m : t) : t :=
  mk [] [] (droneId m) [] (provingKey m) (verificationKey m) (lastStats m)
     false false (keysGenerated m) "".

(** The prover side hashes with OpenSSL's SHA256, a function of the
    bytes it is given. *)
Section Prover.
Variable sha256Hash : list byte -> list byte.

(** [initializeProver(id, password)], the nonce read from [pos]. *)
Definition initializeProver (e : Env) (pos : nat) (id password : string) (m : t) : t :=
  let idBytes := list_byte_of_string id in
  let pwBytes := list_byte_of_string password in
  let nonce := generateRandomBytes e pos 32 in
  let combined := combineVectors [idBytes; pwBytes; nonce] in
  mk (sha256Hash combined) (publicCommitment m) id nonce
     (provingKey m) (verificationKey m) (lastStats m)
     true (verifierInitialized m) (keysGenerated m) (lastChallenge m).

Definition createCommitment (m : t) : result t :=
  if negb (proverInitialized m) then Throws "Prover not initialized"
  else
    let commitmentInput := combineVectors [privateSecret m; sessionNonce m] in
    Ok (mk (privateSecret m) (sha256Hash commitmentInput) (droneId m)
           (sessionNonce m) (provingKey m) (verificationKey m)
           (lastStats m) (proverInitialized m) (verifierInitialized m)
           (keysGenerated m) (lastChallenge m)).

Definition generateProof (e : Env) (m : t) (challenge : string)
  : result (ZKProof.t * t) :=
  let startTime := hr_start e in
  if negb (proverInitialized m) then Throws "Prover not initialized"
  else
    let challengeBytes := list_byte_of_string challenge in
    let proofInput :=
      combineVectors [privateSecret m; challengeBytes; sessionNonce m] in
    let proof :=
      ZKProof.mk (sha256Hash proofInput) (publicCommitment m) challenge
                 (to_uint64 (sys_now e)) in
    let endTime := hr_end e in
    Ok (proof,
        set_lastStats
          (mkStats (size_of (ZKProof.proofData proof))
                   (size_of (ZKProof.commitment proof))
                   (endTime - startTime)
                   (verificationTime (lastStats m))) m).
End Prover.

End ZKPModule.

(** ** What a module does to the simulation: packets sent, signals emitted *)

Module Sim.

Definition L3Address : Type := string.

Inductive Signal : Type :=
| authRequestSignal | authSuccessSignal | authFailureSignal.

Inductive Effect : Type :=
| SendTo (data : list byte) (destAddr : L3Address) (destPort : Z)
| Emit (signal : Signal) (value : Z).

(** Messages handed to [handleMessageWhenUp] from outside the module. *)
Inductive Inbound : Type :=
| Packet (data : list byte) (srcAddr : L3Address) (srcPort : Z)
| Indication (name : string).

End Sim.

(** ** GroundStation (GroundStation.h, GroundStation.cc) *)

Module GroundStation.
Import Machine Wire Sim.

Record t : Type := mk {
  localPort : Z;
  droneVerifiers : gmap string ZKPModule.t;
  pendingChallenges : gmap string string;
  droneAddresses : gmap string (L3Address * Z);
  numAuthRequests : Z;
  numAuthSuccess : Z;
  numAuthFailures : Z;
  trace : list Effect
}.

(** The constructor's list. *)
Definition authorizedDrones : gset string :=
  {[ "DRONE_001"; "DRONE_002"; "DRONE_003"; "DRONE_004"; "DRONE_005" ]}.

(** The station after [initialize(INITSTAGE_LOCAL)]. *)
Definition initial (port : Z) : t :=
  mk port ∅ ∅ ∅ 0 0 0 [].

Definition sendPacket (data : list byte) (destAddr : L3Address) (destPort : Z)
           (gs : t) : t :=
  mk (localPort gs) (droneVerifiers gs) (pendingChallenges gs)
     (droneAddresses gs) (numAuthRequests gs) (numAuthSuccess gs)
     (numAuthFailures gs) (trace gs ++ [SendTo data destAddr destPort]).

Definition emit (s : Signal) (v : Z) (gs : t) : t :=
  mk (localPort gs) (droneVerifiers gs) (pendingChallenges gs)
     (droneAddresses gs) (numAuthRequests gs) (numAuthSuccess gs)
     (numAuthFailures gs) (trace gs ++ [Emit s v]).

Definition sendAuthSuccess (destAddr : L3Address) (destPort : Z) (gs : t) : t :=
  sendPacket [AUTH_SUCCESS] destAddr destPort gs.

Definition sendAuthFailure (destAddr : L3Address) (destPort : Z) (gs : t) : t :=
  sendPacket [AUTH_FAILURE] destAddr destPort gs.

(** [numAuthRequests++; emit(authRequestSignal, numAuthRequests)] *)
Definition countRequest (gs : t) : result t :=
  n ← int_incr (numAuthRequests gs);
  Ok (emit authRequestSignal n
        (mk (localPort gs) (droneVerifiers gs) (pendingChallenges gs)
            (droneAddresses gs) n (numAuthSuccess gs) (numAuthFailures gs)
            (trace gs))).

Definition countSuccess (gs : t) : result t :=
  n ← int_incr (numAuthSuccess gs);
  Ok (emit authSuccessSignal n
        (mk (localPort gs) (droneVerifiers gs) (pendingChallenges gs)
            (droneAddresses gs) (numAuthRequests gs) n (numAuthFailures gs)
            (trace gs))).

Definition countFailure (gs : t) : result t :=
  n ← int_incr (numAuthFailures gs);
  Ok (emit authFailureSignal n
        (mk (localPort gs) (droneVerifiers gs) (pendingChallenges gs)
            (droneAddresses gs) (numAuthRequests gs) (numAuthSuccess gs) n
            (trace gs))).

Definition set_session (droneId : string) (verifier : ZKPModule.t)
           (challenge : string) (src : L3Address * Z) (gs : t) : t :=
  mk (localPort gs)
     (<[droneId := verifier]> (droneVerifiers gs))
     (<[droneId := challenge]> (pendingChallenges gs))
     (<[droneId := src]> (droneAddresses gs))
     (numAuthRequests gs) (numAuthSuccess gs) (numAuthFailures gs)
     (trace gs).

Definition set_verifier (droneId : string) (verifier : ZKPModule.t) (gs : t) : t :=
  mk (localPort gs)
     (<[droneId := verifier]> (droneVerifiers gs))
     (pendingChallenges gs) (droneAddresses gs)
     (numAuthRequests gs) (numAuthSuccess gs) (numAuthFailures gs)
     (trace gs).

Definition erase_pending (droneId : string) (gs : t) : t :=
  mk (localPort gs) (droneVerifiers gs)
     (delete droneId (pendingChallenges gs)) (droneAddresses gs)
     (numAuthRequests gs) (numAuthSuccess gs) (numAuthFailures gs)
     (trace gs).

(** The CHALLENGE message: [type(1)] [challenge_len(4)] [challenge]. *)
Definition challengeMessage (challenge : string) : list byte :=
  CHALLENGE
    :: encode_le 4 (u32 (Z.of_nat (String.length challenge)))
    ++ list_byte_of_string challenge.

(** "Create or get verifier for this drone": the verifier of [droneId],
    and the position of the random generator afterwards.  A new verifier
    draws the 128 bytes of [setup()]. *)
Definition getOrCreateVerifier (e : Env) (commitment : list byte)
           (droneId : string) (gs : t) : ZKPModule.t * nat :=
  match droneVerifiers gs !! droneId with
  | None =>
      (ZKPModule.initializeVerifier commitment droneId
         (ZKPModule.setup e 0%nat ZKPModule.new), 128%nat)
  | Some v => (v, 0%nat)
  end.

Definition handleAuthRequest (e : Env) (data : list byte)
           (srcAddr : L3Address) (srcPort : Z) (gs : t) : result t :=
  gs ← countRequest gs;
  if size_of data <? 9 then Ok (sendAuthFailure srcAddr srcPort gs)
  else
    let offset := 1 in
    idLen ← read_u32 data offset;
    let offset := offset + 4 in
    if size_of data <? offset + idLen + 4
    then Ok (sendAuthFailure srcAddr srcPort gs)
    else
      idBytes ← read_range data offset idLen;
      let droneId := string_of_list_byte idBytes in
      if negb (bool_decide (droneId ∈ authorizedDrones))
      then countFailure (sendAuthFailure srcAddr srcPort gs)
      else
        let offset := offset + idLen in
        commitLen ← read_u32 data offset;
        let offset := offset + 4 in
        if size_of data <? offset + commitLen
        then Ok (sendAuthFailure srcAddr srcPort gs)
        else
          commitment ← read_range data offset commitLen;
          let '(verifier, pos) := getOrCreateVerifier e commitment droneId gs in
          let '(challenge, verifier) :=
            ZKPModule.generateChallenge e pos verifier in
          let gs := set_session droneId verifier challenge (srcAddr, srcPort) gs in
          Ok (sendPacket (challengeMessage challenge) srcAddr srcPort gs).

(** [for (const auto& pair : pendingChallenges)]: a [std::map] is visited
    in ascending key order. *)
Definition key_le (a b : string * string) : Prop :=
  String.leb a.1 b.1 = true.

#[global] Instance key_le_dec : RelDecision key_le :=
  fun a b => decide (String.leb a.1 b.1 = true).

Definition in_key_order (m : gmap string string) : list (string * string) :=
  merge_sort key_le (map_to_list m).

(** The loop with its [break]: the first pair whose challenge matches,
    the empty string when none does. *)
Fixpoint scan (pairs : list (string * string)) (challenge : string) : string :=
  match pairs with
  | [] => ""
  | (k, v) :: rest =>
      if bool_decide (v = challenge) then k else scan rest challenge
  end.

Definition findDroneId (pending : gmap string string) (challenge : string) : string :=
  scan (in_key_order pending) challenge.

Definition handleProof (e : Env) (data : list byte)
           (srcAddr : L3Address) (srcPort : Z) (gs : t) : result t :=
  if size_of data <? 2 then Ok (sendAuthFailure srcAddr srcPort gs)
  else
    let proofData := drop 1 data in
    (* the [catch] clause handles exceptions; a bad read raises none *)
    proof ← ZKProof.deserialize proofData;
    let droneId := findDroneId (pendingChallenges gs) (ZKProof.challenge proof) in
    if bool_decide (droneId = "")
    then Ok (sendAuthFailure srcAddr srcPort gs)
    else
      match droneVerifiers gs !! droneId with
      | None => Ok (sendAuthFailure srcAddr srcPort gs)
      | Some verifier =>
          '(isValid, verifier) ← ZKPModule.verifyProof e verifier proof;
          let gs := set_verifier droneId verifier gs in
          if isValid : bool then
            gs ← countSuccess gs;
            let gs := sendAuthSuccess srcAddr srcPort gs in
            Ok (erase_pending droneId gs)
          else
            gs ← countFailure gs;
            Ok (sendAuthFailure srcAddr srcPort gs)
      end.

Definition handleMessageWhenUp (e : Env) (msg : Inbound) (gs : t) : result t :=
  match msg with
  | Packet data srcAddr srcPort =>
      match data with
      | [] => Ok gs
      | msgType :: _ =>
          if bool_decide (msgType = AUTH_REQUEST)
          then handleAuthRequest e data srcAddr srcPort gs
          else if bool_decide (msgType = PROOF)
          then handleProof e data srcAddr srcPort gs
          else Ok gs
      end
  | Indication _ => Ok gs
  end.

(** Well-formed sessions: every verifier belongs to an authorized identity,
    is initialized and carries that identity; a pending challenge or a
    return address exists only for an identity that has a verifier. *)
Definition station_ok (gs : t) : Prop :=
  (forall id v, droneVerifiers gs !! id = Some v ->
     id ∈ authorizedDrones
     /\ ZKPModule.verifierInitialized v = true
     /\ ZKPModule.droneId v = id)
  /\ (forall id c, pendingChallenges gs !! id = Some c ->
        is_Some (droneVerifiers gs !! id))
  /\ (forall id, is_Some (droneAddresses gs !! id)
                 <-> is_Some (droneVerifiers gs !! id)).

End GroundStation.

(** ** DroneAuthApp (DroneAuthApp.h, DroneAuthApp.cc) *)

Module DroneAuthApp.
Import Machine Wire Sim.

Definition MSG_SEND_AUTH_REQUEST : Z := 1.
Definition MSG_SEND_PROOF : Z := 2.
Definition MSG_AUTH_TIMEOUT : Z := 3.

(** Simulation time is a 64-bit count of ticks, a picosecond each at the
    default resolution; parameters given in seconds enter the model as
    ticks.  [0.001] seconds: *)
Definition PROOF_DELAY : Z := 1000000000.
Definition TICKS_PER_MILLISECOND : Z := 1000000000.

(** A [cMessage]: its kind, and its arrival time while it is scheduled. *)
Record cMessage : Type := mkMsg {
  msgName : string;
  msgKind : Z;
  arrival : option Z
}.

Definition isScheduled (m : cMessage) : bool :=
  match arrival m with Some _ => true | None => false end.

Definition cancelEvent (m : cMessage) : cMessage :=
  mkMsg (msgName m) (msgKind m) None.

(** [simTime() + d]: the kernel converts the interval to ticks and adds
    with a range check; an interval or a sum that does not fit the 64 bits
    raises a [cRuntimeError]. *)
Definition simtime_add (t d : Z) : result Z :=
  if negb ((INT64_MIN <=? d) && (d <=? INT64_MAX))
  then Throws "simtime_t: interval out of range"
  else if negb ((INT64_MIN <=? t + d) && (t + d <=? INT64_MAX))
  then Throws "simtime_t overflow"
  else Ok (t + d).

(** [scheduleAt(t, msg)]: the simulation kernel refuses a message that is
    already scheduled and a time in the past. *)
Definition scheduleAt (simTime t : Z) (m : cMessage) : result cMessage :=
  if isScheduled m then Throws "scheduleAt(): message is currently scheduled"
  else if t <? simTime then Throws "scheduleAt(): cannot schedule to the past"
  else Ok (mkMsg (msgName m) (msgKind m) (Some t)).

(** The NED parameters read with [par(...)]. *)
Record Params : Type := mkParams {
  authTimeout : Z;
  retryInterval : Z;
  startTime : Z;
  destAddress : L3Address
}.

(** The display strings touched by the visual feedback. *)
Record Display : Type := mkDisplay {
  parentIcon : string;      (* parent, tag i, argument 0 *)
  parentColor : string;     (* parent, tag i, argument 1 *)
  parentSize : string;      (* parent, tag is, argument 0 *)
  appColor : string;        (* own, tag i, argument 1 *)
  appText : string          (* own, tag t, argument 0 *)
}.

Record t : Type := mk {
  localPort : Z;
  destPort : Z;
  droneId : string;
  password : string;
  zkpModule : ZKPModule.t;
  currentChallenge : string;
  selfMsg : option cMessage;
  timeoutMsg : option cMessage;
  proofMsgs : list cMessage;   (* the [sendProof] messages, owned by no member *)
  numAuthRequests : Z;
  numAuthSuccess : Z;
  numAuthFailures : Z;
  display : Display;
  trace : list Effect
}.

Definition set_timers (s tm : option cMessage) (a : t) : t :=
  mk (localPort a) (destPort a) (droneId a) (password a) (zkpModule a)
     (currentChallenge a) s tm (proofMsgs a)
     (numAuthRequests a) (numAuthSuccess a) (numAuthFailures a)
     (display a) (trace a).

Definition set_counters (rq su fa : Z) (a : t) : t :=
  mk (localPort a) (destPort a) (droneId a) (password a) (zkpModule a)
     (currentChallenge a) (selfMsg a) (timeoutMsg a) (proofMsgs a)
     rq su fa (display a) (trace a).

Definition set_display (d : Display) (a : t) : t :=
  mk (localPort a) (destPort a) (droneId a) (password a) (zkpModule a)
     (currentChallenge a) (selfMsg a) (timeoutMsg a) (proofMsgs a)
     (numAuthRequests a) (numAuthSuccess a) (numAuthFailures a)
     d (trace a).

Definition set_zkpModule (z : ZKPModule.t) (a : t) : t :=
  mk (localPort a) (destPort a) (droneId a) (password a) z
     (currentChallenge a) (selfMsg a) (timeoutMsg a) (proofMsgs a)
     (numAuthRequests a) (numAuthSuccess a) (numAuthFailures a)
     (display a) (trace a).

Definition set_challenge (c : string) (pm : list cMessage) (a : t) : t :=
  mk (localPort a) (destPort a) (droneId a) (password a) (zkpModule a)
     c (selfMsg a) (timeoutMsg a) pm
     (numAuthRequests a) (numAuthSuccess a) (numAuthFailures a)
     (display a) (trace a).

Definition log (ef : Effect) (a : t) : t :=
  mk (localPort a) (destPort a) (droneId a) (password a) (zkpModule a)
     (currentChallenge a) (selfMsg a) (timeoutMsg a) (proofMsgs a)
     (numAuthRequests a) (numAuthSuccess a) (numAuthFailures a)
     (display a) (trace a ++ [ef]).

Definition sendPacket (p : Params) (data : list byte) (a : t) : t :=
  log (SendTo data (destAddress p) (destPort a)) a.

(** [type(1)] [droneId_len(4)] [droneId] [commitment_len(4)] [commitment] *)
Definition authRequestMessage (id : string) (commitment : list byte) : list byte :=
  AUTH_REQUEST
    :: encode_le 4 (u32 (Z.of_nat (String.length id)))
    ++ list_byte_of_string id
    ++ encode_le 4 (u32 (size_of commitment))
    ++ commitment.

Definition paint (color : string) (d : Display) : Display :=
  mkDisplay "misc/drone" color "80" (appColor d) (appText d).

Definition sendAuthenticationRequest (p : Params) (simTime : Z) (a : t) : result t :=
  n ← int_incr (numAuthRequests a);
  let a := set_counters n (numAuthSuccess a) (numAuthFailures a) a in
  let a := log (Emit authRequestSignal n) a in
  let msgData :=
    authRequestMessage (droneId a) (ZKPModule.getCommitment (zkpModule a)) in
  let a := sendPacket p msgData a in
  (* any existing timeout is cancelled and deleted, a new one created *)
  let fresh := mkMsg "authTimeout" MSG_AUTH_TIMEOUT None in
  at_ ← simtime_add simTime (authTimeout p);
  tm ← scheduleAt simTime at_ fresh;
  Ok (set_timers (selfMsg a) (Some tm) a).

Definition handleChallengeMessage (simTime : Z) (data : list byte) (a : t) : result t :=
  if size_of data <? 5 then Ok a
  else
    let offset := 1 in
    chalLen ← read_u32 data offset;
    let offset := offset + 4 in
    if size_of data <? offset + chalLen then Ok a
    else
      bytes ← read_range data offset chalLen;
      let challenge := string_of_list_byte bytes in
      let fresh := mkMsg "sendProof" MSG_SEND_PROOF None in
      at_ ← simtime_add simTime PROOF_DELAY;
      proofMsg ← scheduleAt simTime at_ fresh;
      Ok (set_challenge challenge (proofMsgs a ++ [proofMsg]) a).

Definition handleAuthSuccessMessage (a : t) : result t :=
  let s := option_map (fun m => if isScheduled m then cancelEvent m else m)
                      (selfMsg a) in
  let a := set_timers s None a in
  n ← int_incr (numAuthSuccess a);
  let a := set_counters (numAuthRequests a) n (numAuthFailures a) a in
  let a := log (Emit authSuccessSignal n) a in
  let d := paint "green" (display a) in
  Ok (set_display
        (mkDisplay (parentIcon d) (parentColor d) (parentSize d)
                   "green" "Authenticated") a).

Definition handleAuthFailureMessage (a : t) : result t :=
  let a := set_timers (selfMsg a) None a in
  n ← int_incr (numAuthFailures a);
  let a := set_counters (numAuthRequests a) (numAuthSuccess a) n a in
  let a := log (Emit authFailureSignal n) a in
  let d := paint "red" (display a) in
  Ok (set_display
        (mkDisplay (parentIcon d) (parentColor d) (parentSize d)
                   "red" "Auth Failed") a).

Definition handleAuthTimeout (p : Params) (simTime : Z) (a : t) : result t :=
  let a := set_timers (selfMsg a) None a in
  n ← int_incr (numAuthFailures a);
  let a := set_counters (numAuthRequests a) (numAuthSuccess a) n a in
  let a := log (Emit authFailureSignal n) a in
  let a := set_display (paint "red" (display a)) a in
  at_ ← simtime_add simTime (retryInterval p);
  match selfMsg a with
  | None => Throws "scheduleAt(): message pointer is nullptr"
  | Some m =>
      m ← scheduleAt simTime at_ m;
      Ok (set_timers (Some m) (timeoutMsg a) a)
  end.

Definition handleIncomingMessage (simTime : Z) (data : list byte) (a : t) : result t :=
  match data with
  | [] => Ok a
  | msgType :: _ =>
      if bool_decide (msgType = CHALLENGE) then handleChallengeMessage simTime data a
      else if bool_decide (msgType = AUTH_SUCCESS) then handleAuthSuccessMessage a
      else if bool_decide (msgType = AUTH_FAILURE) then handleAuthFailureMessage a
      else Ok a
  end.

Section Prover.
Variable sha256Hash : list byte -> list byte.

(** The application after [initialize(INITSTAGE_LOCAL)]; the nonce is
    read after the two keys of [setup()]. *)
Definition initial (e : Env) (lport dport : Z) (id pw : string) : result t :=
  let z := ZKPModule.setup e 0%nat (ZKPModule.new_id id) in
  let z := ZKPModule.initializeProver sha256Hash e 128%nat id pw z in
  z ← ZKPModule.createCommitment sha256Hash z;
  Ok (mk lport dport id pw z ""
         (Some (mkMsg "sendAuthRequest" MSG_SEND_AUTH_REQUEST None)) None []
         0 0 0 (mkDisplay "" "" "" "" "") []).

Definition sendZKProof (e : Env) (p : Params) (a : t) : result t :=
  '(proof, z) ← ZKPModule.generateProof sha256Hash e (zkpModule a)
                                         (currentChallenge a);
  let a := set_zkpModule z a in
  let serializedProof := ZKProof.serialize proof in
  Ok (sendPacket p (PROOF :: serializedProof) a).

(** [handleSelfMessage(msg)] dispatches on the kind of the delivered
    message. *)
Definition handleSelfMessage (e : Env) (p : Params) (simTime : Z)
           (kind : Z) (a : t) : result t :=
  if kind =? MSG_SEND_AUTH_REQUEST then sendAuthenticationRequest p simTime a
  else if kind =? MSG_SEND_PROOF then sendZKProof e p a
  else if kind =? MSG_AUTH_TIMEOUT then handleAuthTimeout p simTime a
  else Throws "Unknown self message kind".

(** [handleStartOperation]. *)
Definition handleStartOperation (p : Params) (simTime : Z) (a : t) : result t :=
  at_ ← simtime_add simTime (startTime p);
  match selfMsg a with
  | None => Throws "scheduleAt(): message pointer is nullptr"
  | Some m =>
      m ← scheduleAt simTime at_ m;
      Ok (set_timers (Some m) (timeoutMsg a) a)
  end.

(** The simulation kernel delivers a scheduled self-message at its
    arrival time; the message is no longer scheduled while it is
    handled. *)
Inductive Timer : Type := SelfTimer | TimeoutTimer | ProofTimer (i : nat).

Definition deliver (e : Env) (p : Params) (which : Timer) (a : t)
  : option (Z * result t) :=
  match which with
  | SelfTimer =>
      match selfMsg a with
      | Some m =>
          match arrival m with
          | Some at_ =>
              Some (at_, handleSelfMessage e p at_ (msgKind m)
                           (set_timers (Some (cancelEvent m)) (timeoutMsg a) a))
          | None => None
          end
      | None => None
      end
  | TimeoutTimer =>
      match timeoutMsg a with
      | Some m =>
          match arrival m with
          | Some at_ =>
              Some (at_, handleSelfMessage e p at_ (msgKind m)
                           (set_timers (selfMsg a) (Some (cancelEvent m)) a))
          | None => None
          end
      | None => None
      end
  | ProofTimer i =>
      match proofMsgs a !! i with
      | Some m =>
          match arrival m with
          | Some at_ =>
              Some (at_, handleSelfMessage e p at_ (msgKind m)
                           (set_challenge (currentChallenge a)
                              (<[i := cancelEvent m]> (proofMsgs a)) a))
          | None => None
          end
      | None => None
      end
  end.
End Prover.

(** [handleStopOperation]: both member timers are cancelled when they are
    scheduled; the socket is closed. *)
Definition handleStopOperation (a : t) : t :=
  let stop := option_map (fun m => if isScheduled m then cancelEvent m else m) in
  set_timers (stop (selfMsg a)) (stop (timeoutMsg a)) a.

(** [handleCrashOperation] cancels the same timers and destroys the socket. *)
Definition handleCrashOperation (a : t) : t := handleStopOperation a.

(** The states of a started application: it is initialized and started
    once, then handles the timers the kernel delivers and the packets that
    arrive (stop and crash end this life and are not part of it). *)
Inductive reachable (sha256Hash : list byte -> list byte) (p : Params) : t -> Prop :=
| reach_start e lport dport id pw simTime a0 a :
    initial sha256Hash e lport dport id pw = Ok a0 ->
    handleStartOperation p simTime a0 = Ok a ->
    reachable sha256Hash p a
| reach_timer e which a at_ a' :
    reachable sha256Hash p a ->
    deliver sha256Hash e p which a = Some (at_, Ok a') ->
    reachable sha256Hash p a'
| reach_packet simTime data a a' :
    reachable sha256Hash p a ->
    handleIncomingMessage simTime data a = Ok a' ->
    reachable sha256Hash p a'.

(** The request timer, the timeout and the proof timers keep their kinds,
    and the request timer is idle whenever the timeout is armed. *)
Definition timers_consistent (a : t) : Prop :=
  (exists sm, selfMsg a = Some sm /\ msgKind sm = MSG_SEND_AUTH_REQUEST)
  /\ (forall tm, timeoutMsg a = Some tm ->
        msgKind tm = MSG_AUTH_TIMEOUT
        /\ (isScheduled tm = true ->
            forall sm, selfMsg a = Some sm -> isScheduled sm = false))
  /\ (forall m, m ∈ proofMsgs a -> msgKind m = MSG_SEND_PROOF).

End DroneAuthApp.

(** ** Concrete values used by the examples of Part II *)

Module Examples.

(** A proof whose [proofData] holds 2^32 bytes: its size does not fit the
    32-bit length prefix. *)
Definition oversized : ZKProof.t :=
  ZKProof.mk (replicate (Z.to_nat 4294967296) x00) [] "" 0.

Definition sample_proof : ZKProof.t :=
  ZKProof.mk (replicate 32 xab) (replicate 32 x11) "CHALLENGE_1_00"
             1700000000000000000.

(** The same proof stamped 10923372036854775808: 2^63 ticks ahead of the
    clock reading 1700000000000000000. *)
Definition stamped_ahead : ZKProof.t :=
  ZKProof.mk (replicate 32 xab) (replicate 32 x11) "CHALLENGE_1_00"
             10923372036854775808.

(** A ground-station verifier registered with the commitment of
    [sample_proof]. *)
Definition quiet (i : nat) : byte := x00.

Definition registered : ZKPModule.t :=
  ZKPModule.initializeVerifier (replicate 32 x11) "DRONE_001"
    (ZKPModule.setup (mkEnv 0 0 0 quiet) 0%nat ZKPModule.new).

(** A verification at the very tick of the proof's timestamp, measured to
    take 7 ticks. *)
Definition env_fresh : Env := mkEnv 1700000000000000000 10 17 quiet.

(** A verification ten seconds later, measured to take 150 ticks. *)
Definition env_late : Env := mkEnv 1700000010000000000 100 250 quiet.

(** A ground station holding one session, for DRONE_001, whose pending
    challenge is the one [sample_proof] answers. *)
Definition station1 : GroundStation.t :=
  GroundStation.mk 5000 {[ "DRONE_001" := registered ]}
    {[ "DRONE_001" := "CHALLENGE_1_00" ]}
    {[ "DRONE_001" := ("10.0.0.2", 6000) ]} 1 0 0 [].

Definition proof_message : list byte :=
  Wire.PROOF :: ZKProof.serialize sample_proof.

(** A stand-in for SHA-256 in the examples: 32 bytes of its padded input. *)
Definition toy_hash (bs : list byte) : list byte := take 32 (bs ++ replicate 32 x00).

(** One second to the first request, five to the timeout, ten to the retry. *)
Definition sample_params : DroneAuthApp.Params :=
  DroneAuthApp.mkParams 5000000000000 10000000000000 1000000000000 "10.0.0.1".

Definition blank : DroneAuthApp.t :=
  DroneAuthApp.mk 0 0 "" "" ZKPModule.new "" None None [] 0 0 0
    (DroneAuthApp.mkDisplay "" "" "" "" "") [].

Definition run_or (d : DroneAuthApp.t) (r : result DroneAuthApp.t) : DroneAuthApp.t :=
  match r with Ok a => a | _ => d end.

Definition drone_initial : DroneAuthApp.t :=
  run_or blank (DroneAuthApp.initial toy_hash env_fresh 6000 5000 "DRONE_001" "secret").

Definition drone_started : DroneAuthApp.t :=
  run_or blank (DroneAuthApp.handleStartOperation sample_params 0 drone_initial).

(** The drone after its first AUTH_REQUEST: the timeout is armed. *)
Definition drone_waiting : DroneAuthApp.t :=
  match DroneAuthApp.deliver toy_hash env_fresh sample_params DroneAuthApp.SelfTimer drone_started with
  | Some (_, r) => run_or blank r
  | None => blank
  end.

(** What the timeout does when it fires on [drone_waiting]. *)
Definition timeout_outcome : result DroneAuthApp.t :=
  match DroneAuthApp.deliver toy_hash env_late sample_params DroneAuthApp.TimeoutTimer drone_waiting with
  | Some (_, r) => r
  | None => Throws "not scheduled"
  end.

(** Two sessions hold the same challenge. *)
Definition twins : gmap string string :=
  {[ "DRONE_004" := "CHALLENGE_7_aa"; "DRONE_002" := "CHALLENGE_7_aa";
     "DRONE_003" := "CHALLENGE_9_bb" ]}.

(** The drone once the CHALLENGE has arrived: a proof timer is pending. *)
Definition drone_challenged : DroneAuthApp.t :=
  run_or blank
    (DroneAuthApp.handleIncomingMessage 2000000000000
       (GroundStation.challengeMessage "CHALLENGE_1_00") drone_waiting).

(** A random generator that agrees with [quiet] on its first eight bytes. *)
Definition loud (i : nat) : byte := if (i <? 8)%nat then x00 else xff.

End Examples.

(* ===================================================================== *)
(** * Part II: properties                                                 *)
(* ===================================================================== *)

(** ** The result monad *)

Lemma bind_Ok {A B : Type} (r : result A) (k : A -> result B) (b : B) :
  r ≫= k = Ok b -> exists a, r = Ok a /\ k a = Ok b.
Proof. destruct r as [a| |]; cbn; [eauto | discriminate | discriminate]. Qed.

Lemma bind_no_throw {A B : Type} (r : result A) (k : A -> result B) :
  is_Throws r = false ->
  (forall a, r = Ok a -> is_Throws (k a) = false) ->
  is_Throws (r ≫= k) = false.
Proof. destruct r; cbn; intros; eauto. Qed.

(** ** Wire encoding *)

Module WireFacts.
Import Machine Wire.

Lemma Z_of_byte_range b : 0 <= Z_of_byte b < 256.
Proof. unfold Z_of_byte. pose proof (Byte.to_N_bounded b). lia. Qed.

Lemma Z_of_byte_of_Z z : Z_of_byte (byte_of_Z z) = z mod 256.
Proof.
  unfold Z_of_byte, byte_of_Z.
  pose proof (Z.mod_pos_bound z 256 eq_refl) as Hr.
  destruct (Byte.of_N (Z.to_N (z mod 256))) as [b|] eqn:E.
  - apply Byte.to_of_N in E. rewrite E. lia.
  - apply Byte.of_N_None_iff in E. lia.
Qed.

Lemma byte_of_Z_of_byte b : byte_of_Z (Z_of_byte b) = b.
Proof.
  unfold byte_of_Z, Z_of_byte.
  pose proof (Byte.to_N_bounded b).
  rewrite Z.mod_small by lia. rewrite N2Z.id, Byte.of_to_N. done.
Qed.

Lemma length_encode_le n z : length (encode_le n z) = n.
Proof. revert z. induction n as [|n IH]; intros z; simpl; [done|]. by rewrite IH. Qed.

Lemma decode_encode_le n z : decode_le (encode_le n z) = z mod 256 ^ Z.of_nat n.
Proof.
  revert z. induction n as [|n IH]; intros z.
  - simpl. by rewrite Z.mod_1_r.
  - cbn [encode_le decode_le]. rewrite IH, Z_of_byte_of_Z.
    rewrite Nat2Z.inj_succ, Z.pow_succ_r by lia.
    rewrite Z.rem_mul_r by lia. lia.
Qed.

Lemma decode_le_range bs : 0 <= decode_le bs < 256 ^ Z.of_nat (length bs).
Proof.
  induction bs as [|b bs IH].
  - simpl. lia.
  - cbn [decode_le length]. rewrite Nat2Z.inj_succ, Z.pow_succ_r by lia.
    pose proof (Z_of_byte_range b). lia.
Qed.

Lemma read_range_Ok data from n bs :
  read_range data from n = Ok bs ->
  0 <= from /\ 0 <= n /\ from + n <= size_of data /\ size_of bs = n.
Proof.
  unfold read_range, size_of.
  destruct ((0 <=? from) && (0 <=? n) && (from + n <=? Z.of_nat (length data))) eqn:E;
    [|discriminate].
  intros [= <-]. rewrite !andb_true_iff, !Z.leb_le in E.
  rewrite length_take, length_drop. lia.
Qed.

Lemma read_range_framed pre x post from n :
  from = size_of pre -> n = size_of x ->
  read_range (pre ++ x ++ post) from n = Ok x.
Proof.
  intros -> ->. unfold read_range, size_of.
  rewrite !length_app.
  replace ((0 <=? _) && _ && _) with true
    by (symmetry; rewrite !andb_true_iff, !Z.leb_le; lia).
  rewrite !Nat2Z.id. rewrite drop_app_length, take_app_length. done.
Qed.

Lemma read_le_framed k pre z post from :
  from = size_of pre ->
  read_le k (pre ++ encode_le k z ++ post) from = Ok (z mod 256 ^ Z.of_nat k).
Proof.
  intros ->. unfold read_le.
  rewrite (read_range_framed pre (encode_le k z) post)
    by (unfold size_of; rewrite ?length_encode_le; done).
  simpl. by rewrite decode_encode_le.
Qed.

Lemma length_list_byte_of_string s :
  length (list_byte_of_string s) = String.length s.
Proof.
  unfold list_byte_of_string. rewrite length_map.
  induction s as [|c s IH]; simpl; [done|]. by rewrite IH.
Qed.

Lemma u32_small n : 0 <= n < 4294967296 -> u32 n = n.
Proof. intros H. unfold u32. by rewrite Z.mod_small. Qed.

Lemma mod_pow_32 z : z mod 256 ^ Z.of_nat 4 = u32 z.
Proof. reflexivity. Qed.

Lemma read_le_head k z post :
  read_le k (encode_le k z ++ post) 0 = Ok (z mod 256 ^ Z.of_nat k).
Proof. by apply (read_le_framed k [] z post 0). Qed.

(** The decoder on a buffer laid out as three length-prefixed fields and
    eight timestamp bytes, whatever follows them. *)
Lemma deserialize_fields (pd cm chb rest : list byte) (ts : Z) :
  size_of pd < 4294967296 -> size_of cm < 4294967296 ->
  size_of chb < 4294967296 ->
  ZKProof.deserialize
    (encode_le 4 (size_of pd) ++ pd ++ encode_le 4 (size_of cm) ++ cm
     ++ encode_le 4 (size_of chb) ++ chb ++ encode_le 8 ts ++ rest)
  = Ok (ZKProof.mk pd cm (string_of_list_byte chb)
                   (ts mod 18446744073709551616)).
Proof.
  intros Hpd Hcm Hch.
  unfold ZKProof.deserialize, read_u32, read_u64. cbv zeta.
  set (e1 := encode_le 4 (size_of pd)).
  set (e2 := encode_le 4 (size_of cm)).
  set (e3 := encode_le 4 (size_of chb)).
  set (e4 := encode_le 8 ts).
  assert (L1 : size_of e1 = 4) by (unfold size_of, e1; by rewrite length_encode_le).
  assert (L2 : size_of e2 = 4) by (unfold size_of, e2; by rewrite length_encode_le).
  assert (L3 : size_of e3 = 4) by (unfold size_of, e3; by rewrite length_encode_le).
  (* proofSize and proofData *)
  unfold e1. rewrite read_le_head. fold e1.
  rewrite mod_pow_32, u32_small by (unfold size_of in *; lia).
  cbn [mbind result_bind].
  rewrite (read_range_framed e1 pd _ (0 + 4) (size_of pd)) by lia.
  cbn [mbind result_bind].
  (* commitSize and commitment *)
  rewrite (app_assoc e1 pd).
  rewrite (read_le_framed 4 (e1 ++ pd) (size_of cm) _ (0 + 4 + size_of pd))
    by (unfold size_of in *; rewrite length_app; lia).
  rewrite mod_pow_32, u32_small by (unfold size_of in *; lia).
  cbn [mbind result_bind].
  rewrite (app_assoc (e1 ++ pd) e2).
  rewrite (read_range_framed ((e1 ++ pd) ++ e2) cm _ _ (size_of cm))
    by (unfold size_of in *; rewrite ?length_app; lia).
  cbn [mbind result_bind].
  (* chalLen and challenge *)
  rewrite (app_assoc ((e1 ++ pd) ++ e2) cm).
  rewrite (read_le_framed 4 (((e1 ++ pd) ++ e2) ++ cm) (size_of chb) _ _)
    by (unfold size_of in *; rewrite ?length_app; lia).
  rewrite mod_pow_32, u32_small by (unfold size_of in *; lia).
  cbn [mbind result_bind].
  rewrite (app_assoc (((e1 ++ pd) ++ e2) ++ cm) e3).
  rewrite (read_range_framed ((((e1 ++ pd) ++ e2) ++ cm) ++ e3) chb _ _ _)
    by (unfold size_of in *; rewrite ?length_app; lia).
  cbn [mbind result_bind].
  (* timestamp *)
  rewrite (app_assoc ((((e1 ++ pd) ++ e2) ++ cm) ++ e3) chb).
  rewrite (read_le_framed 8 (((((e1 ++ pd) ++ e2) ++ cm) ++ e3) ++ chb) ts rest _)
    by (unfold size_of in *; rewrite ?length_app; lia).
  reflexivity.
Qed.

Lemma read_le_Ok k data off z :
  read_le k data off = Ok z -> 0 <= z < 256 ^ Z.of_nat k.
Proof.
  unfold read_le. intros H. apply bind_Ok in H as (bs & Hbs & [= <-]).
  apply read_range_Ok in Hbs as (_ & _ & _ & Hlen).
  pose proof (decode_le_range bs) as Hr. unfold size_of in Hlen.
  apply Nat2Z.inj in Hlen. by rewrite Hlen in Hr.
Qed.

Lemma deserialize_proofData_bound data q :
  ZKProof.deserialize data = Ok q -> size_of (ZKProof.proofData q) < 4294967296.
Proof.
  unfold ZKProof.deserialize. cbv zeta. intros H.
  apply bind_Ok in H as (proofSize & H1 & H).
  apply bind_Ok in H as (pd & H2 & H).
  apply bind_Ok in H as (commitSize & _ & H).
  apply bind_Ok in H as (cm & _ & H).
  apply bind_Ok in H as (chalLen & _ & H).
  apply bind_Ok in H as (ch & _ & H).
  apply bind_Ok in H as (ts & _ & [= <-]).
  cbn [ZKProof.proofData].
  apply read_le_Ok in H1. apply read_range_Ok in H2 as (_ & _ & _ & ->).
  change (256 ^ Z.of_nat 4) with 4294967296 in H1. lia.
Qed.

Lemma roundtrip_needs_u32_proofData (p : ZKProof.t) (n : nat) :
  ZKProof.proofData p = replicate n x00 -> 4294967296 <= Z.of_nat n ->
  ZKProof.deserialize (ZKProof.serialize p) <> Ok p.
Proof.
  intros Hp Hn H. apply deserialize_proofData_bound in H.
  rewrite Hp in H. unfold size_of in H. rewrite length_replicate in H. lia.
Qed.

Lemma int_incr_Ok n : n < INT_MAX -> int_incr n = Ok (n + 1).
Proof. intros H. unfold int_incr. by rewrite (proj2 (Z.ltb_lt _ _) H). Qed.

Lemma int_incr_inv n r : int_incr n = Ok r -> r = n + 1 /\ n < INT_MAX.
Proof.
  unfold int_incr. destruct (n <? INT_MAX) eqn:E; [|discriminate].
  apply Z.ltb_lt in E. by intros [= <-].
Qed.

Lemma read_range_in_bounds data from n :
  0 <= from -> 0 <= n -> from + n <= size_of data ->
  read_range data from n = Ok (take (Z.to_nat n) (drop (Z.to_nat from) data)).
Proof.
  intros H1 H2 H3. unfold read_range.
  by rewrite (proj2 (Z.leb_le _ _) H1), (proj2 (Z.leb_le _ _) H2),
             (proj2 (Z.leb_le _ _) H3).
Qed.

Lemma read_le_in_bounds k data off :
  0 <= off -> off + Z.of_nat k <= size_of data ->
  exists z, read_le k data off = Ok z /\ 0 <= z < 256 ^ Z.of_nat k.
Proof.
  intros H1 H2. unfold read_le.
  rewrite read_range_in_bounds by lia. cbn [mbind result_bind].
  eexists. split; [reflexivity|].
  pose proof (decode_le_range (take (Z.to_nat (Z.of_nat k)) (drop (Z.to_nat off) data))) as Hr.
  rewrite length_take, length_drop in Hr. unfold size_of in H2.
  replace (Z.to_nat (Z.of_nat k) `min` (length data - Z.to_nat off))%nat with k in Hr by lia.
  exact Hr.
Qed.

Lemma request_header (ty : byte) (id : string) (rest : list byte) :
  Z.of_nat (String.length id) < 4294967296 ->
  let data := ty :: encode_le 4 (Z.of_nat (String.length id))
                 ++ list_byte_of_string id ++ rest in
  size_of data = 5 + Z.of_nat (String.length id) + size_of rest
  /\ read_le 4 data 1 = Ok (Z.of_nat (String.length id))
  /\ read_range data (1 + 4) (Z.of_nat (String.length id))
     = Ok (list_byte_of_string id).
Proof.
  intros Hlen data. split; [|split].
  - unfold data, size_of. cbn [length]. rewrite !length_app, length_encode_le,
      length_list_byte_of_string. lia.
  - unfold data.
    change (ty :: encode_le 4 ?z ++ ?r) with ([ty] ++ encode_le 4 z ++ r).
    rewrite (read_le_framed 4 [ty] (Z.of_nat (String.length id)) _ 1) by done.
    rewrite mod_pow_32, u32_small by lia. done.
  - unfold data.
    change (ty :: encode_le 4 ?z ++ ?r) with ((ty :: encode_le 4 z) ++ r).
    apply read_range_framed.
    + unfold size_of. cbn [length]. rewrite length_encode_le. lia.
    + unfold size_of. by rewrite length_list_byte_of_string.
Qed.

Lemma deserialize_serialize_app (p : ZKProof.t) (rest : list byte) :
  ZKProof.fits_u32 p -> ZKProof.well_typed p ->
  ZKProof.deserialize (ZKProof.serialize p ++ rest) = Ok p.
Proof.
  destruct p as [pd cm ch ts]. unfold ZKProof.fits_u32, ZKProof.well_typed.
  cbn [ZKProof.proofData ZKProof.commitment ZKProof.challenge ZKProof.timestamp].
  intros (Hpd & Hcm & Hch) Hts.
  unfold ZKProof.serialize.
  cbn [ZKProof.proofData ZKProof.commitment ZKProof.challenge ZKProof.timestamp].
  rewrite <- (length_list_byte_of_string ch) in Hch |- *.
  fold (size_of (list_byte_of_string ch)) in Hch |- *.
  rewrite !u32_small by (unfold size_of in *; lia).
  rewrite <- !app_assoc.
  rewrite deserialize_fields by assumption.
  rewrite string_of_list_byte_of_string.
  by rewrite (Z.mod_small ts) by exact Hts.
Qed.

Lemma size_of_serialize p : 20 <= size_of (ZKProof.serialize p).
Proof.
  unfold ZKProof.serialize, size_of. cbv zeta.
  rewrite !length_app, !length_encode_le. lia.
Qed.

Lemma encode_decode_le (bs : list byte) :
  encode_le (length bs) (decode_le bs) = bs.
Proof.
  induction bs as [|b bs IH]; [done|].
  cbn [length encode_le decode_le].
  pose proof (Z_of_byte_range b) as Hb.
  f_equal.
  - unfold byte_of_Z.
    replace ((Z_of_byte b + 256 * decode_le bs) mod 256) with (Z_of_byte b)
      by (apply (Z.mod_unique_pos _ 256 (decode_le bs)); lia).
    unfold Z_of_byte. by rewrite N2Z.id, Byte.of_to_N.
  - replace ((Z_of_byte b + 256 * decode_le bs) / 256) with (decode_le bs); [done|].
    apply (Z.div_unique_pos _ 256 _ (Z_of_byte b)); lia.
Qed.

Lemma read_range_split data from n bs :
  read_range data from n = Ok bs ->
  exists pre post, data = pre ++ bs ++ post /\ size_of pre = from /\ size_of bs = n.
Proof.
  intros H. pose proof (read_range_Ok _ _ _ _ H) as (Hf & Hn & Hb & Hl).
  unfold read_range in H.
  destruct ((0 <=? from) && (0 <=? n) && (from + n <=? size_of data)); [|discriminate].
  injection H as <-.
  exists (take (Z.to_nat from) data), (drop (Z.to_nat n) (drop (Z.to_nat from) data)).
  split; [by rewrite !take_drop|].
  split; [|done]. unfold size_of in *. rewrite length_take. lia.
Qed.

Lemma read_le_split k data off z :
  read_le k data off = Ok z ->
  exists pre post, data = pre ++ encode_le k z ++ post /\ size_of pre = off.
Proof.
  unfold read_le. intros H. apply bind_Ok in H as (bs & Hbs & [= <-]).
  apply read_range_split in Hbs as (pre & post & -> & Hpre & Hlen).
  exists pre, post. split; [|done].
  unfold size_of in Hlen. apply Nat2Z.inj in Hlen. subst k.
  by rewrite encode_decode_le.
Qed.

Lemma read_range_after pre rest off n bs :
  off = size_of pre ->
  read_range (pre ++ rest) off n = Ok bs ->
  exists post, rest = bs ++ post /\ size_of bs = n.
Proof.
  intros -> H. apply read_range_split in H as (pre' & post & E & Hp & Hn).
  apply app_inj_1 in E as [<- ->];
    [|unfold size_of in Hp; by apply Nat2Z.inj in Hp].
  eauto.
Qed.

Lemma read_le_after k pre rest off z :
  off = size_of pre ->
  read_le k (pre ++ rest) off = Ok z ->
  exists post, rest = encode_le k z ++ post.
Proof.
  intros -> H. apply read_le_split in H as (pre' & post & E & Hp).
  apply app_inj_1 in E as [<- ->];
    [|unfold size_of in Hp; by apply Nat2Z.inj in Hp].
  eauto.
Qed.

Lemma read_range_cases data from n :
  (exists bs, read_range data from n = Ok bs
              /\ 0 <= from /\ 0 <= n /\ from + n <= size_of data /\ size_of bs = n)
  \/ read_range data from n = Undefined OutOfBoundsRead.
Proof.
  destruct (read_range data from n) as [bs| |] eqn:E.
  - left. exists bs. split; [done|]. by apply read_range_Ok in E.
  - unfold read_range in E. by destruct (_ && _).
  - right. unfold read_range in E. destruct (_ && _); [done|]. by injection E as <-.
Qed.

Lemma read_le_cases k data off :
  (exists z, read_le k data off = Ok z
             /\ 0 <= off /\ off + Z.of_nat k <= size_of data
             /\ 0 <= z < 256 ^ Z.of_nat k)
  \/ read_le k data off = Undefined OutOfBoundsRead.
Proof.
  unfold read_le.
  destruct (read_range_cases data off (Z.of_nat k))
    as [(bs & -> & H0 & _ & Hb & Hl)| -> ]; [|by right].
  left. eexists. split; [reflexivity|]. split; [done|]. split; [done|].
  pose proof (decode_le_range bs) as Hr. unfold size_of in Hl.
  apply Nat2Z.inj in Hl. by rewrite Hl in Hr.
Qed.

Lemma int_incr_no_throw n : is_Throws (int_incr n) = false.
Proof. unfold int_incr. by destruct (n <? INT_MAX). Qed.

Lemma read_range_no_throw data from n : is_Throws (read_range data from n) = false.
Proof. unfold read_range. by destruct (_ && _). Qed.

Lemma read_le_no_throw k data off : is_Throws (read_le k data off) = false.
Proof.
  unfold read_le. apply bind_no_throw; [apply read_range_no_throw|done].
Qed.

Lemma deserialize_no_throw data : is_Throws (ZKProof.deserialize data) = false.
Proof.
  unfold ZKProof.deserialize, read_u32, read_u64. cbv zeta.
  repeat (apply bind_no_throw;
          [apply read_le_no_throw || apply read_range_no_throw | intros ? _]).
  done.
Qed.

End WireFacts.

(** ** ZKProof: serialization *)

Module ZKProofFacts.
Import Machine Wire WireFacts Examples.

(** C6, as stated, fails: a proof whose [proofData] has 2^32 bytes is
    serialized with the length prefix 0, so that deserializing the bytes
    does not give the proof back. *)
Lemma roundtrip_fails_beyond_u32 :
  ZKProof.deserialize (ZKProof.serialize oversized) <> Ok oversized.
Proof.
  apply (roundtrip_needs_u32_proofData oversized (Z.to_nat 4294967296)).
  - reflexivity.
  - rewrite Z2Nat.id; [apply Z.le_refl | discriminate].
Qed.

(** C6, amended: for every proof whose proofData, commitment and challenge
    are each shorter than 2^32 bytes (and whose timestamp is a 64-bit
    unsigned value, as its type says), deserializing the serialized proof
    returns the proof itself. *)
Theorem deserialize_serialize (p : ZKProof.t) :
  ZKProof.fits_u32 p -> ZKProof.well_typed p ->
  ZKProof.deserialize (ZKProof.serialize p) = Ok p.
Proof.
  destruct p as [pd cm ch ts]. unfold ZKProof.fits_u32, ZKProof.well_typed.
  cbn [ZKProof.proofData ZKProof.commitment ZKProof.challenge ZKProof.timestamp].
  intros (Hpd & Hcm & Hch) Hts.
  unfold ZKProof.serialize.
  cbn [ZKProof.proofData ZKProof.commitment ZKProof.challenge ZKProof.timestamp].
  rewrite <- (length_list_byte_of_string ch) in Hch |- *.
  fold (size_of (list_byte_of_string ch)) in Hch |- *.
  rewrite !u32_small by (unfold size_of in *; lia).
  rewrite <- (app_nil_r (encode_le 8 ts)).
  rewrite deserialize_fields by assumption.
  rewrite string_of_list_byte_of_string.
  by rewrite (Z.mod_small ts) by exact Hts.
Qed.

Lemma deserialize_serialize_witness :
  ZKProof.deserialize (ZKProof.serialize sample_proof) = Ok sample_proof.
Proof.
  apply deserialize_serialize.
  - unfold ZKProof.fits_u32. vm_compute. done.
  - unfold ZKProof.well_typed. vm_compute. split; [discriminate | reflexivity].
Defined.

(** X1: the decoder succeeds exactly on the buffers that begin with the
    serialization of a proof whose fields fit their length prefixes, and
    returns that proof; what follows the timestamp is ignored. *)
Theorem deserialize_Ok_iff (data : list byte) (q : ZKProof.t) :
  ZKProof.deserialize data = Ok q
  <-> ZKProof.fits_u32 q /\ ZKProof.well_typed q
      /\ exists rest, data = ZKProof.serialize q ++ rest.
Proof.
  split.
  2:{ intros (Hfit & Hwt & rest & ->). by apply deserialize_serialize_app. }
  unfold ZKProof.deserialize, read_u32, read_u64. cbv zeta. intros H.
  apply bind_Ok in H as (proofSize & H1 & H).
  apply bind_Ok in H as (pd & H2 & H).
  apply bind_Ok in H as (commitSize & H3 & H).
  apply bind_Ok in H as (cm & H4 & H).
  apply bind_Ok in H as (chalLen & H5 & H).
  apply bind_Ok in H as (ch & H6 & H).
  apply bind_Ok in H as (ts & H7 & [= <-]).
  pose proof (read_le_Ok _ _ _ _ H1) as R1.
  pose proof (read_le_Ok _ _ _ _ H3) as R3.
  pose proof (read_le_Ok _ _ _ _ H5) as R5.
  pose proof (read_le_Ok _ _ _ _ H7) as R7.
  change (256 ^ Z.of_nat 4) with 4294967296 in *.
  change (256 ^ Z.of_nat 8) with 18446744073709551616 in *.
  pose proof (read_range_Ok _ _ _ _ H2) as (_ & _ & _ & L2).
  pose proof (read_range_Ok _ _ _ _ H4) as (_ & _ & _ & L4).
  pose proof (read_range_Ok _ _ _ _ H6) as (_ & _ & _ & L6).
  assert (Lch : Z.of_nat (String.length (string_of_list_byte ch)) = chalLen).
  { rewrite <- length_list_byte_of_string, list_byte_of_string_of_list_byte.
    exact L6. }
  split; [|split].
  - unfold ZKProof.fits_u32. cbn. lia.
  - unfold ZKProof.well_typed. cbn. lia.
  - unfold ZKProof.serialize. cbv zeta. cbn [ZKProof.proofData ZKProof.commitment
      ZKProof.challenge ZKProof.timestamp].
    rewrite list_byte_of_string_of_list_byte, Lch, L2, L4.
    rewrite !u32_small by lia.
    set (e1 := encode_le 4 proofSize) in *.
    set (e2 := encode_le 4 commitSize) in *.
    set (e3 := encode_le 4 chalLen) in *.
    assert (S1 : size_of e1 = 4) by (unfold size_of, e1; by rewrite length_encode_le).
    assert (S2 : size_of e2 = 4) by (unfold size_of, e2; by rewrite length_encode_le).
    assert (S3 : size_of e3 = 4) by (unfold size_of, e3; by rewrite length_encode_le).
    (* peel the buffer field by field *)
    destruct (read_le_after 4 [] data 0 proofSize eq_refl H1) as (r1 & ->).
    fold e1 in H2, H3, H4, H5, H6, H7.
    apply (read_range_after e1 r1) in H2 as (r2 & -> & _); [|lia].
    rewrite (app_assoc e1 pd) in H3, H4, H5, H6, H7.
    apply (read_le_after 4 (e1 ++ pd) r2) in H3 as (r3 & ->); [|unfold size_of in *; rewrite length_app; lia].
    fold e2 in H4, H5, H6, H7.
    rewrite (app_assoc (e1 ++ pd) e2) in H4, H5, H6, H7.
    apply (read_range_after ((e1 ++ pd) ++ e2) r3) in H4 as (r4 & -> & _); [|unfold size_of in *; rewrite !length_app; lia].
    rewrite (app_assoc ((e1 ++ pd) ++ e2) cm) in H5, H6, H7.
    apply (read_le_after 4 (((e1 ++ pd) ++ e2) ++ cm) r4) in H5 as (r5 & ->); [|unfold size_of in *; rewrite !length_app; lia].
    fold e3 in H6, H7.
    rewrite (app_assoc (((e1 ++ pd) ++ e2) ++ cm) e3) in H6, H7.
    apply (read_range_after ((((e1 ++ pd) ++ e2) ++ cm) ++ e3) r5) in H6 as (r6 & -> & _); [|unfold size_of in *; rewrite !length_app; lia].
    rewrite (app_assoc ((((e1 ++ pd) ++ e2) ++ cm) ++ e3) ch) in H7.
    apply (read_le_after 8 (((((e1 ++ pd) ++ e2) ++ cm) ++ e3) ++ ch) r6) in H7 as (r7 & ->); [|unfold size_of in *; rewrite !length_app; lia].
    exists r7. by rewrite <- !app_assoc.
Qed.

(** X2: a buffer shorter than the 20 bytes of the three length fields and the
    timestamp is never rejected: the decoder reads past its end. *)
Theorem deserialize_undersized (data : list byte) :
  size_of data < 20 ->
  ZKProof.deserialize data = Undefined OutOfBoundsRead.
Proof.
  intros Hsz. unfold ZKProof.deserialize, read_u32, read_u64. cbv zeta.
  destruct (read_le_cases 4 data 0) as [(n1 & -> & _ & _ & R1)| -> ]; [|done].
  cbn [mbind result_bind].
  destruct (read_range_cases data (0 + 4) n1) as [(pd & -> & _ & _ & B2 & _)| -> ]; [|done].
  cbn [mbind result_bind].
  destruct (read_le_cases 4 data (0 + 4 + n1)) as [(n2 & -> & _ & _ & R2)| -> ]; [|done].
  cbn [mbind result_bind].
  destruct (read_range_cases data (0 + 4 + n1 + 4) n2) as [(cm & -> & _ & _ & B4 & _)| -> ]; [|done].
  cbn [mbind result_bind].
  destruct (read_le_cases 4 data (0 + 4 + n1 + 4 + n2)) as [(n3 & -> & _ & _ & R3)| -> ]; [|done].
  cbn [mbind result_bind].
  destruct (read_range_cases data (0 + 4 + n1 + 4 + n2 + 4) n3) as [(ch & -> & _ & _ & B6 & _)| -> ]; [|done].
  cbn [mbind result_bind].
  destruct (read_le_cases 8 data (0 + 4 + n1 + 4 + n2 + 4 + n3)) as [(ts & _ & _ & B7 & _)| -> ]; [|done].
  lia.
Qed.

Lemma deserialize_undersized_witness :
  ZKProof.deserialize [x20; x00; x00; x00; xab; xcd] = Undefined OutOfBoundsRead.
Proof. apply deserialize_undersized. vm_compute. reflexivity. Defined.

End ZKProofFacts.

(** ** ZKPModule: verification *)

Module ZKPModuleFacts.
Import Machine Wire WireFacts Examples.
Import ZKPModule.

Lemma freshness_window_seconds : FRESHNESS_WINDOW = 5 * TICKS_PER_SECOND.
Proof. reflexivity. Qed.

Lemma to_int64_exact x : INT64_MIN <= x <= INT64_MAX -> to_int64 x = x.
Proof.
  unfold to_int64, INT64_MIN, INT64_MAX. intros Hx. cbv zeta.
  destruct (Z_lt_le_dec x 0) as [Hneg|Hpos].
  - rewrite <- (Z.mod_unique_pos x 18446744073709551616 (-1)
                  (x + 18446744073709551616)) by lia.
    replace (_ <? _) with false by (symmetry; apply Z.ltb_ge; lia). lia.
  - rewrite Z.mod_small by lia.
    by replace (_ <? _) with true by (symmetry; apply Z.ltb_lt; lia).
Qed.

(** Inside the 64 bits the machine difference is the difference. *)
Lemma int64_sub_exact a b :
  INT64_MIN <= a - b <= INT64_MAX -> int64_sub a b = a - b.
Proof. apply to_int64_exact. Qed.

(** Away from [INT64_MIN] the machine absolute value is the absolute
    value. *)
Lemma int64_abs_exact d : INT64_MIN < d <= INT64_MAX -> int64_abs d = Z.abs d.
Proof.
  intros Hd. unfold int64_abs. destruct (d <? 0) eqn:E.
  - apply Z.ltb_lt in E.
    rewrite to_int64_exact by (unfold INT64_MIN, INT64_MAX in *; lia). lia.
  - apply Z.ltb_ge in E. lia.
Qed.

Lemma verifyProof_true e m p m' :
  verifyProof e m p = Ok (true, m') ->
  size_of (ZKProof.proofData p) = 32
  /\ ZKProof.commitment p = publicCommitment m
  /\ int64_abs (int64_sub (sys_now e) (to_int64 (ZKProof.timestamp p)))
     <= FRESHNESS_WINDOW
  /\ m' = set_lastStats
            (mkStats (proofSize (lastStats m)) (commitmentSize (lastStats m))
                     (generationTime (lastStats m)) (hr_end e - hr_start e)) m.
Proof.
  unfold verifyProof. cbv zeta.
  destruct (verifierInitialized m); cbn [negb]; [|discriminate].
  destruct (size_of (ZKProof.proofData p) =? SHA256_DIGEST_LENGTH) eqn:Hs;
    cbn [negb]; [|discriminate].
  case_bool_decide as Hc; cbn [negb]; [|discriminate].
  destruct (_ >? FRESHNESS_WINDOW) eqn:Hw; [discriminate|].
  intros [= <-].
  apply Z.eqb_eq in Hs. unfold SHA256_DIGEST_LENGTH in Hs.
  rewrite Z.gtb_ltb, Z.ltb_ge in Hw. done.
Qed.

Lemma verifyProof_accepts e m p :
  verifierInitialized m = true ->
  size_of (ZKProof.proofData p) = 32
  /\ ZKProof.commitment p = publicCommitment m
  /\ Z.abs (sys_now e - to_int64 (ZKProof.timestamp p)) <= FRESHNESS_WINDOW ->
  verifyProof e m p
  = Ok (true,
        set_lastStats
          (mkStats (proofSize (lastStats m)) (commitmentSize (lastStats m))
                   (generationTime (lastStats m)) (hr_end e - hr_start e)) m).
Proof.
  intros Hv (Hs & Hc & Hw). unfold verifyProof. cbv zeta.
  rewrite Hv, Hs. cbn [negb].
  change (32 =? SHA256_DIGEST_LENGTH) with true. cbn [negb].
  rewrite bool_decide_eq_true_2 by done. cbn [negb].
  unfold FRESHNESS_WINDOW in *.
  rewrite int64_sub_exact by (unfold INT64_MIN, INT64_MAX; lia).
  rewrite int64_abs_exact by (unfold INT64_MIN, INT64_MAX; lia).
  replace (_ >? _) with false; [done|].
  symmetry. rewrite Z.gtb_ltb, Z.ltb_ge. done.
Qed.

(** Whatever the verdict, a call that returns [false] leaves the module as
    it was. *)
Lemma verifyProof_false_unchanged e m p m' :
  verifyProof e m p = Ok (false, m') -> m' = m.
Proof.
  unfold verifyProof. cbv zeta.
  destruct (verifierInitialized m); cbn [negb]; [|discriminate].
  destruct (size_of (ZKProof.proofData p) =? SHA256_DIGEST_LENGTH);
    cbn [negb]; [|by intros [= <-]].
  case_bool_decide as Hc; cbn [negb]; [|by intros [= <-]].
  destruct (_ >? FRESHNESS_WINDOW); by intros [= <-].
Qed.

Lemma verifyProof_Ok_initialized e m p x :
  verifyProof e m p = Ok x -> verifierInitialized m = true.
Proof.
  unfold verifyProof. cbv zeta.
  by destruct (verifierInitialized m); cbn [negb].
Qed.

Lemma verifyProof_commitment e m p b m' :
  verifyProof e m p = Ok (b, m') ->
  publicCommitment m' = publicCommitment m
  /\ verifierInitialized m' = verifierInitialized m.
Proof.
  destruct b; intros H.
  - by destruct (verifyProof_true _ _ _ _ H) as (_ & _ & _ & ->).
  - by rewrite (verifyProof_false_unchanged _ _ _ _ H).
Qed.

(** On an initialized verifier the call returns a verdict. *)
Lemma verifyProof_returns e m p :
  verifierInitialized m = true ->
  exists b m', verifyProof e m p = Ok (b, m').
Proof.
  intros Hv. unfold verifyProof. cbv zeta. rewrite Hv. cbn [negb].
  destruct (size_of _ =? _); cbn [negb]; [|eauto].
  case_bool_decide as Hc; cbn [negb]; [|eauto].
  destruct (_ >? _); eauto.
Qed.

(** C1 fails on the code: the freshness test computes
    [std::abs((int64_t)now - (int64_t)proof.timestamp)] in 64 bits.  With
    the clock at 1700000000000000000 and a proof stamped
    10923372036854775808, which is 2^63 ticks ahead of the clock, the
    difference wraps to [INT64_MIN], [std::abs] leaves it, and
    [INT64_MIN > 5000000000] is false: the proof passes all three tests and
    [verifyProof] returns true, although its timestamp is not within the
    freshness window of the clock. *)
Theorem stale_timestamp_accepted :
  verifierInitialized registered = true
  /\ size_of (ZKProof.proofData stamped_ahead) = 32
  /\ ZKProof.commitment stamped_ahead = publicCommitment registered
  /\ Z.abs (sys_now env_fresh - ZKProof.timestamp stamped_ahead)
     = 9223372036854775808
  /\ 5 * TICKS_PER_SECOND
     < Z.abs (sys_now env_fresh - ZKProof.timestamp stamped_ahead)
  /\ int64_sub (sys_now env_fresh) (to_int64 (ZKProof.timestamp stamped_ahead))
     = INT64_MIN
  /\ int64_abs INT64_MIN = INT64_MIN
  /\ exists m', verifyProof env_fresh registered stamped_ahead = Ok (true, m').
Proof.
  repeat (split; [vm_compute; reflexivity|]).
  destruct (verifyProof env_fresh registered stamped_ahead) as [[b m1]| |] eqn:E;
    vm_compute in E; try discriminate.
  injection E as <- <-. eexists. reflexivity.
Qed.

(** X18: where the 64-bit arithmetic is exact (clock reading and timestamp
    both between 0 and 2^63 - 1), an initialized verifier returns a verdict,
    and the verdict is true exactly when proofData has 32 bytes, the
    commitment is the stored one and the timestamp is within 5000000000
    ticks of the clock; the bytes of proofData play no part in the outcome,
    and neither does any secret held by the module. *)
Theorem verifyProof_verdict_in_range (e : Env) (m : t) (p : ZKProof.t) :
  verifierInitialized m = true ->
  0 <= sys_now e <= INT64_MAX ->
  0 <= ZKProof.timestamp p <= INT64_MAX ->
  (exists b m', verifyProof e m p = Ok (b, m'))
  /\ ((exists m', verifyProof e m p = Ok (true, m'))
      <-> size_of (ZKProof.proofData p) = 32
          /\ ZKProof.commitment p = publicCommitment m
          /\ Z.abs (sys_now e - ZKProof.timestamp p) <= 5000000000)
  /\ (forall pd' : list byte,
        length pd' = length (ZKProof.proofData p) ->
        verifyProof e m (ZKProof.mk pd' (ZKProof.commitment p)
                                    (ZKProof.challenge p) (ZKProof.timestamp p))
        = verifyProof e m p)
  /\ (forall secret' : list byte,
        fst <$> verifyProof e
                  (mk secret' (publicCommitment m) (droneId m) (sessionNonce m)
                      (provingKey m) (verificationKey m) (lastStats m)
                      (proverInitialized m) (verifierInitialized m)
                      (keysGenerated m) (lastChallenge m)) p
        = fst <$> verifyProof e m p).
Proof.
  intros Hv Hnow Hts.
  assert (Hcast : to_int64 (ZKProof.timestamp p) = ZKProof.timestamp p)
    by (apply to_int64_exact; unfold INT64_MIN, INT64_MAX in *; lia).
  split; [by apply verifyProof_returns|]. split; [|split].
  - change 5000000000 with FRESHNESS_WINDOW. split.
    + intros [m' H].
      destruct (verifyProof_true _ _ _ _ H) as (Hs & Hc & Hw & _).
      rewrite Hcast in Hw.
      rewrite int64_sub_exact in Hw by (unfold INT64_MIN, INT64_MAX in *; lia).
      rewrite int64_abs_exact in Hw by (unfold INT64_MIN, INT64_MAX in *; lia).
      done.
    + intros (Hs & Hc & Hw). eexists. apply verifyProof_accepts; [done|].
      by rewrite Hcast.
  - intros pd' Hlen. unfold verifyProof, size_of. cbv zeta.
    cbn [ZKProof.proofData ZKProof.commitment ZKProof.timestamp].
    by rewrite Hlen.
  - intros secret'. unfold verifyProof. cbv zeta.
    cbn [verifierInitialized publicCommitment lastStats]. rewrite Hv.
    cbn [negb].
    destruct (size_of _ =? _); cbn [negb]; [|done].
    case_bool_decide as Hc; cbn [negb]; [|done].
    by destruct (_ >? FRESHNESS_WINDOW).
Qed.

Lemma verifyProof_verdict_in_range_witness :
  (exists b m', verifyProof env_fresh registered sample_proof = Ok (b, m'))
  /\ ((exists m', verifyProof env_fresh registered sample_proof = Ok (true, m'))
      <-> size_of (ZKProof.proofData sample_proof) = 32
          /\ ZKProof.commitment sample_proof = publicCommitment registered
          /\ Z.abs (sys_now env_fresh - ZKProof.timestamp sample_proof) <= 5000000000)
  /\ (forall pd' : list byte,
        length pd' = length (ZKProof.proofData sample_proof) ->
        verifyProof env_fresh registered
          (ZKProof.mk pd' (ZKProof.commitment sample_proof)
                      (ZKProof.challenge sample_proof)
                      (ZKProof.timestamp sample_proof))
        = verifyProof env_fresh registered sample_proof)
  /\ (forall secret' : list byte,
        fst <$> verifyProof env_fresh
                  (mk secret' (publicCommitment registered) (droneId registered)
                      (sessionNonce registered) (provingKey registered)
                      (verificationKey registered) (lastStats registered)
                      (proverInitialized registered)
                      (verifierInitialized registered)
                      (keysGenerated registered) (lastChallenge registered))
                  sample_proof
        = fst <$> verifyProof env_fresh registered sample_proof).
Proof.
  apply (verifyProof_verdict_in_range env_fresh registered sample_proof).
  - reflexivity.
  - vm_compute. split; discriminate.
  - vm_compute. split; discriminate.
Defined.

(** C9 fails on the code: a verification that returns false leaves
    [lastStats] untouched.  After an accepted proof measured at 7 ticks, the
    same proof presented ten seconds later is rejected in a call measured at
    150 ticks, and [getLastProofStats] still reports 7. *)
Theorem rejected_verification_not_timed :
  exists m1 : t,
    verifyProof env_fresh registered sample_proof = Ok (true, m1)
    /\ verificationTime (getLastProofStats m1) = 7
    /\ verifyProof env_late m1 sample_proof = Ok (false, m1)
    /\ hr_end env_late - hr_start env_late = 150
    /\ verificationTime (getLastProofStats m1) <> 150.
Proof.
  destruct (verifyProof env_fresh registered sample_proof) as [[b m1]| |] eqn:E;
    vm_compute in E; try discriminate.
  injection E as <- <-. eexists. split; [reflexivity|].
  split; [reflexivity|]. split; [|split]; [vm_compute; reflexivity | reflexivity | discriminate].
Qed.

Lemma decimal_inj (a b : Z) : decimal a = decimal b -> a = b.
Proof.
  unfold decimal. intros H.
  assert (Hnn : forall z, Z.to_int z <> Decimal.Pos Decimal.Nil
                          /\ Z.to_int z <> Decimal.Neg Decimal.Nil).
  { intros [|q|q]; cbn [Z.to_int]; split; try discriminate;
      intros [= Hq]; by apply Unsigned.to_uint_nonnil in Hq. }
  apply DecimalZ.to_int_inj.
  assert (Some (Z.to_int a) = Some (Z.to_int b)) as [= ->]; [|done].
  rewrite <- (NilZero.isi (Z.to_int a)), <- (NilZero.isi (Z.to_int b));
    [by rewrite H | apply Hnn | apply Hnn | apply Hnn | apply Hnn].
Qed.

Lemma uint_no_underscore (d : Decimal.uint) :
  "_"%char ∉ list_ascii_of_string (NilEmpty.string_of_uint d).
Proof.
  induction d; cbn [NilEmpty.string_of_uint list_ascii_of_string];
    rewrite ?not_elem_of_cons; try (split; [discriminate|done]).
  apply not_elem_of_nil.
Qed.

Lemma decimal_no_underscore (z : Z) :
  "_"%char ∉ list_ascii_of_string (decimal z).
Proof.
  unfold decimal, NilZero.string_of_int, NilZero.string_of_uint.
  destruct (Z.to_int z) as [d|d]; destruct d;
    cbn [list_ascii_of_string]; rewrite ?not_elem_of_cons;
    repeat (split; [discriminate|]);
    try apply uint_no_underscore; try apply not_elem_of_nil.
Qed.

Lemma split_at_underscore (s1 s2 t1 t2 : string) :
  "_"%char ∉ list_ascii_of_string s1 ->
  "_"%char ∉ list_ascii_of_string s2 ->
  (s1 +:+ String "_" t1 = s2 +:+ String "_" t2)%string ->
  s1 = s2 /\ t1 = t2.
Proof.
  revert s2. induction s1 as [|c s1 IH]; intros [|c2 s2] H1 H2; cbn; intros E.
  - by injection E as ->.
  - injection E as <- _. exfalso. apply H2. left.
  - injection E as -> _. exfalso. apply H1. left.
  - injection E as -> E. cbn in H1, H2. rewrite not_elem_of_cons in H1, H2.
    destruct (IH s2) as [-> ->]; [apply H1 | apply H2 | exact E | done].
Qed.


(** X3: the challenge carries the clock reading: two calls at different
    readings of the system clock return different challenges, whatever
    the random generator delivers. *)
Theorem generateChallenge_distinct_clocks
        (e1 e2 : Env) (pos1 pos2 : nat) (m1 m2 : t) :
  sys_now e1 <> sys_now e2 ->
  (generateChallenge e1 pos1 m1).1 <> (generateChallenge e2 pos2 m2).1.
Proof.
  intros Hne. unfold generateChallenge. cbv zeta. cbn [fst].
  intros E. apply Hne. apply decimal_inj.
  cbn [String.append] in E.
  injection E as E.
  by apply split_at_underscore in E as [E _];
    [| apply decimal_no_underscore | apply decimal_no_underscore].
Qed.

Lemma generateChallenge_distinct_clocks_witness :
  (generateChallenge env_fresh 0 registered).1
  <> (generateChallenge env_late 0 registered).1.
Proof.
  apply (generateChallenge_distinct_clocks env_fresh env_late 0 0 registered registered).
  vm_compute. discriminate.
Defined.

(** X4: of the 16 random bytes drawn, the challenge shows the first eight:
    [substr(0, 16)] keeps 16 of the 32 hexadecimal characters. *)
Theorem generateChallenge_uses_eight_random_bytes
        (e e' : Env) (pos : nat) (m : t) :
  sys_now e = sys_now e' ->
  (forall i : nat, (i < 8)%nat -> entropy e (pos + i) = entropy e' (pos + i)) ->
  (generateChallenge e pos m).1 = (generateChallenge e' pos m).1.
Proof.
  intros Hnow Hrnd. unfold generateChallenge, generateRandomBytes. cbv zeta.
  cbn [fst]. rewrite Hnow. do 3 f_equal.
  cbn [seq map bytesToHex substring].
  pose proof (Hrnd 0%nat ltac:(lia)) as H0. rewrite Nat.add_0_r in H0.
  pose proof (Hrnd 1%nat ltac:(lia)) as H1. rewrite Nat.add_1_r in H1.
  pose proof (Hrnd 2%nat ltac:(lia)) as H2.
  pose proof (Hrnd 3%nat ltac:(lia)) as H3.
  pose proof (Hrnd 4%nat ltac:(lia)) as H4.
  pose proof (Hrnd 5%nat ltac:(lia)) as H5.
  pose proof (Hrnd 6%nat ltac:(lia)) as H6.
  pose proof (Hrnd 7%nat ltac:(lia)) as H7.
  replace (pos + 2)%nat with (S (S pos)) in H2 by lia.
  replace (pos + 3)%nat with (S (S (S pos))) in H3 by lia.
  replace (pos + 4)%nat with (S (S (S (S pos)))) in H4 by lia.
  replace (pos + 5)%nat with (S (S (S (S (S pos))))) in H5 by lia.
  replace (pos + 6)%nat with (S (S (S (S (S (S pos)))))) in H6 by lia.
  replace (pos + 7)%nat with (S (S (S (S (S (S (S pos))))))) in H7 by lia.
  by rewrite H0, H1, H2, H3, H4, H5, H6, H7.
Qed.

Lemma hex_digit_inj (a b : Z) :
  0 <= a < 16 -> 0 <= b < 16 -> hex_digit a = hex_digit b -> a = b.
Proof.
  intros Ha Hb H. unfold hex_digit in H.
  apply (f_equal N_of_ascii) in H.
  destruct (a <? 10) eqn:Ea, (b <? 10) eqn:Eb;
    rewrite ?Z.ltb_lt, ?Z.ltb_ge in *;
    rewrite !N_ascii_embedding in H by lia; lia.
Qed.

Lemma Z_of_byte_inj (a b : byte) : Z_of_byte a = Z_of_byte b -> a = b.
Proof.
  intros H. rewrite <- (byte_of_Z_of_byte a), <- (byte_of_Z_of_byte b).
  by rewrite H.
Qed.

(** X5: [bytesToHex] writes two characters per byte and loses nothing: equal
    hexadecimal strings come from equal byte vectors. *)
Theorem bytesToHex_faithful (a b : list byte) :
  String.length (bytesToHex a) = (2 * length a)%nat
  /\ (bytesToHex a = bytesToHex b <-> a = b).
Proof.
  split.
  - induction a as [|x a IH]; [done|]. cbn [bytesToHex String.length length].
    rewrite IH. lia.
  - split; [|by intros ->].
    revert b. induction a as [|x a IH]; intros [|y b]; cbn [bytesToHex];
      try done.
    intros [= Hhi Hlo Hrest].
    pose proof (Z_of_byte_range x) as Rx. pose proof (Z_of_byte_range y) as Ry.
    apply hex_digit_inj in Hhi;
      [|split; [apply Z.div_pos|apply Z.div_lt_upper_bound]; lia
       |split; [apply Z.div_pos|apply Z.div_lt_upper_bound]; lia].
    apply hex_digit_inj in Hlo; [|apply Z.mod_pos_bound; lia..].
    f_equal; [|by apply IH].
    apply Z_of_byte_inj.
    rewrite (Z.div_mod (Z_of_byte x) 16), (Z.div_mod (Z_of_byte y) 16) by lia.
    by rewrite Hhi, Hlo.
Qed.

Section Honest.
Variable sha256Hash : list byte -> list byte.
Hypothesis digest_length : forall x, length (sha256Hash x) = 32%nat.

(** X6: completeness of the handshake at the engine level: a proof generated by
    an initialized prover is accepted by a verifier that holds the prover's
    commitment, when the verifier's clock is within the freshness window of
    the clock reading stamped on the proof. *)
Theorem honest_proof_accepted
        (e0 e1 e2 : Env) (pos : nat) (id pw challenge : string) (m0 v0 : t) :
  0 <= sys_now e1 < 9223372036854775808 ->
  Z.abs (sys_now e2 - sys_now e1) <= FRESHNESS_WINDOW ->
  exists pr proof pr' v',
    createCommitment sha256Hash (initializeProver sha256Hash e0 pos id pw m0) = Ok pr
    /\ generateProof sha256Hash e1 pr challenge = Ok (proof, pr')
    /\ ZKProof.challenge proof = challenge
    /\ verifyProof e2 (initializeVerifier (getCommitment pr) id v0) proof = Ok (true, v').
Proof.
  intros Hnow Hfresh.
  unfold createCommitment, initializeProver. cbn [proverInitialized negb].
  eexists. unfold generateProof. cbn [proverInitialized negb].
  do 3 eexists. split; [reflexivity|]. split; [reflexivity|].
  split; [reflexivity|].
  apply ZKPModuleFacts.verifyProof_accepts; [reflexivity|].
  cbn [ZKProof.proofData ZKProof.commitment ZKProof.timestamp publicCommitment
       initializeVerifier getCommitment].
  split; [unfold size_of; by rewrite digest_length|]. split; [done|].
  unfold to_int64, to_uint64.
  rewrite (Z.mod_small (sys_now e1)) by lia. rewrite Z.mod_small by lia.
  replace (sys_now e1 <? 9223372036854775808) with true
    by (symmetry; apply Z.ltb_lt; lia).
  exact Hfresh.
Qed.

End Honest.

Lemma honest_proof_accepted_witness :
  exists pr proof pr' v',
    createCommitment toy_hash
      (initializeProver toy_hash env_fresh 128 "DRONE_001" "secret" (new_id "DRONE_001"))
    = Ok pr
    /\ generateProof toy_hash env_fresh pr "CHALLENGE_1_00" = Ok (proof, pr')
    /\ ZKProof.challenge proof = "CHALLENGE_1_00"
    /\ verifyProof env_fresh (initializeVerifier (getCommitment pr) "DRONE_001" new) proof
       = Ok (true, v').
Proof.
  apply (honest_proof_accepted toy_hash).
  - intros x. unfold toy_hash. rewrite length_take, length_app, length_replicate. lia.
  - vm_compute. split; [discriminate|reflexivity].
  - vm_compute. discriminate.
Defined.

Lemma generateChallenge_uses_eight_random_bytes_witness :
  (generateChallenge env_fresh 0 registered).1
  = (generateChallenge (mkEnv 1700000000000000000 0 0 loud) 0 registered).1.
Proof.
  apply generateChallenge_uses_eight_random_bytes.
  - reflexivity.
  - intros i Hi. cbn [entropy]. unfold quiet, loud.
    by replace (0 + i <? 8)%nat with true by (symmetry; apply Nat.ltb_lt; lia).
Defined.

End ZKPModuleFacts.

(** ** GroundStation *)

Module GroundStationFacts.
Import Machine Wire WireFacts Sim Examples.
Import GroundStation.

(** *** The counters *)

Lemma countRequest_Ok gs :
  numAuthRequests gs < INT_MAX ->
  countRequest gs
  = Ok (mk (localPort gs) (droneVerifiers gs) (pendingChallenges gs)
           (droneAddresses gs) (numAuthRequests gs + 1) (numAuthSuccess gs)
           (numAuthFailures gs)
           (trace gs ++ [Emit authRequestSignal (numAuthRequests gs + 1)])).
Proof. intros H. unfold countRequest. by rewrite int_incr_Ok. Qed.

Lemma countFailure_Ok gs :
  numAuthFailures gs < INT_MAX ->
  countFailure gs
  = Ok (mk (localPort gs) (droneVerifiers gs) (pendingChallenges gs)
           (droneAddresses gs) (numAuthRequests gs) (numAuthSuccess gs)
           (numAuthFailures gs + 1)
           (trace gs ++ [Emit authFailureSignal (numAuthFailures gs + 1)])).
Proof. intros H. unfold countFailure. by rewrite int_incr_Ok. Qed.

Lemma countSuccess_Ok gs :
  numAuthSuccess gs < INT_MAX ->
  countSuccess gs
  = Ok (mk (localPort gs) (droneVerifiers gs) (pendingChallenges gs)
           (droneAddresses gs) (numAuthRequests gs) (numAuthSuccess gs + 1)
           (numAuthFailures gs)
           (trace gs ++ [Emit authSuccessSignal (numAuthSuccess gs + 1)])).
Proof. intros H. unfold countSuccess. by rewrite int_incr_Ok. Qed.

Lemma countRequest_inv gs gs1 :
  countRequest gs = Ok gs1 ->
  numAuthRequests gs < INT_MAX
  /\ droneVerifiers gs1 = droneVerifiers gs
  /\ pendingChallenges gs1 = pendingChallenges gs
  /\ droneAddresses gs1 = droneAddresses gs
  /\ numAuthFailures gs1 = numAuthFailures gs
  /\ numAuthSuccess gs1 = numAuthSuccess gs.
Proof.
  unfold countRequest. intros H. apply bind_Ok in H as (n & Hn & [= <-]).
  apply int_incr_inv in Hn as [-> Hlt]. done.
Qed.

Lemma countFailure_inv gs gs1 :
  countFailure gs = Ok gs1 ->
  droneVerifiers gs1 = droneVerifiers gs
  /\ pendingChallenges gs1 = pendingChallenges gs
  /\ droneAddresses gs1 = droneAddresses gs.
Proof.
  unfold countFailure. intros H. by apply bind_Ok in H as (n & Hn & [= <-]).
Qed.

Lemma countSuccess_inv gs gs1 :
  countSuccess gs = Ok gs1 ->
  droneVerifiers gs1 = droneVerifiers gs
  /\ pendingChallenges gs1 = pendingChallenges gs
  /\ droneAddresses gs1 = droneAddresses gs.
Proof.
  unfold countSuccess. intros H. by apply bind_Ok in H as (n & Hn & [= <-]).
Qed.

(** *** The guards of [handleAuthRequest] *)

(** X7: [handleAuthRequest] compares every length with the size of the buffer
    before it reads: whatever the buffer, the handler returns a state, with
    no read outside the buffer and no exception, as long as its two
    counters can still be incremented. *)
Lemma handleAuthRequest_returns e data srcAddr srcPort gs :
  numAuthRequests gs < INT_MAX -> numAuthFailures gs < INT_MAX ->
  exists gs', handleAuthRequest e data srcAddr srcPort gs = Ok gs'.
Proof.
  intros Hrq Hfa. unfold handleAuthRequest, read_u32. cbv zeta.
  rewrite countRequest_Ok by done. cbn [mbind result_bind].
  destruct (size_of data <? 9) eqn:H9; [eauto|]. apply Z.ltb_ge in H9.
  destruct (read_le_in_bounds 4 data 1) as (idLen & -> & HidLen); [lia|lia|].
  change (256 ^ Z.of_nat 4) with 4294967296 in HidLen.
  cbn [mbind result_bind].
  destruct (size_of data <? 1 + 4 + idLen + 4) eqn:Hid; [eauto|]. apply Z.ltb_ge in Hid.
  rewrite read_range_in_bounds by lia. cbn [mbind result_bind].
  case_bool_decide as Hauth; cbn [negb].
  2:{ rewrite countFailure_Ok by done. eauto. }
  destruct (read_le_in_bounds 4 data (1 + 4 + idLen)) as (cl & Hcl & Hclr); [lia|lia|].
  rewrite Hcl. change (256 ^ Z.of_nat 4) with 4294967296 in Hclr.
  cbn [mbind result_bind].
  destruct (size_of data <? 1 + 4 + idLen + 4 + cl) eqn:Hc; [eauto|]. apply Z.ltb_ge in Hc.
  rewrite read_range_in_bounds by lia. cbn [mbind result_bind].
  destruct (getOrCreateVerifier _ _ _ _) as [v pos].
  destruct (ZKPModule.generateChallenge e pos v). eauto.
Qed.

(** C4: an AUTH_REQUEST for an identity outside the authorization set is
    counted as a request and as a failure and answered with AUTH_FAILURE;
    the verifiers, the pending challenges and the return addresses are
    exactly what they were. *)
Theorem unauthorized_request_rejected
        (e : Env) (id : string) (rest : list byte)
        (srcAddr : L3Address) (srcPort : Z) (gs : t) :
  id ∉ authorizedDrones ->
  Z.of_nat (String.length id) < 4294967296 ->
  4 <= size_of rest ->
  numAuthRequests gs < INT_MAX -> numAuthFailures gs < INT_MAX ->
  handleMessageWhenUp e
    (Packet (AUTH_REQUEST :: encode_le 4 (Z.of_nat (String.length id))
               ++ list_byte_of_string id ++ rest) srcAddr srcPort) gs
  = Ok (mk (localPort gs) (droneVerifiers gs) (pendingChallenges gs)
           (droneAddresses gs) (numAuthRequests gs + 1) (numAuthSuccess gs)
           (numAuthFailures gs + 1)
           (trace gs ++ [Emit authRequestSignal (numAuthRequests gs + 1);
                         SendTo [AUTH_FAILURE] srcAddr srcPort;
                         Emit authFailureSignal (numAuthFailures gs + 1)])).
Proof.
  intros Hid Hlen Hrest Hrq Hfa.
  destruct (request_header AUTH_REQUEST id rest Hlen) as (Hsz & Hrd & Hrg).
  cbn [handleMessageWhenUp]. rewrite bool_decide_eq_true_2 by done.
  unfold handleAuthRequest, read_u32. cbv zeta.
  rewrite countRequest_Ok by done. cbn [mbind result_bind].
  rewrite Hsz, Hrd. cbn [mbind result_bind].
  replace (_ <? 9) with false by (symmetry; apply Z.ltb_ge; lia).
  replace (_ <? _) with false by (symmetry; apply Z.ltb_ge; lia).
  rewrite Hrg. cbn [mbind result_bind].
  rewrite string_of_list_byte_of_string.
  rewrite bool_decide_eq_false_2 by done. cbn [negb].
  rewrite countFailure_Ok by done.
  unfold sendAuthFailure, sendPacket. cbn.
  by rewrite <- !app_assoc.
Qed.

Lemma generateChallenge_commitment e pos v :
  ZKPModule.publicCommitment (ZKPModule.generateChallenge e pos v).2
  = ZKPModule.publicCommitment v
  /\ ZKPModule.verifierInitialized (ZKPModule.generateChallenge e pos v).2
     = ZKPModule.verifierInitialized v.
Proof. done. Qed.

Lemma getOrCreateVerifier_existing e c id gs v :
  droneVerifiers gs !! id = Some v -> getOrCreateVerifier e c id gs = (v, 0%nat).
Proof. intros H. unfold getOrCreateVerifier. by rewrite H. Qed.

(** Every path of [handleAuthRequest] leaves the commitment of an existing
    verifier as it is. *)
Lemma handleAuthRequest_keeps_commitment e data srcAddr srcPort gs gs' id v :
  handleAuthRequest e data srcAddr srcPort gs = Ok gs' ->
  droneVerifiers gs !! id = Some v ->
  exists v', droneVerifiers gs' !! id = Some v'
             /\ ZKPModule.publicCommitment v' = ZKPModule.publicCommitment v.
Proof.
  intros H Hv. unfold handleAuthRequest in H. cbv zeta in H.
  apply bind_Ok in H as (gs1 & Hc & H).
  apply countRequest_inv in Hc as (_ & Hdv & _).
  rewrite <- Hdv in Hv. clear Hdv.
  destruct (size_of data <? 9); [injection H as <-; eauto|].
  apply bind_Ok in H as (idLen & _ & H).
  destruct (size_of data <? _); [injection H as <-; eauto|].
  apply bind_Ok in H as (idBytes & _ & H).
  case_bool_decide as Hauth; cbn [negb] in H.
  2:{ apply countFailure_inv in H as (Hdv & _). rewrite Hdv. eauto. }
  apply bind_Ok in H as (commitLen & _ & H).
  destruct (size_of data <? _); [injection H as <-; eauto|].
  apply bind_Ok in H as (commitment & _ & H).
  set (droneId := string_of_list_byte idBytes) in *.
  destruct (getOrCreateVerifier e commitment droneId gs1) as [v0 pos] eqn:Hg.
  destruct (ZKPModule.generateChallenge e pos v0) as [ch v1] eqn:Hch.
  injection H as <-. cbn [droneVerifiers sendPacket set_session].
  destruct (decide (droneId = id)) as [->|Hne].
  - rewrite lookup_insert_eq. eexists. split; [done|].
    rewrite (getOrCreateVerifier_existing _ _ _ _ _ Hv) in Hg.
    injection Hg as <- <-.
    pose proof (generateChallenge_commitment e 0%nat v) as [Hpc _].
    by rewrite Hch in Hpc.
  - rewrite lookup_insert_ne by done. eauto.
Qed.

Lemma handleAuthRequest_authorized e id c srcAddr srcPort gs :
  id ∈ authorizedDrones ->
  Z.of_nat (String.length id) < 4294967296 -> size_of c < 4294967296 ->
  numAuthRequests gs < INT_MAX ->
  handleAuthRequest e (DroneAuthApp.authRequestMessage id c) srcAddr srcPort gs
  = let gs1 :=
      mk (localPort gs) (droneVerifiers gs) (pendingChallenges gs)
         (droneAddresses gs) (numAuthRequests gs + 1) (numAuthSuccess gs)
         (numAuthFailures gs)
         (trace gs ++ [Emit authRequestSignal (numAuthRequests gs + 1)]) in
    let vp := getOrCreateVerifier e c id gs in
    let cv := ZKPModule.generateChallenge e vp.2 vp.1 in
    Ok (sendPacket (challengeMessage cv.1) srcAddr srcPort
          (set_session id cv.2 cv.1 (srcAddr, srcPort) gs1)).
Proof.
  intros Hauth Hlen Hc Hrq. unfold DroneAuthApp.authRequestMessage.
  rewrite !u32_small by (unfold size_of in *; lia).
  destruct (request_header AUTH_REQUEST id (encode_le 4 (size_of c) ++ c) Hlen)
    as (Hsz & Hrd & Hrg).
  set (data := AUTH_REQUEST :: _) in *.
  assert (Hrest : size_of (encode_le 4 (size_of c) ++ c) = 4 + size_of c)
    by (unfold size_of; rewrite length_app, length_encode_le; lia).
  rewrite Hrest in Hsz.
  unfold handleAuthRequest, read_u32. cbv zeta.
  rewrite countRequest_Ok by done. cbn [mbind result_bind].
  rewrite Hsz, Hrd. cbn [mbind result_bind].
  replace (_ <? 9) with false by (symmetry; apply Z.ltb_ge; unfold size_of; lia).
  replace (_ <? _) with false by (symmetry; apply Z.ltb_ge; unfold size_of; lia).
  rewrite Hrg. cbn [mbind result_bind].
  rewrite string_of_list_byte_of_string.
  rewrite bool_decide_eq_true_2 by done. cbn [negb].
  assert (Hcl : read_le 4 data (1 + 4 + Z.of_nat (String.length id)) = Ok (size_of c)).
  { replace data
      with (([AUTH_REQUEST] ++ encode_le 4 (Z.of_nat (String.length id))
               ++ list_byte_of_string id) ++ encode_le 4 (size_of c) ++ c)
      by (unfold data; cbn [app]; by rewrite <- !app_assoc).
    rewrite (read_le_framed 4 _ (size_of c) c).
    - rewrite mod_pow_32, u32_small by (unfold size_of in *; lia). done.
    - unfold size_of. rewrite !length_app, length_encode_le,
        length_list_byte_of_string. cbn [length]. lia. }
  rewrite Hcl. cbn [mbind result_bind].
  replace (_ <? _) with false by (symmetry; apply Z.ltb_ge; unfold size_of; lia).
  assert (Hcm : read_range data (1 + 4 + Z.of_nat (String.length id) + 4) (size_of c) = Ok c).
  { replace data
      with (([AUTH_REQUEST] ++ encode_le 4 (Z.of_nat (String.length id))
               ++ list_byte_of_string id ++ encode_le 4 (size_of c)) ++ c ++ [])
      by (unfold data; cbn [app]; by rewrite <- !app_assoc, app_nil_r).
    apply read_range_framed; [|done].
    unfold size_of. rewrite !length_app, !length_encode_le,
      length_list_byte_of_string. cbn [length]. lia. }
  rewrite Hcm. cbn [mbind result_bind].
  unfold getOrCreateVerifier at 1. cbn [droneVerifiers].
  fold (getOrCreateVerifier e c id gs).
  destruct (getOrCreateVerifier e c id gs) as [v0 pos].
  cbn [fst snd]. destruct (ZKPModule.generateChallenge e pos v0) as [ch v1].
  reflexivity.
Qed.

(** *** The scan of the pending challenges *)

Lemma elem_of_in_key_order (m : gmap string string) (k v : string) :
  (k, v) ∈ in_key_order m <-> m !! k = Some v.
Proof.
  unfold in_key_order. rewrite merge_sort_Permutation.
  apply elem_of_map_to_list.
Qed.

Lemma scan_found pairs challenge k :
  scan pairs challenge = k -> k <> "" -> (k, challenge) ∈ pairs.
Proof.
  induction pairs as [|[k0 v0] rest IH]; cbn [scan]; intros Hs Hne.
  - congruence.
  - case_bool_decide as Hv.
    + subst. left.
    + right. by apply IH.
Qed.

Lemma scan_absent pairs challenge :
  (forall k, (k, challenge) ∉ pairs) -> scan pairs challenge = "".
Proof.
  induction pairs as [|[k0 v0] rest IH]; cbn [scan]; intros Hno; [done|].
  case_bool_decide as Hv.
  - subst. exfalso. apply (Hno k0). left.
  - apply IH. intros k Hk. apply (Hno k). by right.
Qed.

Lemma scan_unique pairs challenge k :
  (k, challenge) ∈ pairs ->
  (forall k', (k', challenge) ∈ pairs -> k' = k) ->
  scan pairs challenge = k.
Proof.
  induction pairs as [|[k0 v0] rest IH]; cbn [scan]; intros Hin Hu.
  - by apply elem_of_nil in Hin.
  - case_bool_decide as Hv.
    + subst. apply Hu. left.
    + apply IH.
      * apply elem_of_cons in Hin as [[= -> ->]|Hin]; [done|exact Hin].
      * intros k' Hk'. apply Hu. by right.
Qed.

Lemma findDroneId_found pending challenge :
  findDroneId pending challenge <> "" ->
  pending !! findDroneId pending challenge = Some challenge.
Proof.
  intros Hne. apply elem_of_in_key_order.
  by apply (scan_found _ challenge).
Qed.

Lemma findDroneId_absent pending challenge :
  (forall k, pending !! k <> Some challenge) ->
  findDroneId pending challenge = "".
Proof.
  intros Hno. apply scan_absent. intros k Hk.
  apply elem_of_in_key_order in Hk. by apply (Hno k).
Qed.

Lemma findDroneId_unique pending challenge k :
  pending !! k = Some challenge ->
  (forall k', pending !! k' = Some challenge -> k' = k) ->
  findDroneId pending challenge = k.
Proof.
  intros Hk Hu. apply scan_unique.
  - by apply elem_of_in_key_order.
  - intros k' Hk'. apply Hu. by apply elem_of_in_key_order.
Qed.

(** The loop breaks at the least key: no smaller key holds the challenge. *)
Lemma scan_least pairs challenge k :
  StronglySorted key_le pairs ->
  (k, challenge) ∈ pairs ->
  String.leb (scan pairs challenge) k = true.
Proof.
  induction pairs as [|[k0 v0] rest IH]; cbn [scan]; intros Hs Hin.
  - by apply elem_of_nil in Hin.
  - apply StronglySorted_inv in Hs as [Hs Hall].
    case_bool_decide as Hv.
    + apply elem_of_cons in Hin as [[= -> ->]|Hin].
      * by destruct (String.leb_total k0 k0).
      * rewrite Forall_forall in Hall. apply (Hall _ Hin).
    + apply elem_of_cons in Hin as [[= -> ->]|Hin]; [done|]. by apply IH.
Qed.

Lemma compare_not_Gt_trans (a b c : string) :
  String.compare a b <> Gt -> String.compare b c <> Gt ->
  String.compare a c <> Gt.
Proof.
  revert b c. induction a as [|x a IH]; intros [|y b] [|z c]; cbn; try done.
  unfold Ascii.compare.
  destruct (N.compare_spec (N_of_ascii x) (N_of_ascii y)) as [Hxy|Hxy|Hxy];
    destruct (N.compare_spec (N_of_ascii y) (N_of_ascii z)) as [Hyz|Hyz|Hyz];
    try done; intros Hab Hbc.
  - replace (N_of_ascii x ?= N_of_ascii z)%N with Eq
      by (symmetry; apply N.compare_eq_iff; congruence).
    by apply (IH b c).
  - by replace (N_of_ascii x ?= N_of_ascii z)%N with Lt
      by (symmetry; apply N.compare_lt_iff; lia).
  - by replace (N_of_ascii x ?= N_of_ascii z)%N with Lt
      by (symmetry; apply N.compare_lt_iff; lia).
  - by replace (N_of_ascii x ?= N_of_ascii z)%N with Lt
      by (symmetry; apply N.compare_lt_iff; lia).
Qed.

Lemma leb_trans (a b c : string) :
  String.leb a b = true -> String.leb b c = true -> String.leb a c = true.
Proof.
  unfold String.leb. intros Hab Hbc.
  pose proof (compare_not_Gt_trans a b c) as H.
  destruct (String.compare a b); try discriminate;
    destruct (String.compare b c); try discriminate;
    destruct (String.compare a c); try done; by exfalso; apply H.
Qed.

Lemma findDroneId_least pending challenge k :
  pending !! k = Some challenge ->
  String.leb (findDroneId pending challenge) k = true.
Proof.
  intros Hk. apply scan_least; [|by apply elem_of_in_key_order].
  apply StronglySorted_merge_sort.
  - intros a b c. unfold key_le. apply leb_trans.
  - intros a b. unfold key_le. apply String.leb_total.
Qed.

(** *** [handleProof] once a session is located and the proof is verified *)

Lemma handleProof_verified e data srcAddr srcPort gs proof droneId verifier isValid verifier' :
  2 <= size_of data ->
  ZKProof.deserialize (drop 1 data) = Ok proof ->
  findDroneId (pendingChallenges gs) (ZKProof.challenge proof) = droneId ->
  droneId <> "" ->
  droneVerifiers gs !! droneId = Some verifier ->
  ZKPModule.verifyProof e verifier proof = Ok (isValid, verifier') ->
  handleProof e data srcAddr srcPort gs
  = if isValid
    then gs1 ← countSuccess (set_verifier droneId verifier' gs);
         Ok (erase_pending droneId (sendAuthSuccess srcAddr srcPort gs1))
    else gs1 ← countFailure (set_verifier droneId verifier' gs);
         Ok (sendAuthFailure srcAddr srcPort gs1).
Proof.
  intros Hsz Hde Hfind Hne Hv Hver. unfold handleProof. cbv zeta.
  replace (size_of data <? 2) with false by (symmetry; apply Z.ltb_ge; lia).
  rewrite Hde. cbn [mbind result_bind]. rewrite Hfind.
  rewrite bool_decide_eq_false_2 by done. rewrite Hv, Hver.
  cbn [mbind result_bind]. by destruct isValid.
Qed.

(** Every returning path of [handleProof] either leaves the pending
    challenges alone or has verified a proof successfully. *)
Lemma handleProof_pending e data srcAddr srcPort gs gs' :
  handleProof e data srcAddr srcPort gs = Ok gs' ->
  pendingChallenges gs' = pendingChallenges gs
  \/ exists proof verifier verifier',
       let droneId := findDroneId (pendingChallenges gs) (ZKProof.challenge proof) in
       ZKProof.deserialize (drop 1 data) = Ok proof
       /\ droneVerifiers gs !! droneId = Some verifier
       /\ ZKPModule.verifyProof e verifier proof = Ok (true, verifier')
       /\ pendingChallenges gs' = delete droneId (pendingChallenges gs).
Proof.
  unfold handleProof. cbv zeta. intros H.
  destruct (size_of data <? 2); [injection H as <-; by left|].
  apply bind_Ok in H as (proof & Hde & H).
  case_bool_decide as Hid; [injection H as <-; by left|].
  destruct (droneVerifiers gs !! _) as [verifier|] eqn:Hv;
    [|injection H as <-; by left].
  apply bind_Ok in H as ([isValid verifier'] & Hver & H).
  destruct isValid.
  - apply bind_Ok in H as (gs1 & Hc & [= <-]).
    apply countSuccess_inv in Hc as (_ & Hp & _).
    right. exists proof, verifier, verifier'. cbv zeta.
    repeat split; try done. cbn. by rewrite Hp.
  - apply bind_Ok in H as (gs1 & Hc & [= <-]).
    apply countFailure_inv in Hc as (_ & Hp & _).
    left. cbn. by rewrite Hp.
Qed.

(** C3: when [handleProof] locates a session and verifies the proof, the
    session's pending challenge is erased if the verdict is true and the
    pending challenges are untouched (the same challenge still locates the
    same session) if it is false; and on no path do the pending challenges
    change without a successful verification. *)
Theorem pending_challenge_cleared_exactly_on_success
        (e : Env) (data : list byte) (srcAddr : L3Address) (srcPort : Z)
        (gs : t) (proof : ZKProof.t) (droneId : string)
        (verifier verifier' : ZKPModule.t) (isValid : bool) :
  2 <= size_of data ->
  ZKProof.deserialize (drop 1 data) = Ok proof ->
  findDroneId (pendingChallenges gs) (ZKProof.challenge proof) = droneId ->
  droneId <> "" ->
  droneVerifiers gs !! droneId = Some verifier ->
  ZKPModule.verifyProof e verifier proof = Ok (isValid, verifier') ->
  numAuthSuccess gs < INT_MAX -> numAuthFailures gs < INT_MAX ->
  pendingChallenges gs !! droneId = Some (ZKProof.challenge proof)
  /\ (exists gs', handleProof e data srcAddr srcPort gs = Ok gs'
        /\ if isValid
           then pendingChallenges gs' = delete droneId (pendingChallenges gs)
                /\ pendingChallenges gs' !! droneId = None
                /\ numAuthSuccess gs' = numAuthSuccess gs + 1
                /\ trace gs' = trace gs ++ [Emit authSuccessSignal (numAuthSuccess gs + 1);
                                            SendTo [AUTH_SUCCESS] srcAddr srcPort]
           else pendingChallenges gs' = pendingChallenges gs
                /\ findDroneId (pendingChallenges gs') (ZKProof.challenge proof) = droneId
                /\ numAuthFailures gs' = numAuthFailures gs + 1
                /\ trace gs' = trace gs ++ [Emit authFailureSignal (numAuthFailures gs + 1);
                                            SendTo [AUTH_FAILURE] srcAddr srcPort])
  /\ (forall data2 gs2 gs2',
        handleProof e data2 srcAddr srcPort gs2 = Ok gs2' ->
        pendingChallenges gs2' <> pendingChallenges gs2 ->
        exists proof2 v2 v2',
          ZKProof.deserialize (drop 1 data2) = Ok proof2
          /\ droneVerifiers gs2
               !! findDroneId (pendingChallenges gs2) (ZKProof.challenge proof2)
             = Some v2
          /\ ZKPModule.verifyProof e v2 proof2 = Ok (true, v2')).
Proof.
  intros Hsz Hde Hfind Hne Hv Hver Hsu Hfa. split; [|split].
  - rewrite <- Hfind. apply findDroneId_found. by rewrite Hfind.
  - rewrite (handleProof_verified _ _ _ _ _ _ _ _ _ _ Hsz Hde Hfind Hne Hv Hver).
    destruct isValid.
    + rewrite countSuccess_Ok by done. cbn [mbind result_bind].
      eexists. split; [reflexivity|]. cbn.
      split; [done|]. split; [apply lookup_delete_eq|]. split; [done|].
      by rewrite <- app_assoc.
    + rewrite countFailure_Ok by done. cbn [mbind result_bind].
      eexists. split; [reflexivity|]. cbn.
      split; [done|]. split; [done|]. split; [done|].
      by rewrite <- app_assoc.
  - intros data2 gs2 gs2' H2 Hch.
    destruct (handleProof_pending _ _ _ _ _ _ H2) as [Heq|(p2 & v2 & v2' & Hx)];
      [done|].
    cbv zeta in Hx. destruct Hx as (Hd2 & Hv2 & Hver2 & _).
    by exists p2, v2, v2'.
Qed.

(** A PROOF message whose challenge no session holds is answered with
    AUTH_FAILURE and changes nothing else. *)
Lemma handleProof_unknown_challenge e proof srcAddr srcPort gs :
  ZKProof.fits_u32 proof -> ZKProof.well_typed proof ->
  (forall k, pendingChallenges gs !! k <> Some (ZKProof.challenge proof)) ->
  handleProof e (PROOF :: ZKProof.serialize proof) srcAddr srcPort gs
  = Ok (sendAuthFailure srcAddr srcPort gs).
Proof.
  intros Hfit Hwt Hno. unfold handleProof. cbv zeta.
  pose proof (size_of_serialize proof) as Hsz.
  replace (size_of (PROOF :: _) <? 2) with false
    by (symmetry; apply Z.ltb_ge; unfold size_of in *; cbn [length]; lia).
  pose proof (deserialize_serialize_app proof [] Hfit Hwt) as Hde.
  rewrite app_nil_r in Hde.
  change (drop 1 (PROOF :: ZKProof.serialize proof)) with (ZKProof.serialize proof).
  rewrite Hde. cbn [mbind result_bind].
  rewrite findDroneId_absent by done.
  by rewrite bool_decide_eq_true_2.
Qed.

Lemma handleAuthRequest_session e id c srcAddr srcPort gs :
  id ∈ authorizedDrones ->
  Z.of_nat (String.length id) < 4294967296 -> size_of c < 4294967296 ->
  numAuthRequests gs < INT_MAX ->
  exists gs',
    handleAuthRequest e (DroneAuthApp.authRequestMessage id c) srcAddr srcPort gs = Ok gs'
    /\ (let vp := getOrCreateVerifier e c id gs in
        let cv := ZKPModule.generateChallenge e vp.2 vp.1 in
        droneVerifiers gs' = <[id := cv.2]> (droneVerifiers gs)
        /\ pendingChallenges gs' = <[id := cv.1]> (pendingChallenges gs)
        /\ trace gs' = trace gs ++ [Emit authRequestSignal (numAuthRequests gs + 1);
                                    SendTo (challengeMessage cv.1) srcAddr srcPort])
    /\ droneAddresses gs' = <[id := (srcAddr, srcPort)]> (droneAddresses gs)
    /\ numAuthRequests gs' = numAuthRequests gs + 1
    /\ numAuthSuccess gs' = numAuthSuccess gs
    /\ numAuthFailures gs' = numAuthFailures gs.
Proof.
  intros Hauth Hlen Hc Hrq.
  rewrite (handleAuthRequest_authorized e id c srcAddr srcPort gs) by done.
  cbv zeta. eexists. split; [reflexivity|].
  unfold sendPacket, set_session.
  cbn [droneVerifiers pendingChallenges droneAddresses trace numAuthRequests
       numAuthSuccess numAuthFailures].
  rewrite <- app_assoc. done.
Qed.

Lemma dispatch_auth_request e id c a p gs :
  handleMessageWhenUp e (Packet (DroneAuthApp.authRequestMessage id c) a p) gs
  = handleAuthRequest e (DroneAuthApp.authRequestMessage id c) a p gs.
Proof.
  unfold DroneAuthApp.authRequestMessage. cbn [handleMessageWhenUp].
  by rewrite bool_decide_eq_true_2.
Qed.

Lemma dispatch_proof e body a p gs :
  handleMessageWhenUp e (Packet (PROOF :: body) a p) gs
  = handleProof e (PROOF :: body) a p gs.
Proof.
  cbn [handleMessageWhenUp].
  rewrite bool_decide_eq_false_2 by (unfold PROOF, AUTH_REQUEST; discriminate).
  by rewrite bool_decide_eq_true_2.
Qed.


Lemma unauthorized_request_rejected_witness :
  handleMessageWhenUp env_fresh
    (Packet (AUTH_REQUEST :: encode_le 4 (Z.of_nat (String.length "DRONE_999"))
               ++ list_byte_of_string "DRONE_999" ++ [x00; x00; x00; x00])
            "10.0.0.9" 6000) station1
  = Ok (mk (localPort station1) (droneVerifiers station1) (pendingChallenges station1)
           (droneAddresses station1) (numAuthRequests station1 + 1)
           (numAuthSuccess station1) (numAuthFailures station1 + 1)
           (trace station1 ++ [Emit authRequestSignal (numAuthRequests station1 + 1);
                               SendTo [AUTH_FAILURE] "10.0.0.9" 6000;
                               Emit authFailureSignal (numAuthFailures station1 + 1)])).
Proof.
  apply (unauthorized_request_rejected env_fresh "DRONE_999" [x00; x00; x00; x00]
           "10.0.0.9" 6000 station1).
  - apply (bool_decide_eq_false_1 _). vm_compute. reflexivity.
  - vm_compute. reflexivity.
  - vm_compute. discriminate.
  - vm_compute. reflexivity.
  - vm_compute. reflexivity.
Defined.

Lemma pending_challenge_cleared_exactly_on_success_witness :
  pendingChallenges station1 !! "DRONE_001" = Some (ZKProof.challenge sample_proof)
  /\ (exists gs', handleProof env_fresh proof_message "10.0.0.2" 6000 station1 = Ok gs'
        /\ if true
           then pendingChallenges gs' = delete "DRONE_001" (pendingChallenges station1)
                /\ pendingChallenges gs' !! "DRONE_001" = None
                /\ numAuthSuccess gs' = numAuthSuccess station1 + 1
                /\ trace gs' = trace station1
                                ++ [Emit authSuccessSignal (numAuthSuccess station1 + 1);
                                    SendTo [AUTH_SUCCESS] "10.0.0.2" 6000]
           else pendingChallenges gs' = pendingChallenges station1
                /\ findDroneId (pendingChallenges gs') (ZKProof.challenge sample_proof)
                   = "DRONE_001"
                /\ numAuthFailures gs' = numAuthFailures station1 + 1
                /\ trace gs' = trace station1
                                ++ [Emit authFailureSignal (numAuthFailures station1 + 1);
                                    SendTo [AUTH_FAILURE] "10.0.0.2" 6000])
  /\ (forall data2 gs2 gs2',
        handleProof env_fresh data2 "10.0.0.2" 6000 gs2 = Ok gs2' ->
        pendingChallenges gs2' <> pendingChallenges gs2 ->
        exists proof2 v2 v2',
          ZKProof.deserialize (drop 1 data2) = Ok proof2
          /\ droneVerifiers gs2
               !! findDroneId (pendingChallenges gs2) (ZKProof.challenge proof2)
             = Some v2
          /\ ZKPModule.verifyProof env_fresh v2 proof2 = Ok (true, v2')).
Proof.
  eapply (pending_challenge_cleared_exactly_on_success env_fresh proof_message
            "10.0.0.2" 6000 station1 sample_proof "DRONE_001" registered _ true).
  - vm_compute. discriminate.
  - vm_compute. reflexivity.
  - vm_compute. reflexivity.
  - discriminate.
  - vm_compute. reflexivity.
  - vm_compute. reflexivity.
  - vm_compute. reflexivity.
  - vm_compute. reflexivity.
Defined.

(** C5: a later AUTH_REQUEST from an identity that has a session leaves the
    commitment stored in its verifier as it was, whatever commitment the
    request carries, while the pending challenge becomes the newly generated
    one and the return address the sender's; and no call of
    [handleAuthRequest], whatever the buffer, changes that commitment. *)
Theorem commitment_kept_on_repeated_request
        (e : Env) (id : string) (c : list byte)
        (srcAddr : L3Address) (srcPort : Z) (gs : t) (v : ZKPModule.t) :
  droneVerifiers gs !! id = Some v ->
  id ∈ authorizedDrones ->
  Z.of_nat (String.length id) < 4294967296 -> size_of c < 4294967296 ->
  numAuthRequests gs < INT_MAX ->
  (exists gs' v',
     handleMessageWhenUp e (Packet (DroneAuthApp.authRequestMessage id c) srcAddr srcPort) gs
     = Ok gs'
     /\ droneVerifiers gs' !! id = Some v'
     /\ ZKPModule.publicCommitment v' = ZKPModule.publicCommitment v
     /\ pendingChallenges gs' !! id = Some (ZKPModule.generateChallenge e 0%nat v).1
     /\ droneAddresses gs' !! id = Some (srcAddr, srcPort))
  /\ (forall data a p gs',
        handleAuthRequest e data a p gs = Ok gs' ->
        exists v', droneVerifiers gs' !! id = Some v'
                   /\ ZKPModule.publicCommitment v' = ZKPModule.publicCommitment v).
Proof.
  intros Hv Hauth Hlen Hc Hrq. split.
  - destruct (handleAuthRequest_session e id c srcAddr srcPort gs Hauth Hlen Hc Hrq)
      as (gs' & H & Hs & Ha & _).
    cbv zeta in Hs. rewrite (getOrCreateVerifier_existing _ _ _ _ _ Hv) in Hs.
    cbn [fst snd] in Hs. destruct Hs as (Hdv & Hp & _).
    exists gs', (ZKPModule.generateChallenge e 0%nat v).2.
    rewrite dispatch_auth_request. split; [exact H|].
    split; [rewrite Hdv; apply lookup_insert_eq|].
    split; [apply generateChallenge_commitment|].
    split; [rewrite Hp; apply lookup_insert_eq|].
    rewrite Ha. apply lookup_insert_eq.
  - intros data a p gs' H.
    exact (handleAuthRequest_keeps_commitment _ _ _ _ _ _ _ _ H Hv).
Qed.

Lemma commitment_kept_on_repeated_request_witness :
  (exists gs' v',
     handleMessageWhenUp env_late
       (Packet (DroneAuthApp.authRequestMessage "DRONE_001" (replicate 32 x22))
               "10.0.0.7" 6001) station1
     = Ok gs'
     /\ droneVerifiers gs' !! "DRONE_001" = Some v'
     /\ ZKPModule.publicCommitment v' = ZKPModule.publicCommitment registered
     /\ pendingChallenges gs' !! "DRONE_001"
        = Some (ZKPModule.generateChallenge env_late 0%nat registered).1
     /\ droneAddresses gs' !! "DRONE_001" = Some ("10.0.0.7", 6001))
  /\ (forall data a p gs',
        handleAuthRequest env_late data a p station1 = Ok gs' ->
        exists v', droneVerifiers gs' !! "DRONE_001" = Some v'
                   /\ ZKPModule.publicCommitment v'
                      = ZKPModule.publicCommitment registered).
Proof.
  apply (commitment_kept_on_repeated_request env_late "DRONE_001" (replicate 32 x22)
           "10.0.0.7" 6001 station1 registered).
  - vm_compute. reflexivity.
  - apply (bool_decide_eq_true_1 _). vm_compute. reflexivity.
  - vm_compute. reflexivity.
  - vm_compute. reflexivity.
  - vm_compute. reflexivity.
Defined.


(** C2 fails on the code: [ZKProof::deserialize] compares no length field
    with the size of the buffer.  A two-byte PROOF message passes the only
    size test of [handleProof], and the decoder then copies four bytes from
    a one-byte vector; a PROOF whose first length field announces 2^32-1
    bytes of proofData reads past the end as well.  Neither is answered with
    AUTH_FAILURE. *)
Theorem proof_decoder_reads_past_buffer
        (e : Env) (srcAddr : L3Address) (srcPort : Z) (gs : t) :
  handleMessageWhenUp e (Packet [PROOF; x00] srcAddr srcPort) gs
  = Undefined OutOfBoundsRead
  /\ handleMessageWhenUp e (Packet [PROOF; xff; xff; xff; xff; x00] srcAddr srcPort) gs
     = Undefined OutOfBoundsRead.
Proof. split; reflexivity. Qed.

Lemma empty_id_not_authorized : "" ∉ authorizedDrones.
Proof. apply (bool_decide_eq_false_1 _). vm_compute. reflexivity. Qed.

Lemma scan_holder pairs challenge k :
  (k, challenge) ∈ pairs -> (scan pairs challenge, challenge) ∈ pairs.
Proof.
  induction pairs as [|[k0 v0] rest IH]; cbn [scan]; intros Hin.
  - by apply elem_of_nil in Hin.
  - case_bool_decide as Hv.
    + subst. left.
    + right. apply IH.
      apply elem_of_cons in Hin as [[= -> ->]|Hin]; [done|exact Hin].
Qed.

(** X8: [handleProof] picks, among the sessions whose pending challenge equals
    the proof's, the one with the least identity in the order of
    [std::string]. *)
Theorem findDroneId_least_holder (pending : gmap string string)
        (challenge k : string) :
  pending !! k = Some challenge ->
  pending !! findDroneId pending challenge = Some challenge
  /\ String.leb (findDroneId pending challenge) k = true.
Proof.
  intros Hk. split.
  - apply elem_of_in_key_order. apply (scan_holder _ _ k).
    by apply elem_of_in_key_order.
  - apply scan_least; [|by apply elem_of_in_key_order].
    apply StronglySorted_merge_sort.
    + intros a b c. unfold key_le. apply leb_trans.
    + intros a b. unfold key_le. apply String.leb_total.
Qed.

Lemma findDroneId_least_holder_witness :
  twins !! findDroneId twins "CHALLENGE_7_aa" = Some "CHALLENGE_7_aa"
  /\ String.leb (findDroneId twins "CHALLENGE_7_aa") "DRONE_004" = true.
Proof.
  apply (findDroneId_least_holder twins "CHALLENGE_7_aa" "DRONE_004").
  vm_compute. reflexivity.
Defined.

(** X9: a request too short to hold its fields is answered with AUTH_FAILURE
    and counted as a request, but not as a failure. *)
Theorem truncated_request_answered_not_counted
        (e : Env) (data : list byte) (srcAddr : L3Address) (srcPort : Z) (gs : t) :
  numAuthRequests gs < INT_MAX ->
  size_of data < 9
  \/ (exists idLen, read_u32 data 1 = Ok idLen /\ size_of data < 9 + idLen) ->
  handleAuthRequest e data srcAddr srcPort gs
  = Ok (mk (localPort gs) (droneVerifiers gs) (pendingChallenges gs)
           (droneAddresses gs) (numAuthRequests gs + 1) (numAuthSuccess gs)
           (numAuthFailures gs)
           (trace gs ++ [Emit authRequestSignal (numAuthRequests gs + 1);
                         SendTo [AUTH_FAILURE] srcAddr srcPort])).
Proof.
  intros Hrq Hshort. unfold handleAuthRequest. cbv zeta.
  rewrite countRequest_Ok by done. cbn [mbind result_bind].
  assert (Hout : forall g, sendAuthFailure srcAddr srcPort
             (mk (localPort gs) (droneVerifiers gs) (pendingChallenges gs)
                 (droneAddresses gs) (numAuthRequests gs + 1) (numAuthSuccess gs)
                 (numAuthFailures gs) (trace gs ++ [g]))
           = mk (localPort gs) (droneVerifiers gs) (pendingChallenges gs)
                (droneAddresses gs) (numAuthRequests gs + 1) (numAuthSuccess gs)
                (numAuthFailures gs)
                (trace gs ++ [g; SendTo [AUTH_FAILURE] srcAddr srcPort])).
  { intros g. unfold sendAuthFailure, sendPacket. cbn. by rewrite <- app_assoc. }
  destruct (size_of data <? 9) eqn:H9; [by rewrite Hout|].
  apply Z.ltb_ge in H9.
  destruct Hshort as [Hlt|(idLen & Hid & Hlt)]; [lia|].
  rewrite Hid. cbn [mbind result_bind].
  replace (size_of data <? 1 + 4 + idLen + 4) with true
    by (symmetry; apply Z.ltb_lt; lia).
  by rewrite Hout.
Qed.

Lemma truncated_request_answered_not_counted_witness :
  handleAuthRequest env_fresh [AUTH_REQUEST; x09; x00; x00; x00; x44; x52; x4f; x4e]
                    "10.0.0.9" 6000 station1
  = Ok (mk (localPort station1) (droneVerifiers station1) (pendingChallenges station1)
           (droneAddresses station1) (numAuthRequests station1 + 1)
           (numAuthSuccess station1) (numAuthFailures station1)
           (trace station1 ++ [Emit authRequestSignal (numAuthRequests station1 + 1);
                               SendTo [AUTH_FAILURE] "10.0.0.9" 6000])).
Proof.
  apply truncated_request_answered_not_counted.
  - vm_compute. reflexivity.
  - right. exists 9. split; vm_compute; reflexivity.
Defined.

(** X10: on first contact an authorized identity gets a verifier initialized
    with the commitment and the identity its request carries, and a
    CHALLENGE is sent to the sender. *)
Theorem first_contact_registers_commitment
        (e : Env) (id : string) (c : list byte)
        (srcAddr : L3Address) (srcPort : Z) (gs : t) :
  id ∈ authorizedDrones ->
  Z.of_nat (String.length id) < 4294967296 -> size_of c < 4294967296 ->
  droneVerifiers gs !! id = None ->
  numAuthRequests gs < INT_MAX ->
  exists gs' v chal,
    handleMessageWhenUp e (Packet (DroneAuthApp.authRequestMessage id c) srcAddr srcPort) gs
    = Ok gs'
    /\ droneVerifiers gs' !! id = Some v
    /\ ZKPModule.publicCommitment v = c
    /\ ZKPModule.verifierInitialized v = true
    /\ ZKPModule.droneId v = id
    /\ pendingChallenges gs' !! id = Some chal
    /\ ZKPModule.lastChallenge v = chal
    /\ trace gs' = trace gs ++ [Emit authRequestSignal (numAuthRequests gs + 1);
                                SendTo (challengeMessage chal) srcAddr srcPort]
    /\ (forall id', id' <> id ->
          droneVerifiers gs' !! id' = droneVerifiers gs !! id'
          /\ pendingChallenges gs' !! id' = pendingChallenges gs !! id').
Proof.
  intros Hauth Hlen Hc Hnew Hrq.
  destruct (handleAuthRequest_session e id c srcAddr srcPort gs Hauth Hlen Hc Hrq)
    as (gs' & H & Hs & _).
  cbv zeta in Hs. unfold getOrCreateVerifier in Hs. rewrite Hnew in Hs.
  cbn [fst snd] in Hs. destruct Hs as (Hdv & Hp & Htr).
  rewrite dispatch_auth_request. exists gs'. do 2 eexists.
  split; [exact H|]. split; [rewrite Hdv; apply lookup_insert_eq|].
  split; [reflexivity|]. split; [reflexivity|]. split; [reflexivity|].
  split; [rewrite Hp; apply lookup_insert_eq|]. split; [reflexivity|].
  split; [exact Htr|].
  intros id' Hne. rewrite Hdv, Hp. by rewrite !lookup_insert_ne.
Qed.

Lemma first_contact_registers_commitment_witness :
  exists gs' v chal,
    handleMessageWhenUp env_fresh
      (Packet (DroneAuthApp.authRequestMessage "DRONE_002" (replicate 32 x22))
              "10.0.0.3" 6000) station1
    = Ok gs'
    /\ droneVerifiers gs' !! "DRONE_002" = Some v
    /\ ZKPModule.publicCommitment v = replicate 32 x22
    /\ ZKPModule.verifierInitialized v = true
    /\ ZKPModule.droneId v = "DRONE_002"
    /\ pendingChallenges gs' !! "DRONE_002" = Some chal
    /\ ZKPModule.lastChallenge v = chal
    /\ trace gs' = trace station1
                    ++ [Emit authRequestSignal (numAuthRequests station1 + 1);
                        SendTo (challengeMessage chal) "10.0.0.3" 6000]
    /\ (forall id', id' <> "DRONE_002" ->
          droneVerifiers gs' !! id' = droneVerifiers station1 !! id'
          /\ pendingChallenges gs' !! id' = pendingChallenges station1 !! id').
Proof.
  apply (first_contact_registers_commitment env_fresh "DRONE_002" (replicate 32 x22)
           "10.0.0.3" 6000 station1).
  - apply (bool_decide_eq_true_1 _). vm_compute. reflexivity.
  - vm_compute. reflexivity.
  - vm_compute. reflexivity.
  - vm_compute. reflexivity.
  - vm_compute. reflexivity.
Defined.

Lemma station_ok_same_maps gs gs' :
  droneVerifiers gs' = droneVerifiers gs ->
  pendingChallenges gs' = pendingChallenges gs ->
  droneAddresses gs' = droneAddresses gs ->
  station_ok gs -> station_ok gs'.
Proof. unfold station_ok. by intros -> -> ->. Qed.

Lemma handleAuthRequest_station_ok e data a p gs gs' :
  handleAuthRequest e data a p gs = Ok gs' -> station_ok gs -> station_ok gs'.
Proof.
  intros H Hok. unfold handleAuthRequest in H. cbv zeta in H.
  apply bind_Ok in H as (gs1 & Hc & H).
  apply countRequest_inv in Hc as (_ & Hdv & Hpc & Hda & _).
  assert (Hok1 : station_ok gs1) by (by apply (station_ok_same_maps gs)).
  clear Hok Hdv Hpc Hda.
  destruct (size_of data <? 9);
    [injection H as <-; by apply (station_ok_same_maps gs1)|].
  apply bind_Ok in H as (idLen & _ & H).
  destruct (size_of data <? _);
    [injection H as <-; by apply (station_ok_same_maps gs1)|].
  apply bind_Ok in H as (idBytes & _ & H).
  case_bool_decide as Hauth; cbn [negb] in H.
  2:{ apply countFailure_inv in H as (Hdv & Hpc & Hda).
      by apply (station_ok_same_maps gs1). }
  apply bind_Ok in H as (commitLen & _ & H).
  destruct (size_of data <? _);
    [injection H as <-; by apply (station_ok_same_maps gs1)|].
  apply bind_Ok in H as (commitment & _ & H).
  set (droneId := string_of_list_byte idBytes) in *.
  destruct (getOrCreateVerifier e commitment droneId gs1) as [v0 pos] eqn:Hg.
  destruct (ZKPModule.generateChallenge e pos v0) as [ch v1] eqn:Hch.
  injection H as <-.
  assert (Hv1 : ZKPModule.verifierInitialized v1 = true /\ ZKPModule.droneId v1 = droneId).
  { assert (v1 = ZKPModule.set_lastChallenge ch v0) as ->
      by (unfold ZKPModule.generateChallenge in Hch; by injection Hch as <- <-).
    cbn. unfold getOrCreateVerifier in Hg.
    destruct (droneVerifiers gs1 !! droneId) as [v|] eqn:Hv.
    - injection Hg as <- <-. by destruct Hok1 as (H1 & _); destruct (H1 _ _ Hv) as (_ & ? & ?).
    - by injection Hg as <- <-. }
  destruct Hok1 as (H1 & H2 & H3).
  split; [|split]; cbn [droneVerifiers pendingChallenges droneAddresses
                        sendPacket set_session].
  - intros id v. destruct (decide (droneId = id)) as [<-|Hne].
    + rewrite lookup_insert_eq. intros [= <-]. by destruct Hv1.
    + rewrite lookup_insert_ne by done. apply H1.
  - intros id c. destruct (decide (droneId = id)) as [<-|Hne].
    + rewrite !lookup_insert_eq. eauto.
    + rewrite !lookup_insert_ne by done. apply H2.
  - intros id. destruct (decide (droneId = id)) as [<-|Hne].
    + rewrite !lookup_insert_eq. split; eauto.
    + rewrite !lookup_insert_ne by done. apply H3.
Qed.

Lemma handleProof_station_ok e data a p gs gs' :
  handleProof e data a p gs = Ok gs' -> station_ok gs -> station_ok gs'.
Proof.
  unfold handleProof. cbv zeta. intros H Hok.
  destruct (size_of data <? 2);
    [injection H as <-; by apply (station_ok_same_maps gs)|].
  apply bind_Ok in H as (proof & _ & H).
  case_bool_decide as Hid;
    [injection H as <-; by apply (station_ok_same_maps gs)|].
  destruct (droneVerifiers gs !! _) as [verifier|] eqn:Hv;
    [|injection H as <-; by apply (station_ok_same_maps gs)].
  apply bind_Ok in H as ([isValid verifier'] & Hver & H).
  set (droneId := findDroneId _ _) in *.
  destruct Hok as (H1 & H2 & H3).
  destruct (H1 _ _ Hv) as (Ha & Hi & Hd).
  assert (Hv' : ZKPModule.verifierInitialized verifier' = true
                /\ ZKPModule.droneId verifier' = droneId).
  { destruct isValid.
    - by destruct (ZKPModuleFacts.verifyProof_true _ _ _ _ Hver) as (_ & _ & _ & ->).
    - by rewrite (ZKPModuleFacts.verifyProof_false_unchanged _ _ _ _ Hver). }
  assert (Hok' : station_ok (set_verifier droneId verifier' gs)).
  { split; [|split]; cbn [droneVerifiers pendingChallenges droneAddresses set_verifier].
    - intros id v. destruct (decide (droneId = id)) as [<-|Hne].
      + rewrite lookup_insert_eq. intros [= <-]. by destruct Hv'.
      + rewrite lookup_insert_ne by done. apply H1.
    - intros id c Hc. destruct (decide (droneId = id)) as [<-|Hne].
      + rewrite lookup_insert_eq. eauto.
      + rewrite lookup_insert_ne by done. by apply (H2 id c).
    - intros id. destruct (decide (droneId = id)) as [<-|Hne].
      + rewrite lookup_insert_eq. rewrite H3, Hv. split; eauto.
      + rewrite lookup_insert_ne by done. apply H3. }
  destruct isValid.
  - apply bind_Ok in H as (gs1 & Hc & [= <-]).
    apply countSuccess_inv in Hc as (Hdv & Hpc & Hda).
    destruct Hok' as (K1 & K2 & K3).
    split; [|split]; cbn [droneVerifiers pendingChallenges droneAddresses
                          erase_pending sendAuthSuccess sendPacket];
      rewrite ?Hdv, ?Hpc, ?Hda; [exact K1 | | exact K3].
    intros id c Hc. apply lookup_delete_Some in Hc as [_ Hc]. by apply (K2 id c).
  - apply bind_Ok in H as (gs1 & Hc & [= <-]).
    apply countFailure_inv in Hc as (Hdv & Hpc & Hda).
    by apply (station_ok_same_maps (set_verifier droneId verifier' gs)).
Qed.

Lemma countRequest_no_throw gs : is_Throws (countRequest gs) = false.
Proof. unfold countRequest. apply bind_no_throw; [apply int_incr_no_throw|done]. Qed.

Lemma countFailure_no_throw gs : is_Throws (countFailure gs) = false.
Proof. unfold countFailure. apply bind_no_throw; [apply int_incr_no_throw|done]. Qed.

Lemma countSuccess_no_throw gs : is_Throws (countSuccess gs) = false.
Proof. unfold countSuccess. apply bind_no_throw; [apply int_incr_no_throw|done]. Qed.

Lemma handleAuthRequest_no_throw e data a p gs :
  is_Throws (handleAuthRequest e data a p gs) = false.
Proof.
  unfold handleAuthRequest, read_u32. cbv zeta.
  apply bind_no_throw; [apply countRequest_no_throw|intros gs1 _].
  destruct (size_of data <? 9); [done|].
  apply bind_no_throw; [apply read_le_no_throw|intros idLen _].
  destruct (size_of data <? _); [done|].
  apply bind_no_throw; [apply read_range_no_throw|intros idBytes _].
  case_bool_decide; cbn [negb]; [|apply countFailure_no_throw].
  apply bind_no_throw; [apply read_le_no_throw|intros commitLen _].
  destruct (size_of data <? _); [done|].
  apply bind_no_throw; [apply read_range_no_throw|intros commitment _].
  destruct (getOrCreateVerifier _ _ _ _) as [v0 pos].
  by destruct (ZKPModule.generateChallenge e pos v0).
Qed.

Lemma verifyProof_no_throw e m proof :
  ZKPModule.verifierInitialized m = true ->
  is_Throws (ZKPModule.verifyProof e m proof) = false.
Proof.
  intros Hi. unfold ZKPModule.verifyProof. cbv zeta. rewrite Hi. cbn [negb].
  destruct (_ =? _); cbn [negb]; [|done].
  case_bool_decide; cbn [negb]; [|done].
  by destruct (_ >? _).
Qed.

Lemma handleProof_no_throw e data a p gs :
  station_ok gs -> is_Throws (handleProof e data a p gs) = false.
Proof.
  intros (K1 & _). unfold handleProof. cbv zeta.
  destruct (size_of data <? 2); [done|].
  apply bind_no_throw; [apply deserialize_no_throw|intros proof _].
  case_bool_decide; [done|].
  destruct (droneVerifiers gs !! _) as [verifier|] eqn:Hv; [|done].
  destruct (K1 _ _ Hv) as (_ & Hi & _).
  apply bind_no_throw; [by apply verifyProof_no_throw|intros [isValid v'] _].
  destruct isValid.
  - apply bind_no_throw; [apply countSuccess_no_throw|done].
  - apply bind_no_throw; [apply countFailure_no_throw|done].
Qed.

(** X11: the sessions of the ground station stay well formed under every
    message: each verifier belongs to an authorized identity, is
    initialized and carries that identity; a pending challenge or a return
    address exists only for an identity with a verifier.  In such a state no
    message makes the station throw: [verifyProof] always finds its verifier
    initialized. *)
Theorem station_sessions_well_formed (e : Env) (msg : Inbound) (gs : t) (port : Z) :
  station_ok (initial port)
  /\ (station_ok gs ->
      (forall gs', handleMessageWhenUp e msg gs = Ok gs' -> station_ok gs')
      /\ is_Throws (handleMessageWhenUp e msg gs) = false).
Proof.
  split.
  - split; [|split]; cbn; intros *; by rewrite ?lookup_empty.
  - intros Hok. split.
    + intros gs'. destruct msg as [data a p|name]; cbn [handleMessageWhenUp].
      * destruct data as [|msgType rest]; [by intros [= <-]|].
        case_bool_decide;
          [intros H'; by apply (handleAuthRequest_station_ok _ _ _ _ _ _ H')|].
        case_bool_decide;
          [intros H'; by apply (handleProof_station_ok _ _ _ _ _ _ H')|].
        by intros [= <-].
      * by intros [= <-].
    + destruct msg as [data a p|name]; cbn [handleMessageWhenUp]; [|done].
      destruct data as [|msgType rest]; [done|].
      case_bool_decide; [apply handleAuthRequest_no_throw|].
      case_bool_decide; [by apply handleProof_no_throw|done].
Qed.

(** A PROOF for the pending challenge of exactly one session, with the
    registered commitment and a fresh timestamp, is accepted. *)
Lemma handleProof_accepts e proof srcAddr srcPort gs id v :
  droneVerifiers gs !! id = Some v ->
  ZKPModule.verifierInitialized v = true ->
  ZKProof.commitment proof = ZKPModule.publicCommitment v ->
  pendingChallenges gs !! id = Some (ZKProof.challenge proof) ->
  (forall k, pendingChallenges gs !! k = Some (ZKProof.challenge proof) -> k = id) ->
  id <> "" ->
  size_of (ZKProof.proofData proof) = 32 ->
  ZKProof.fits_u32 proof -> ZKProof.well_typed proof ->
  Z.abs (sys_now e - to_int64 (ZKProof.timestamp proof)) <= ZKPModule.FRESHNESS_WINDOW ->
  numAuthSuccess gs < INT_MAX ->
  exists gs2,
    handleProof e (PROOF :: ZKProof.serialize proof) srcAddr srcPort gs = Ok gs2
    /\ pendingChallenges gs2 = delete id (pendingChallenges gs)
    /\ numAuthSuccess gs2 = numAuthSuccess gs + 1
    /\ numAuthFailures gs2 = numAuthFailures gs
    /\ numAuthRequests gs2 = numAuthRequests gs
    /\ trace gs2 = trace gs ++ [Emit authSuccessSignal (numAuthSuccess gs + 1);
                                SendTo [AUTH_SUCCESS] srcAddr srcPort].
Proof.
  intros Hv Hi Hcm Hp Hu Hne Hpd Hfit Hwt Hfresh Hsu.
  assert (Hfind : findDroneId (pendingChallenges gs) (ZKProof.challenge proof) = id)
    by (by apply findDroneId_unique).
  pose proof (ZKPModuleFacts.verifyProof_accepts e v proof Hi
                (conj Hpd (conj Hcm Hfresh))) as Hver.
  pose proof (size_of_serialize proof) as Hsz.
  pose proof (deserialize_serialize_app proof [] Hfit Hwt) as Hde.
  rewrite app_nil_r in Hde.
  rewrite (handleProof_verified e (PROOF :: ZKProof.serialize proof) srcAddr srcPort
             gs proof id v true _
             ltac:(unfold size_of in *; cbn [length]; lia) Hde Hfind Hne Hv Hver).
  rewrite countSuccess_Ok by (cbn; lia). cbn [mbind result_bind].
  eexists. split; [reflexivity|].
  cbn [numAuthSuccess numAuthFailures numAuthRequests pendingChallenges trace
       erase_pending sendAuthSuccess sendPacket set_verifier].
  repeat (split; [done|]). by rewrite <- app_assoc.
Qed.

(** X12: the honest handshake at the ground station: a first AUTH_REQUEST from an
    authorized identity is answered with a CHALLENGE; a PROOF that carries
    this challenge, the registered commitment, 32 bytes of proofData and a
    fresh timestamp is answered with AUTH_SUCCESS, counted once as a success
    and consumes the challenge, so that the same PROOF sent again is
    answered with AUTH_FAILURE. *)
Theorem honest_handshake_authenticates_once
        (e1 e2 e3 : Env) (id : string) (c : list byte)
        (srcAddr : L3Address) (srcPort : Z) (gs0 : t) :
  id ∈ authorizedDrones ->
  Z.of_nat (String.length id) < 4294967296 -> size_of c < 4294967296 ->
  droneVerifiers gs0 !! id = None ->
  numAuthRequests gs0 < INT_MAX -> numAuthSuccess gs0 < INT_MAX ->
  exists gs1 chal,
    handleMessageWhenUp e1
      (Packet (DroneAuthApp.authRequestMessage id c) srcAddr srcPort) gs0 = Ok gs1
    /\ pendingChallenges gs1 !! id = Some chal
    /\ forall proof,
         (forall id', id' <> id -> pendingChallenges gs0 !! id' <> Some chal) ->
         ZKProof.challenge proof = chal ->
         ZKProof.commitment proof = c ->
         size_of (ZKProof.proofData proof) = 32 ->
         ZKProof.fits_u32 proof -> ZKProof.well_typed proof ->
         Z.abs (sys_now e2 - to_int64 (ZKProof.timestamp proof))
         <= ZKPModule.FRESHNESS_WINDOW ->
         exists gs2,
           handleMessageWhenUp e2
             (Packet (PROOF :: ZKProof.serialize proof) srcAddr srcPort) gs1 = Ok gs2
           /\ numAuthSuccess gs2 = numAuthSuccess gs0 + 1
           /\ numAuthFailures gs2 = numAuthFailures gs0
           /\ pendingChallenges gs2 !! id = None
           /\ trace gs2 = trace gs1 ++ [Emit authSuccessSignal (numAuthSuccess gs0 + 1);
                                        SendTo [AUTH_SUCCESS] srcAddr srcPort]
           /\ handleMessageWhenUp e3
                (Packet (PROOF :: ZKProof.serialize proof) srcAddr srcPort) gs2
              = Ok (sendAuthFailure srcAddr srcPort gs2).
Proof.
  intros Hauth Hlen Hc Hnew Hrq Hsu.
  destruct (handleAuthRequest_session e1 id c srcAddr srcPort gs0 Hauth Hlen Hc Hrq)
    as (gs1 & H1 & Hs & _ & _ & Hsu1 & Hfa1).
  cbv zeta in Hs. unfold getOrCreateVerifier in Hs. rewrite Hnew in Hs.
  cbn [fst snd] in Hs. destruct Hs as (Hdv & Hp & _).
  set (v0 := ZKPModule.initializeVerifier c id
               (ZKPModule.setup e1 0%nat ZKPModule.new)) in *.
  set (chal := (ZKPModule.generateChallenge e1 128 v0).1) in *.
  set (v1 := (ZKPModule.generateChallenge e1 128 v0).2) in *.
  exists gs1, chal. rewrite dispatch_auth_request.
  split; [exact H1|]. split; [rewrite Hp; apply lookup_insert_eq|].
  intros proof Hothers Hch Hcm Hpd Hfit Hwt Hfresh.
  assert (Hne : id <> "").
  { intros ->. by apply empty_id_not_authorized. }
  destruct (handleProof_accepts e2 proof srcAddr srcPort gs1 id v1)
    as (gs2 & H2 & Hp2 & Hs2 & Hf2 & _ & Ht2); try done.
  - rewrite Hdv. apply lookup_insert_eq.
  - rewrite Hp, Hch. apply lookup_insert_eq.
  - intros k. rewrite Hp, Hch. destruct (decide (k = id)) as [->|Hk']; [done|].
    rewrite lookup_insert_ne by done. intros Hk. by destruct (Hothers k Hk').
  - lia.
  - exists gs2. rewrite !dispatch_proof. split; [exact H2|].
    split; [lia|]. split; [lia|].
    split; [rewrite Hp2; apply lookup_delete_eq|].
    split; [by rewrite Ht2, Hsu1|].
    apply handleProof_unknown_challenge; [done|done|].
    intros k. rewrite Hp2, Hch, Hp.
    destruct (decide (k = id)) as [->|Hk'].
    + by rewrite lookup_delete_eq.
    + rewrite lookup_delete_ne, lookup_insert_ne by done. by apply Hothers.
Qed.

Lemma honest_handshake_authenticates_once_witness :
  exists gs1 chal,
    handleMessageWhenUp env_fresh
      (Packet (DroneAuthApp.authRequestMessage "DRONE_002" (replicate 32 x11))
              "10.0.0.3" 6000) station1 = Ok gs1
    /\ pendingChallenges gs1 !! "DRONE_002" = Some chal
    /\ forall proof,
         (forall id', id' <> "DRONE_002" ->
                      pendingChallenges station1 !! id' <> Some chal) ->
         ZKProof.challenge proof = chal ->
         ZKProof.commitment proof = replicate 32 x11 ->
         size_of (ZKProof.proofData proof) = 32 ->
         ZKProof.fits_u32 proof -> ZKProof.well_typed proof ->
         Z.abs (sys_now env_fresh - to_int64 (ZKProof.timestamp proof))
         <= ZKPModule.FRESHNESS_WINDOW ->
         exists gs2,
           handleMessageWhenUp env_fresh
             (Packet (PROOF :: ZKProof.serialize proof) "10.0.0.3" 6000) gs1 = Ok gs2
           /\ numAuthSuccess gs2 = numAuthSuccess station1 + 1
           /\ numAuthFailures gs2 = numAuthFailures station1
           /\ pendingChallenges gs2 !! "DRONE_002" = None
           /\ trace gs2 = trace gs1
                           ++ [Emit authSuccessSignal (numAuthSuccess station1 + 1);
                               SendTo [AUTH_SUCCESS] "10.0.0.3" 6000]
           /\ handleMessageWhenUp env_late
                (Packet (PROOF :: ZKProof.serialize proof) "10.0.0.3" 6000) gs2
              = Ok (sendAuthFailure "10.0.0.3" 6000 gs2).
Proof.
  apply (honest_handshake_authenticates_once env_fresh env_fresh env_late "DRONE_002"
           (replicate 32 x11) "10.0.0.3" 6000 station1).
  - apply (bool_decide_eq_true_1 _). vm_compute. reflexivity.
  - vm_compute. reflexivity.
  - vm_compute. reflexivity.
  - vm_compute. reflexivity.
  - vm_compute. reflexivity.
  - vm_compute. reflexivity.
Defined.

Lemma handleAuthRequest_returns_witness :
  exists gs',
    handleAuthRequest env_fresh
      [AUTH_REQUEST; xff; xff; xff; xff; x44; x52; x4f; x4e; x45; x5f; x30]
      "10.0.0.9" 6000 station1 = Ok gs'.
Proof.
  apply handleAuthRequest_returns; vm_compute; reflexivity.
Defined.

End GroundStationFacts.

(** ** DroneAuthApp *)

Module DroneAuthAppFacts.
Import Machine Wire WireFacts Sim Examples.
Import DroneAuthApp.

Lemma simtime_add_Ok t d :
  0 <= t -> 0 <= d -> t + d <= INT64_MAX -> simtime_add t d = Ok (t + d).
Proof.
  intros Ht Hd Hs. unfold simtime_add.
  replace ((INT64_MIN <=? d) && (d <=? INT64_MAX)) with true
    by (symmetry; rewrite andb_true_iff, !Z.leb_le; unfold INT64_MIN; lia).
  by replace ((INT64_MIN <=? t + d) && (t + d <=? INT64_MAX)) with true
    by (symmetry; rewrite andb_true_iff, !Z.leb_le; unfold INT64_MIN; lia).
Qed.

Lemma simtime_add_inv t d s :
  simtime_add t d = Ok s -> s = t + d /\ INT64_MIN <= t + d <= INT64_MAX.
Proof.
  unfold simtime_add.
  destruct ((INT64_MIN <=? d) && (d <=? INT64_MAX)); cbn [negb]; [|discriminate].
  destruct ((INT64_MIN <=? t + d) && (t + d <=? INT64_MAX)) eqn:E;
    cbn [negb]; [|discriminate].
  rewrite andb_true_iff, !Z.leb_le in E. by intros [= <-].
Qed.

Lemma scheduleAt_Ok simTime t m :
  isScheduled m = false -> simTime <= t ->
  scheduleAt simTime t m = Ok (mkMsg (msgName m) (msgKind m) (Some t)).
Proof.
  intros Hs Ht. unfold scheduleAt. rewrite Hs.
  by replace (t <? simTime) with false by (symmetry; apply Z.ltb_ge; lia).
Qed.

Lemma scheduleAt_inv simTime t m m' :
  scheduleAt simTime t m = Ok m' ->
  isScheduled m = false /\ simTime <= t
  /\ m' = mkMsg (msgName m) (msgKind m) (Some t).
Proof.
  unfold scheduleAt. destruct (isScheduled m); [discriminate|].
  destruct (t <? simTime) eqn:E; [discriminate|]. apply Z.ltb_ge in E.
  by intros [= <-].
Qed.

Lemma challenge_header (c : string) :
  Z.of_nat (String.length c) < 4294967296 ->
  let data := GroundStation.challengeMessage c in
  size_of data = 5 + Z.of_nat (String.length c)
  /\ read_le 4 data 1 = Ok (Z.of_nat (String.length c))
  /\ read_range data (1 + 4) (Z.of_nat (String.length c)) = Ok (list_byte_of_string c).
Proof.
  intros Hlen. unfold GroundStation.challengeMessage.
  rewrite u32_small by lia.
  pose proof (request_header CHALLENGE c [] Hlen) as H.
  cbv zeta in H. rewrite app_nil_r in H.
  destruct H as (Hsz & Hrd & Hrg). cbv zeta. repeat split; try done.
  rewrite Hsz. unfold size_of. cbn [length]. lia.
Qed.

Lemma handleChallengeMessage_wellformed simTime c a :
  Z.of_nat (String.length c) < 4294967296 ->
  0 <= simTime -> simTime + PROOF_DELAY <= INT64_MAX ->
  handleChallengeMessage simTime (GroundStation.challengeMessage c) a
  = Ok (set_challenge c
          (proofMsgs a ++ [mkMsg "sendProof" MSG_SEND_PROOF (Some (simTime + PROOF_DELAY))])
          a).
Proof.
  intros Hlen Ht0 Ht1. destruct (challenge_header c Hlen) as (Hsz & Hrd & Hrg).
  unfold handleChallengeMessage, read_u32. cbv zeta.
  rewrite Hsz, Hrd. cbn [mbind result_bind].
  replace (_ <? 5) with false by (symmetry; apply Z.ltb_ge; lia).
  replace (_ <? _) with false by (symmetry; apply Z.ltb_ge; lia).
  rewrite Hrg. cbn [mbind result_bind].
  rewrite string_of_list_byte_of_string.
  rewrite simtime_add_Ok by (done || unfold PROOF_DELAY; lia).
  cbn [mbind result_bind].
  rewrite scheduleAt_Ok by (done || unfold PROOF_DELAY; lia).
  reflexivity.
Qed.

(** The guards of [handleChallengeMessage] keep its reads inside the
    buffer: whatever arrives, it returns, as long as the time of the proof
    fits the simulation clock. *)
Lemma handleChallengeMessage_returns simTime data a :
  0 <= simTime -> simTime + PROOF_DELAY <= INT64_MAX ->
  exists a', handleChallengeMessage simTime data a = Ok a'.
Proof.
  intros Ht0 Ht1. unfold handleChallengeMessage, read_u32. cbv zeta.
  destruct (size_of data <? 5) eqn:H5; [eauto|]. apply Z.ltb_ge in H5.
  destruct (read_le_in_bounds 4 data 1) as (n & -> & Hn);
    [lia|lia|].
  cbn [mbind result_bind].
  destruct (size_of data <? 1 + 4 + n) eqn:Hc; [eauto|]. apply Z.ltb_ge in Hc.
  rewrite read_range_in_bounds by lia.
  cbn [mbind result_bind].
  rewrite simtime_add_Ok by (done || unfold PROOF_DELAY; lia).
  cbn [mbind result_bind].
  rewrite scheduleAt_Ok by (done || unfold PROOF_DELAY; lia).
  cbn [mbind result_bind]. eauto.
Qed.

(** Whatever the buffer and the time, no read of [handleChallengeMessage]
    leaves the buffer. *)
Lemma handleChallengeMessage_in_bounds simTime data a f :
  handleChallengeMessage simTime data a <> Undefined f.
Proof.
  unfold handleChallengeMessage, read_u32. cbv zeta.
  destruct (size_of data <? 5) eqn:H5; [done|]. apply Z.ltb_ge in H5.
  destruct (read_le_in_bounds 4 data 1) as (n & -> & Hn);
    [lia|lia|].
  cbn [mbind result_bind].
  destruct (size_of data <? 1 + 4 + n) eqn:Hc; [done|]. apply Z.ltb_ge in Hc.
  rewrite read_range_in_bounds by lia.
  cbn [mbind result_bind].
  unfold simtime_add, scheduleAt.
  destruct (negb _); [done|]. destruct (negb _); [done|].
  cbn [mbind result_bind isScheduled arrival].
  by destruct (_ <? _).
Qed.

Section Client.
Variable sha256Hash : list byte -> list byte.
Variable p : Params.

Lemma sendAuthenticationRequest_inv simTime a a' :
  sendAuthenticationRequest p simTime a = Ok a' ->
  selfMsg a' = selfMsg a
  /\ timeoutMsg a' = Some (mkMsg "authTimeout" MSG_AUTH_TIMEOUT (Some (simTime + authTimeout p)))
  /\ proofMsgs a' = proofMsgs a
  /\ numAuthRequests a' = numAuthRequests a + 1
  /\ trace a' = trace a ++ [Emit authRequestSignal (numAuthRequests a + 1);
                            SendTo (authRequestMessage (droneId a)
                                      (ZKPModule.getCommitment (zkpModule a)))
                                   (destAddress p) (destPort a)].
Proof.
  unfold sendAuthenticationRequest. cbv zeta. intros H.
  apply bind_Ok in H as (n & Hn & H). apply int_incr_inv in Hn as [-> _].
  apply bind_Ok in H as (at_ & Hat & H). apply simtime_add_inv in Hat as [-> _].
  apply bind_Ok in H as (tm & Htm & [= <-]).
  apply scheduleAt_inv in Htm as (_ & _ & ->).
  cbn. by rewrite <- app_assoc.
Qed.

Lemma sendAuthenticationRequest_Ok simTime a :
  numAuthRequests a < INT_MAX ->
  0 <= simTime -> 0 <= authTimeout p -> simTime + authTimeout p <= INT64_MAX ->
  exists a', sendAuthenticationRequest p simTime a = Ok a'.
Proof.
  intros Hn Ht0 Ht Ht1. unfold sendAuthenticationRequest. cbv zeta.
  rewrite int_incr_Ok by done. cbn [mbind result_bind].
  rewrite simtime_add_Ok by done. cbn [mbind result_bind].
  rewrite scheduleAt_Ok by (done || lia). cbn [mbind result_bind]. eauto.
Qed.

Lemma handleAuthTimeout_Ok simTime a sm :
  selfMsg a = Some sm -> isScheduled sm = false ->
  0 <= simTime -> 0 <= retryInterval p ->
  simTime + retryInterval p <= INT64_MAX -> numAuthFailures a < INT_MAX ->
  handleAuthTimeout p simTime a
  = Ok (mk (localPort a) (destPort a) (droneId a) (password a) (zkpModule a)
           (currentChallenge a)
           (Some (mkMsg (msgName sm) (msgKind sm) (Some (simTime + retryInterval p))))
           None (proofMsgs a)
           (numAuthRequests a) (numAuthSuccess a) (numAuthFailures a + 1)
           (paint "red" (display a))
           (trace a ++ [Emit authFailureSignal (numAuthFailures a + 1)])).
Proof.
  intros Hs Hi Ht0 Hr Ht1 Hn. unfold handleAuthTimeout. cbv zeta.
  cbn [set_timers numAuthFailures]. rewrite int_incr_Ok by done.
  cbn [mbind result_bind]. rewrite simtime_add_Ok by done.
  cbn [mbind result_bind]. cbn [selfMsg set_display log set_counters set_timers].
  rewrite Hs. rewrite scheduleAt_Ok by (done || lia).
  reflexivity.
Qed.

Lemma handleAuthTimeout_inv simTime a a' :
  handleAuthTimeout p simTime a = Ok a' ->
  timeoutMsg a' = None /\ proofMsgs a' = proofMsgs a
  /\ exists sm, selfMsg a = Some sm
                /\ selfMsg a' = Some (mkMsg (msgName sm) (msgKind sm)
                                            (Some (simTime + retryInterval p))).
Proof.
  unfold handleAuthTimeout. cbv zeta. intros H.
  apply bind_Ok in H as (n & _ & H).
  apply bind_Ok in H as (at_ & Hat & H). apply simtime_add_inv in Hat as [-> _].
  cbn [selfMsg set_display log set_counters set_timers] in H.
  destruct (selfMsg a) as [sm|] eqn:Hs; [|discriminate].
  apply bind_Ok in H as (m & Hm & [= <-]).
  apply scheduleAt_inv in Hm as (_ & _ & ->). cbn. eauto.
Qed.

Lemma sendZKProof_inv e a a' :
  sendZKProof sha256Hash e p a = Ok a' ->
  selfMsg a' = selfMsg a /\ timeoutMsg a' = timeoutMsg a
  /\ proofMsgs a' = proofMsgs a.
Proof.
  unfold sendZKProof. intros H.
  apply bind_Ok in H as ([proof z] & _ & [= <-]). done.
Qed.

Lemma handleIncomingMessage_inv simTime data a a' :
  handleIncomingMessage simTime data a = Ok a' ->
  (selfMsg a' = selfMsg a /\ timeoutMsg a' = timeoutMsg a
   /\ (proofMsgs a' = proofMsgs a
       \/ exists m, proofMsgs a' = proofMsgs a ++ [m] /\ msgKind m = MSG_SEND_PROOF))
  \/ (timeoutMsg a' = None /\ proofMsgs a' = proofMsgs a
      /\ (selfMsg a' = selfMsg a
          \/ exists sm, selfMsg a = Some sm /\ selfMsg a' = Some (cancelEvent sm))).
Proof.
  unfold handleIncomingMessage. destruct data as [|msgType rest].
  { intros [= <-]. left. eauto. }
  case_bool_decide as H2.
  { unfold handleChallengeMessage, read_u32. cbv zeta. intros H.
    destruct (size_of _ <? 5); [injection H as <-; left; eauto|].
    apply bind_Ok in H as (n & _ & H).
    destruct (size_of _ <? _); [injection H as <-; left; eauto|].
    apply bind_Ok in H as (bs & _ & H).
    apply bind_Ok in H as (at_ & _ & H).
    apply bind_Ok in H as (m & Hm & [= <-]).
    apply scheduleAt_inv in Hm as (_ & _ & ->).
    left. cbn. repeat split. right. eauto. }
  case_bool_decide as H4.
  { unfold handleAuthSuccessMessage. cbv zeta. intros H.
    apply bind_Ok in H as (n & _ & [= <-]). right. cbn.
    repeat split. destruct (selfMsg a) as [sm|]; cbn; [|by left].
    destruct (isScheduled sm); [right; eauto | by left]. }
  case_bool_decide as H5.
  { unfold handleAuthFailureMessage. cbv zeta. intros H.
    apply bind_Ok in H as (n & _ & [= <-]). right. cbn. repeat split. by left. }
  intros [= <-]. left. eauto.
Qed.

(** The timers of a running application: the request timer is never
    pending while the timeout is armed. *)
Lemma reachable_timers_consistent a :
  reachable sha256Hash p a -> timers_consistent a.
Proof.
  induction 1 as [e lport dport id pw simTime a0 a Hinit Hstart
                 | e which a at_ a' Hreach IH Hdel
                 | simTime data a a' Hreach IH Hin].
  - unfold initial in Hinit. cbv zeta in Hinit.
    apply bind_Ok in Hinit as (z & _ & [= <-]).
    unfold handleStartOperation in Hstart.
    apply bind_Ok in Hstart as (t0 & _ & Hstart). cbn [selfMsg] in Hstart.
    apply bind_Ok in Hstart as (m & Hm & [= <-]).
    apply scheduleAt_inv in Hm as (_ & _ & ->).
    split; [|split]; cbn.
    + eauto.
    + intros tm [=].
    + intros m Hm. by apply elem_of_nil in Hm.
  - destruct IH as ((sm & Hsm & Hk) & Htm & Hpm).
    destruct which as [| |i]; cbn [deliver] in Hdel.
    + (* the request timer fires *)
      rewrite Hsm in Hdel. destruct (arrival sm) as [t|] eqn:Harr; [|discriminate].
      injection Hdel as <- Hdel. unfold handleSelfMessage in Hdel.
      rewrite Hk in Hdel. cbn [Z.eqb MSG_SEND_AUTH_REQUEST Pos.eqb] in Hdel.
      change (MSG_SEND_AUTH_REQUEST =? MSG_SEND_AUTH_REQUEST) with true in Hdel.
      apply sendAuthenticationRequest_inv in Hdel as (Hs' & Ht' & Hp' & _).
      cbn [selfMsg proofMsgs set_timers] in Hs', Hp'.
      split; [|split].
      * rewrite Hs'. eexists. split; [reflexivity|]. exact Hk.
      * intros tm. rewrite Ht'. intros [= <-]. split; [done|].
        intros _ sm'. rewrite Hs'. by intros [= <-].
      * intros m. rewrite Hp'. apply Hpm.
    + (* the timeout fires *)
      destruct (timeoutMsg a) as [tm|] eqn:Htmo; [|discriminate].
      destruct (arrival tm) as [t|] eqn:Harr; [|discriminate].
      injection Hdel as <- Hdel. unfold handleSelfMessage in Hdel.
      destruct (Htm tm eq_refl) as [Hkt _]. rewrite Hkt in Hdel.
      change (MSG_AUTH_TIMEOUT =? MSG_SEND_AUTH_REQUEST) with false in Hdel.
      change (MSG_AUTH_TIMEOUT =? MSG_SEND_PROOF) with false in Hdel.
      change (MSG_AUTH_TIMEOUT =? MSG_AUTH_TIMEOUT) with true in Hdel.
      apply handleAuthTimeout_inv in Hdel as (Ht' & Hp' & sm' & Hs0 & Hs').
      cbn [selfMsg proofMsgs set_timers] in Hs0, Hp'.
      rewrite Hsm in Hs0. injection Hs0 as <-.
      split; [|split].
      * rewrite Hs'. eexists. split; [reflexivity|]. exact Hk.
      * intros tm'. rewrite Ht'. intros [=].
      * intros m. rewrite Hp'. apply Hpm.
    + (* a proof timer fires *)
      destruct (proofMsgs a !! i) as [pm|] eqn:Hi; [|discriminate].
      destruct (arrival pm) as [t|] eqn:Harr; [|discriminate].
      injection Hdel as <- Hdel. unfold handleSelfMessage in Hdel.
      assert (Hkp : msgKind pm = MSG_SEND_PROOF)
        by (apply Hpm; by eapply list_elem_of_lookup_2).
      rewrite Hkp in Hdel.
      change (MSG_SEND_PROOF =? MSG_SEND_AUTH_REQUEST) with false in Hdel.
      change (MSG_SEND_PROOF =? MSG_SEND_PROOF) with true in Hdel.
      apply sendZKProof_inv in Hdel as (Hs' & Ht' & Hp').
      cbn [selfMsg timeoutMsg proofMsgs set_challenge] in Hs', Ht', Hp'.
      split; [|split].
      * rewrite Hs'. eauto.
      * intros tm. rewrite Ht', Hs'. apply Htm.
      * intros m. rewrite Hp'. intros Hm.
        apply list_elem_of_lookup in Hm as [j Hj].
        destruct (decide (j = i)) as [->|Hne].
        -- rewrite list_lookup_insert_eq in Hj
             by (by eapply lookup_lt_Some).
           injection Hj as <-. exact Hkp.
        -- rewrite list_lookup_insert_ne in Hj by done.
           apply Hpm. by eapply list_elem_of_lookup_2.
  - destruct IH as ((sm & Hsm & Hk) & Htm & Hpm).
    apply handleIncomingMessage_inv in Hin
      as [(Hs' & Ht' & Hp')|(Ht' & Hp' & Hs')].
    + split; [|split].
      * rewrite Hs'. eauto.
      * intros tm. rewrite Ht', Hs'. apply Htm.
      * intros m Hm. destruct Hp' as [Hp'|(m' & Hp' & Hk')]; rewrite Hp' in Hm.
        -- by apply Hpm.
        -- apply elem_of_app in Hm as [Hm|Hm]; [by apply Hpm|].
           apply list_elem_of_singleton in Hm. by subst.
    + split; [|split].
      * destruct Hs' as [Hs'|(sm' & Hs0 & Hs')]; rewrite Hs'; [eauto|].
        rewrite Hsm in Hs0. injection Hs0 as <-. eexists. split; [reflexivity|].
        exact Hk.
      * intros tm. rewrite Ht'. intros [=].
      * intros m. rewrite Hp'. apply Hpm.
Qed.

(** The prover of a running application stays initialized. *)
Lemma reachable_prover_initialized a :
  reachable sha256Hash p a ->
  ZKPModule.proverInitialized (zkpModule a) = true.
Proof.
  induction 1 as [e lport dport id pw simTime a0 a Hinit Hstart
                 | e which a at_ a' Hreach IH Hdel
                 | simTime data a a' Hreach IH Hin].
  - unfold initial in Hinit. cbv zeta in Hinit.
    apply bind_Ok in Hinit as (z & Hz & [= <-]).
    unfold ZKPModule.createCommitment in Hz. cbn [ZKPModule.proverInitialized
      ZKPModule.initializeProver negb] in Hz. injection Hz as <-.
    unfold handleStartOperation in Hstart.
    apply bind_Ok in Hstart as (t0 & _ & Hstart). cbn [selfMsg] in Hstart.
    by apply bind_Ok in Hstart as (m & _ & [= <-]).
  - assert (Hkeep : forall simTime kind b,
              zkpModule b = zkpModule a ->
              handleSelfMessage sha256Hash e p simTime kind b = Ok a' ->
              ZKPModule.proverInitialized (zkpModule a') = true).
    { intros simTime kind b Hb. unfold handleSelfMessage.
      destruct (kind =? MSG_SEND_AUTH_REQUEST).
      { unfold sendAuthenticationRequest. cbv zeta. intros H.
        apply bind_Ok in H as (n & _ & H). apply bind_Ok in H as (t0 & _ & H).
        apply bind_Ok in H as (tm & _ & [= <-]). cbn. by rewrite Hb. }
      destruct (kind =? MSG_SEND_PROOF).
      { unfold sendZKProof, ZKPModule.generateProof. cbv zeta. rewrite Hb, IH.
        cbn [negb mbind result_bind]. by intros [= <-]. }
      destruct (kind =? MSG_AUTH_TIMEOUT); [|discriminate].
      unfold handleAuthTimeout. cbv zeta. intros H.
      apply bind_Ok in H as (n & _ & H). apply bind_Ok in H as (t0 & _ & H).
      cbn [selfMsg set_display log set_counters set_timers] in H.
      destruct (selfMsg b); [|discriminate].
      apply bind_Ok in H as (m & _ & [= <-]). cbn. by rewrite Hb. }
    destruct which as [| |i]; cbn [deliver] in Hdel.
    + destruct (selfMsg a) as [m|]; [|discriminate].
      destruct (arrival m); [|discriminate].
      injection Hdel as _ Hdel. by apply Hkeep in Hdel.
    + destruct (timeoutMsg a) as [m|]; [|discriminate].
      destruct (arrival m); [|discriminate].
      injection Hdel as _ Hdel. by apply Hkeep in Hdel.
    + destruct (proofMsgs a !! i) as [m|]; [|discriminate].
      destruct (arrival m); [|discriminate].
      injection Hdel as _ Hdel. by apply Hkeep in Hdel.
  - unfold handleIncomingMessage in Hin. destruct data as [|msgType rest].
    { by injection Hin as <-. }
    case_bool_decide.
    { unfold handleChallengeMessage, read_u32 in Hin. cbv zeta in Hin.
      destruct (size_of _ <? 5); [by injection Hin as <-|].
      apply bind_Ok in Hin as (n & _ & Hin).
      destruct (size_of _ <? _); [by injection Hin as <-|].
      apply bind_Ok in Hin as (bs & _ & Hin).
      apply bind_Ok in Hin as (t0 & _ & Hin).
      by apply bind_Ok in Hin as (m & _ & [= <-]). }
    case_bool_decide.
    { unfold handleAuthSuccessMessage in Hin. cbv zeta in Hin.
      by apply bind_Ok in Hin as (n & _ & [= <-]). }
    case_bool_decide.
    { unfold handleAuthFailureMessage in Hin. cbv zeta in Hin.
      by apply bind_Ok in Hin as (n & _ & [= <-]). }
    by injection Hin as <-.
Qed.

(** C8: when the timeout of a running application fires, the failure is
    counted and shown (the display turns red), the timeout message is
    deleted, and the request timer is scheduled exactly [retryInterval]
    after the firing time, provided that time fits the 64-bit simulation
    clock; when that timer is delivered the application sends a fresh
    AUTH_REQUEST. *)
Theorem timeout_schedules_retry (e : Env) (a : t) (at_ : Z) (r : result t) :
  reachable sha256Hash p a ->
  deliver sha256Hash e p TimeoutTimer a = Some (at_, r) ->
  0 <= at_ -> 0 <= retryInterval p -> at_ + retryInterval p <= INT64_MAX ->
  numAuthFailures a < INT_MAX ->
  exists a' sm,
    r = Ok a'
    /\ timeoutMsg a' = None
    /\ numAuthFailures a' = numAuthFailures a + 1
    /\ parentColor (display a') = "red"
    /\ selfMsg a' = Some sm
    /\ msgKind sm = MSG_SEND_AUTH_REQUEST
    /\ arrival sm = Some (at_ + retryInterval p)
    /\ (forall e',
          numAuthRequests a < INT_MAX ->
          0 <= authTimeout p ->
          at_ + retryInterval p + authTimeout p <= INT64_MAX ->
          exists a'',
            deliver sha256Hash e' p SelfTimer a'
            = Some (at_ + retryInterval p, Ok a'')
            /\ trace a'' = trace a' ++
                 [Emit authRequestSignal (numAuthRequests a + 1);
                  SendTo (authRequestMessage (droneId a)
                            (ZKPModule.getCommitment (zkpModule a)))
                         (destAddress p) (destPort a)]).
Proof.
  intros Hreach Hdel Hat Hretry Hfit Hfa.
  destruct (reachable_timers_consistent _ Hreach)
    as ((sm & Hsm & Hk) & Htm & _).
  cbn [deliver] in Hdel.
  destruct (timeoutMsg a) as [tm|] eqn:Htmo; [|discriminate].
  destruct (arrival tm) as [t|] eqn:Harr; [|discriminate].
  injection Hdel as <- <-.
  destruct (Htm tm eq_refl) as [Hkt Hidle].
  assert (Hsched : isScheduled tm = true) by (unfold isScheduled; by rewrite Harr).
  specialize (Hidle Hsched sm Hsm).
  unfold handleSelfMessage. rewrite Hkt.
  change (MSG_AUTH_TIMEOUT =? MSG_SEND_AUTH_REQUEST) with false.
  change (MSG_AUTH_TIMEOUT =? MSG_SEND_PROOF) with false.
  change (MSG_AUTH_TIMEOUT =? MSG_AUTH_TIMEOUT) with true. cbv iota.
  rewrite (handleAuthTimeout_Ok t _ sm) by done.
  eexists. eexists. split; [reflexivity|].
  cbn [timeoutMsg numAuthFailures display selfMsg set_timers parentColor paint
       msgKind arrival].
  repeat (split; [done|]).
  intros e' Hrq Hauth Hfit'. cbn [deliver selfMsg arrival msgKind].
  unfold handleSelfMessage. rewrite Hk.
  change (MSG_SEND_AUTH_REQUEST =? MSG_SEND_AUTH_REQUEST) with true. cbv iota.
  match goal with |- context [sendAuthenticationRequest p ?t0 ?a0] =>
    destruct (sendAuthenticationRequest_Ok t0 a0) as (a'' & Ha'');
      [done|lia|done|done|] end.
  exists a''. split; [by rewrite Ha''|].
  apply sendAuthenticationRequest_inv in Ha'' as (_ & _ & _ & _ & ->).
  reflexivity.
Qed.

Lemma sendZKProof_sends e a :
  ZKPModule.proverInitialized (zkpModule a) = true ->
  exists proof z,
    ZKPModule.generateProof sha256Hash e (zkpModule a) (currentChallenge a)
    = Ok (proof, z)
    /\ ZKProof.challenge proof = currentChallenge a
    /\ ZKProof.commitment proof = ZKPModule.getCommitment (zkpModule a)
    /\ sendZKProof sha256Hash e p a
       = Ok (sendPacket p (PROOF :: ZKProof.serialize proof) (set_zkpModule z a)).
Proof.
  intros Hi. unfold sendZKProof, ZKPModule.generateProof. cbv zeta.
  rewrite Hi. cbn [negb mbind result_bind]. eauto 6.
Qed.

(** C10: whatever the state of the client, a well-formed CHALLENGE message
    replaces [currentChallenge] and schedules a [sendProof] message one
    millisecond later (a time that must fit the 64-bit simulation clock);
    when that message is delivered, a client whose prover is initialized,
    as it is in every state of a running application, generates a proof for
    the stored challenge and sends it in a PROOF message; an AUTH_SUCCESS or
    AUTH_FAILURE message reaches its handler in every state as well. *)
Theorem challenge_handled_in_every_state (simTime : Z) (c : string) (a : t) :
  Z.of_nat (String.length c) < 4294967296 ->
  0 <= simTime -> simTime + 1 * TICKS_PER_MILLISECOND <= INT64_MAX ->
  handleIncomingMessage simTime (GroundStation.challengeMessage c) a
  = Ok (set_challenge c
          (proofMsgs a ++ [mkMsg "sendProof" MSG_SEND_PROOF
                                 (Some (simTime + 1 * TICKS_PER_MILLISECOND))]) a)
  /\ (forall e,
        ZKPModule.proverInitialized (zkpModule a) = true ->
        exists proof a2,
          deliver sha256Hash e p (ProofTimer (length (proofMsgs a)))
            (set_challenge c
               (proofMsgs a ++ [mkMsg "sendProof" MSG_SEND_PROOF
                                      (Some (simTime + 1 * TICKS_PER_MILLISECOND))]) a)
          = Some (simTime + 1 * TICKS_PER_MILLISECOND, Ok a2)
          /\ ZKPModule.generateProof sha256Hash e (zkpModule a) c
             = Ok (proof, zkpModule a2)
          /\ ZKProof.challenge proof = c
          /\ ZKProof.commitment proof = ZKPModule.getCommitment (zkpModule a)
          /\ currentChallenge a2 = c
          /\ trace a2 = trace a ++ [SendTo (PROOF :: ZKProof.serialize proof)
                                           (destAddress p) (destPort a)])
  /\ (forall rest,
        handleIncomingMessage simTime (AUTH_SUCCESS :: rest) a
        = handleAuthSuccessMessage a)
  /\ (forall rest,
        handleIncomingMessage simTime (AUTH_FAILURE :: rest) a
        = handleAuthFailureMessage a).
Proof.
  intros Hlen Ht0 Ht1. split; [|split; [|split]].
  - unfold GroundStation.challengeMessage. cbn [handleIncomingMessage].
    rewrite bool_decide_eq_true_2 by done.
    exact (handleChallengeMessage_wellformed simTime c a Hlen Ht0 Ht1).
  - intros e Hi. cbn [deliver proofMsgs set_challenge].
    rewrite list_lookup_middle by done. cbn [arrival msgKind].
    unfold handleSelfMessage.
    change (MSG_SEND_PROOF =? MSG_SEND_AUTH_REQUEST) with false.
    change (MSG_SEND_PROOF =? MSG_SEND_PROOF) with true. cbv iota.
    rewrite insert_app_r_alt by lia. rewrite Nat.sub_diag.
    match goal with |- context [sendZKProof sha256Hash e p ?b] =>
      destruct (sendZKProof_sends e b Hi) as (proof & z & Hg & Hc & Hcm & ->) end.
    cbn [currentChallenge zkpModule set_challenge] in Hg, Hc, Hcm.
    exists proof. eexists. split; [reflexivity|].
    cbn [zkpModule currentChallenge trace sendPacket log set_zkpModule
         set_challenge destPort].
    done.
  - intros rest. cbn [handleIncomingMessage].
    rewrite bool_decide_eq_false_2 by (unfold AUTH_SUCCESS, CHALLENGE; discriminate).
    by rewrite bool_decide_eq_true_2.
  - intros rest. cbn [handleIncomingMessage].
    rewrite bool_decide_eq_false_2 by (unfold AUTH_FAILURE, CHALLENGE; discriminate).
    rewrite bool_decide_eq_false_2 by (unfold AUTH_FAILURE, AUTH_SUCCESS; discriminate).
    by rewrite bool_decide_eq_true_2.
Qed.

End Client.

Lemma drone_waiting_reachable : reachable toy_hash sample_params drone_waiting.
Proof.
  apply (reach_timer toy_hash sample_params env_fresh SelfTimer drone_started
           1000000000000).
  - apply (reach_start toy_hash sample_params env_fresh 6000 5000 "DRONE_001" "secret"
             0 drone_initial); vm_compute; reflexivity.
  - vm_compute. reflexivity.
Qed.

Lemma challenge_handled_in_every_state_witness :
  handleIncomingMessage 2000000000000 (GroundStation.challengeMessage "CHALLENGE_1_00")
                        drone_waiting
  = Ok drone_challenged
  /\ (forall e,
        exists proof a2,
          deliver toy_hash e sample_params (ProofTimer 0) drone_challenged
          = Some (2001000000000, Ok a2)
          /\ ZKPModule.generateProof toy_hash e (zkpModule drone_waiting)
                                     "CHALLENGE_1_00"
             = Ok (proof, zkpModule a2)
          /\ ZKProof.challenge proof = "CHALLENGE_1_00"
          /\ ZKProof.commitment proof
             = ZKPModule.getCommitment (zkpModule drone_waiting)
          /\ currentChallenge a2 = "CHALLENGE_1_00"
          /\ trace a2 = trace drone_waiting
                        ++ [SendTo (PROOF :: ZKProof.serialize proof)
                                   (destAddress sample_params)
                                   (destPort drone_waiting)]).
Proof.
  destruct (challenge_handled_in_every_state toy_hash sample_params 2000000000000
              "CHALLENGE_1_00" drone_waiting) as (H1 & H2 & _).
  - vm_compute. reflexivity.
  - vm_compute. discriminate.
  - vm_compute. discriminate.
  - split; [exact H1|]. intros e. apply H2. vm_compute. reflexivity.
Defined.

Lemma timeout_schedules_retry_witness :
  exists a' sm,
    timeout_outcome = Ok a'
    /\ timeoutMsg a' = None
    /\ numAuthFailures a' = numAuthFailures drone_waiting + 1
    /\ parentColor (display a') = "red"
    /\ selfMsg a' = Some sm
    /\ msgKind sm = MSG_SEND_AUTH_REQUEST
    /\ arrival sm = Some (6000000000000 + retryInterval sample_params)
    /\ (forall e',
          exists a'',
            deliver toy_hash e' sample_params SelfTimer a'
            = Some (6000000000000 + retryInterval sample_params, Ok a'')
            /\ trace a'' = trace a' ++
                 [Emit authRequestSignal (numAuthRequests drone_waiting + 1);
                  SendTo (authRequestMessage (droneId drone_waiting)
                            (ZKPModule.getCommitment (zkpModule drone_waiting)))
                         (destAddress sample_params) (destPort drone_waiting)]).
Proof.
  destruct (timeout_schedules_retry toy_hash sample_params env_late drone_waiting
              6000000000000 timeout_outcome)
    as (a' & sm & H1 & H2 & H3 & H4 & H5 & H6 & H7 & H8).
  - exact drone_waiting_reachable.
  - vm_compute. reflexivity.
  - vm_compute. discriminate.
  - vm_compute. discriminate.
  - vm_compute. discriminate.
  - vm_compute. reflexivity.
  - exists a', sm. repeat (split; [assumption|]).
    intros e'. apply H8; vm_compute; (reflexivity || discriminate).
Defined.

Section Timers.
Variable sha256Hash : list byte -> list byte.
Variable p : Params.

(** X13: AUTH_SUCCESS is final: in every state the handler deletes the timeout
    and cancels the request timer, so that neither can be delivered
    afterwards; the success is counted and the display turns green. *)
Theorem success_leaves_no_timer (e : Env) (a : t) :
  numAuthSuccess a < INT_MAX ->
  exists a',
    handleAuthSuccessMessage a = Ok a'
    /\ timeoutMsg a' = None
    /\ deliver sha256Hash e p SelfTimer a' = None
    /\ deliver sha256Hash e p TimeoutTimer a' = None
    /\ numAuthSuccess a' = numAuthSuccess a + 1
    /\ numAuthFailures a' = numAuthFailures a
    /\ parentColor (display a') = "green"
    /\ appText (display a') = "Authenticated"
    /\ proofMsgs a' = proofMsgs a.
Proof.
  intros Hn. unfold handleAuthSuccessMessage. cbv zeta.
  cbn [numAuthSuccess set_timers]. rewrite int_incr_Ok by done.
  cbn [mbind result_bind]. eexists. split; [reflexivity|].
  cbn [timeoutMsg selfMsg numAuthSuccess numAuthFailures display proofMsgs
       set_display log set_counters set_timers parentColor appText paint deliver].
  repeat split.
  destruct (selfMsg a) as [sm|]; cbn [option_map]; [|done].
  destruct (isScheduled sm) eqn:Hs; [done|].
  unfold isScheduled in Hs. by destruct (arrival sm).
Qed.

(** X14: AUTH_FAILURE starts no retry: in a running application whose timeout is
    armed, the handler deletes the timeout, and the request timer is idle,
    so no timer of the session is left to fire. *)
Theorem failure_response_schedules_no_retry
        (e : Env) (simTime : Z) (a : t) (tm : cMessage) :
  reachable sha256Hash p a ->
  timeoutMsg a = Some tm -> isScheduled tm = true ->
  numAuthFailures a < INT_MAX ->
  exists a',
    handleIncomingMessage simTime [AUTH_FAILURE] a = Ok a'
    /\ timeoutMsg a' = None
    /\ deliver sha256Hash e p SelfTimer a' = None
    /\ deliver sha256Hash e p TimeoutTimer a' = None
    /\ numAuthFailures a' = numAuthFailures a + 1
    /\ parentColor (display a') = "red".
Proof.
  intros Hreach Htm Hsched Hn.
  destruct (reachable_timers_consistent _ _ _ Hreach) as ((sm & Hsm & _) & Hinv & _).
  destruct (Hinv tm Htm) as [_ Hidle]. specialize (Hidle Hsched sm Hsm).
  cbn [handleIncomingMessage].
  rewrite bool_decide_eq_false_2 by (unfold AUTH_FAILURE, CHALLENGE; discriminate).
  rewrite bool_decide_eq_false_2 by (unfold AUTH_FAILURE, AUTH_SUCCESS; discriminate).
  rewrite bool_decide_eq_true_2 by done.
  unfold handleAuthFailureMessage. cbv zeta.
  cbn [numAuthFailures set_timers]. rewrite int_incr_Ok by done.
  cbn [mbind result_bind]. eexists. split; [reflexivity|].
  cbn [timeoutMsg selfMsg numAuthFailures display
       set_display log set_counters set_timers parentColor paint deliver].
  rewrite Hsm. repeat split.
  unfold isScheduled in Hidle. by destruct (arrival sm).
Qed.

(** X15: the CHALLENGE decoder checks both lengths before it reads: whatever
    the buffer and the time, no read leaves the buffer; when the time of the
    proof, one proof delay ahead, fits the 64-bit simulation clock, the
    handler returns; and a buffer shorter than its header or than the
    length it announces leaves the client as it was. *)
Theorem malformed_challenge_dropped (simTime : Z) (data : list byte) (a : t) :
  (forall f, handleChallengeMessage simTime data a <> Undefined f)
  /\ (0 <= simTime -> simTime + PROOF_DELAY <= INT64_MAX ->
      exists a', handleChallengeMessage simTime data a = Ok a')
  /\ (size_of data < 5 -> handleChallengeMessage simTime data a = Ok a)
  /\ (forall chalLen, read_u32 data 1 = Ok chalLen ->
        size_of data < 5 + chalLen ->
        handleChallengeMessage simTime data a = Ok a).
Proof.
  split; [intros f; apply handleChallengeMessage_in_bounds|].
  split; [apply handleChallengeMessage_returns|]. split.
  - intros H. unfold handleChallengeMessage.
    by replace (size_of data <? 5) with true by (symmetry; apply Z.ltb_lt; lia).
  - intros chalLen Hrd H. unfold handleChallengeMessage. cbv zeta.
    destruct (size_of data <? 5); [done|]. rewrite Hrd. cbn [mbind result_bind].
    by replace (size_of data <? 1 + 4 + chalLen) with true
      by (symmetry; apply Z.ltb_lt; lia).
Qed.

(** X16: stopping cancels the request timer and the timeout (without deleting
    them) but not the [sendProof] messages already scheduled; after a stop
    the application can be started again, at a start time that fits the
    64-bit simulation clock. *)
Theorem stop_cancels_member_timers (e : Env) (simTime : Z) (a : t) (sm : cMessage) :
  selfMsg a = Some sm ->
  deliver sha256Hash e p SelfTimer (handleStopOperation a) = None
  /\ deliver sha256Hash e p TimeoutTimer (handleStopOperation a) = None
  /\ proofMsgs (handleStopOperation a) = proofMsgs a
  /\ (forall i, deliver sha256Hash e p (ProofTimer i) (handleStopOperation a) = None
                <-> deliver sha256Hash e p (ProofTimer i) a = None)
  /\ (is_Some (timeoutMsg (handleStopOperation a)) <-> is_Some (timeoutMsg a))
  /\ (0 <= simTime -> 0 <= startTime p -> simTime + startTime p <= INT64_MAX ->
      exists a',
        handleStartOperation p simTime (handleStopOperation a) = Ok a'
        /\ selfMsg a' = Some (mkMsg (msgName sm) (msgKind sm)
                                    (Some (simTime + startTime p)))).
Proof.
  intros Hsm. unfold handleStopOperation. cbv zeta. rewrite Hsm.
  cbn [option_map]. repeat split.
  - cbn [deliver selfMsg set_timers]. destruct (isScheduled sm) eqn:Hs; [done|].
    unfold isScheduled in Hs. by destruct (arrival sm).
  - cbn [deliver timeoutMsg set_timers].
    destruct (timeoutMsg a) as [tm|]; cbn [option_map]; [|done].
    destruct (isScheduled tm) eqn:Hs; [done|].
    unfold isScheduled in Hs. by destruct (arrival tm).
  - cbn [deliver proofMsgs set_timers].
    destruct (proofMsgs a !! i) as [m|]; [|done].
    destruct (arrival m); [discriminate|done].
  - cbn [deliver proofMsgs set_timers].
    destruct (proofMsgs a !! i) as [m|]; [|done].
    destruct (arrival m); [discriminate|done].
  - cbn [timeoutMsg set_timers]. destruct (timeoutMsg a); cbn; [eauto|by intros [? ?]].
  - cbn [timeoutMsg set_timers]. destruct (timeoutMsg a); cbn; [eauto|by intros [? ?]].
  - intros Ht0 Hst Ht1. unfold handleStartOperation.
    rewrite simtime_add_Ok by done. cbn [mbind result_bind selfMsg set_timers].
    assert (Hidle : isScheduled (if isScheduled sm then cancelEvent sm else sm) = false)
      by (by destruct (isScheduled sm) eqn:Hs).
    rewrite scheduleAt_Ok by (done || lia). cbn [mbind result_bind].
    eexists. split; [reflexivity|]. cbn [selfMsg set_timers].
    by destruct (isScheduled sm).
Qed.

End Timers.

Lemma success_leaves_no_timer_witness :
  exists a',
    handleAuthSuccessMessage drone_waiting = Ok a'
    /\ timeoutMsg a' = None
    /\ deliver toy_hash env_late sample_params SelfTimer a' = None
    /\ deliver toy_hash env_late sample_params TimeoutTimer a' = None
    /\ numAuthSuccess a' = numAuthSuccess drone_waiting + 1
    /\ numAuthFailures a' = numAuthFailures drone_waiting
    /\ parentColor (display a') = "green"
    /\ appText (display a') = "Authenticated"
    /\ proofMsgs a' = proofMsgs drone_waiting.
Proof.
  apply (success_leaves_no_timer toy_hash sample_params env_late drone_waiting).
  vm_compute. reflexivity.
Defined.

Lemma failure_response_schedules_no_retry_witness :
  exists a',
    handleIncomingMessage 2000000000000 [AUTH_FAILURE] drone_waiting = Ok a'
    /\ timeoutMsg a' = None
    /\ deliver toy_hash env_late sample_params SelfTimer a' = None
    /\ deliver toy_hash env_late sample_params TimeoutTimer a' = None
    /\ numAuthFailures a' = numAuthFailures drone_waiting + 1
    /\ parentColor (display a') = "red".
Proof.
  apply (failure_response_schedules_no_retry toy_hash sample_params env_late
           2000000000000 drone_waiting
           (mkMsg "authTimeout" MSG_AUTH_TIMEOUT (Some 6000000000000))).
  - exact drone_waiting_reachable.
  - vm_compute. reflexivity.
  - reflexivity.
  - vm_compute. reflexivity.
Defined.

Lemma stop_cancels_member_timers_witness :
  deliver toy_hash env_late sample_params SelfTimer (handleStopOperation drone_challenged)
  = None
  /\ deliver toy_hash env_late sample_params TimeoutTimer
       (handleStopOperation drone_challenged) = None
  /\ proofMsgs (handleStopOperation drone_challenged) = proofMsgs drone_challenged
  /\ (forall i, deliver toy_hash env_late sample_params (ProofTimer i)
                  (handleStopOperation drone_challenged) = None
                <-> deliver toy_hash env_late sample_params (ProofTimer i)
                      drone_challenged = None)
  /\ (is_Some (timeoutMsg (handleStopOperation drone_challenged))
      <-> is_Some (timeoutMsg drone_challenged))
  /\ exists a',
       handleStartOperation sample_params 3000000000000
         (handleStopOperation drone_challenged) = Ok a'
       /\ selfMsg a' = Some (mkMsg (msgName (mkMsg "sendAuthRequest" MSG_SEND_AUTH_REQUEST None))
                                   (msgKind (mkMsg "sendAuthRequest" MSG_SEND_AUTH_REQUEST None))
                                   (Some (3000000000000 + startTime sample_params))).
Proof.
  destruct (stop_cancels_member_timers toy_hash sample_params env_late 3000000000000
              drone_challenged (mkMsg "sendAuthRequest" MSG_SEND_AUTH_REQUEST None))
    as (H1 & H2 & H3 & H4 & H5 & H6).
  - vm_compute. reflexivity.
  - repeat (split; [assumption|]).
    apply H6; vm_compute; discriminate.
Defined.

Lemma malformed_challenge_dropped_witness :
  (exists a',
     handleChallengeMessage 2000000000000
       [CHALLENGE; x09; x00; x00; x00; x43; x48; x41; x4c] drone_waiting = Ok a')
  /\ handleChallengeMessage 2000000000000
       [CHALLENGE; x09; x00; x00; x00; x43; x48; x41; x4c] drone_waiting
     = Ok drone_waiting.
Proof.
  destruct (malformed_challenge_dropped 2000000000000
              [CHALLENGE; x09; x00; x00; x00; x43; x48; x41; x4c] drone_waiting)
    as (_ & H2 & _ & H4).
  split.
  - apply H2; vm_compute; discriminate.
  - apply (H4 9); vm_compute; reflexivity.
Defined.

Section EndToEnd.
Variable sha256Hash : list byte -> list byte.
Hypothesis digest_length : forall x, length (sha256Hash x) = 32%nat.
Variable p : Params.

Lemma dispatch_challenge simTime c a :
  handleIncomingMessage simTime (GroundStation.challengeMessage c) a
  = handleChallengeMessage simTime (GroundStation.challengeMessage c) a.
Proof.
  unfold GroundStation.challengeMessage. cbn [handleIncomingMessage].
  by rewrite bool_decide_eq_true_2.
Qed.

Lemma sendAuthenticationRequest_explicit simTime a :
  numAuthRequests a < INT_MAX ->
  0 <= simTime -> 0 <= authTimeout p -> simTime + authTimeout p <= INT64_MAX ->
  sendAuthenticationRequest p simTime a
  = Ok (mk (localPort a) (destPort a) (droneId a) (password a) (zkpModule a)
           (currentChallenge a) (selfMsg a)
           (Some (mkMsg "authTimeout" MSG_AUTH_TIMEOUT (Some (simTime + authTimeout p))))
           (proofMsgs a)
           (numAuthRequests a + 1) (numAuthSuccess a) (numAuthFailures a)
           (display a)
           (trace a ++ [Emit authRequestSignal (numAuthRequests a + 1);
                        SendTo (authRequestMessage (droneId a)
                                  (ZKPModule.getCommitment (zkpModule a)))
                               (destAddress p) (destPort a)])).
Proof.
  intros Hn Ht0 Ht Ht1. unfold sendAuthenticationRequest. cbv zeta.
  rewrite int_incr_Ok by done. cbn [mbind result_bind].
  rewrite simtime_add_Ok by done. cbn [mbind result_bind].
  rewrite scheduleAt_Ok by (done || lia). cbn [mbind result_bind].
  unfold set_timers, sendPacket, log, set_counters. cbn. by rewrite <- app_assoc.
Qed.

(** X17: the whole handshake between one drone and the ground station: the
    drone's AUTH_REQUEST registers its commitment and is answered with a
    CHALLENGE; the drone stores the challenge and, one proof delay later,
    sends a PROOF; the station verifies it and answers AUTH_SUCCESS, counting
    one success; on AUTH_SUCCESS the drone deletes its timeout, counts one
    success and turns green.  No other session holds the challenge, the
    clocks of prover and verifier are within the freshness window, and the
    times of the timeout and of the proof fit the 64-bit simulation
    clock. *)
Theorem handshake_end_to_end
        (es1 ec es2 : Env) (t0 t1 t2 : Z) (src : L3Address) (sp : Z)
        (a : t) (gs : GroundStation.t)
        (id : string) (c : list byte) (chal : string) :
  droneId a = id ->
  ZKPModule.getCommitment (zkpModule a) = c ->
  (ZKPModule.generateChallenge es1 128
     (ZKPModule.initializeVerifier c id
        (ZKPModule.setup es1 0%nat ZKPModule.new))).1 = chal ->
  ZKPModule.proverInitialized (zkpModule a) = true ->
  id ∈ GroundStation.authorizedDrones ->
  Z.of_nat (String.length id) < 4294967296 -> size_of c < 4294967296 ->
  Z.of_nat (String.length chal) < 4294967296 ->
  GroundStation.droneVerifiers gs !! id = None ->
  (forall id', id' <> id -> GroundStation.pendingChallenges gs !! id' <> Some chal) ->
  numAuthRequests a < INT_MAX -> numAuthSuccess a < INT_MAX ->
  GroundStation.numAuthRequests gs < INT_MAX ->
  GroundStation.numAuthSuccess gs < INT_MAX ->
  0 <= authTimeout p ->
  0 <= t0 -> t0 + authTimeout p <= INT64_MAX ->
  0 <= t1 -> t1 + PROOF_DELAY <= INT64_MAX ->
  0 <= sys_now ec < 9223372036854775808 ->
  Z.abs (sys_now es2 - sys_now ec) <= ZKPModule.FRESHNESS_WINDOW ->
  exists a1 gs1 a2 a3 proofMessage gs2 a4,
    sendAuthenticationRequest p t0 a = Ok a1
    /\ trace a1 = trace a ++ [Emit authRequestSignal (numAuthRequests a + 1);
                              SendTo (authRequestMessage id c) (destAddress p) (destPort a)]
    /\ GroundStation.handleMessageWhenUp es1 (Packet (authRequestMessage id c) src sp) gs
       = Ok gs1
    /\ GroundStation.trace gs1
       = GroundStation.trace gs
         ++ [Emit authRequestSignal (GroundStation.numAuthRequests gs + 1);
             SendTo (GroundStation.challengeMessage chal) src sp]
    /\ handleIncomingMessage t1 (GroundStation.challengeMessage chal) a1 = Ok a2
    /\ currentChallenge a2 = chal
    /\ deliver sha256Hash ec p (ProofTimer (length (proofMsgs a))) a2
       = Some (t1 + PROOF_DELAY, Ok a3)
    /\ trace a3 = trace a2 ++ [SendTo proofMessage (destAddress p) (destPort a)]
    /\ GroundStation.handleMessageWhenUp es2 (Packet proofMessage src sp) gs1 = Ok gs2
    /\ GroundStation.trace gs2
       = GroundStation.trace gs1
         ++ [Emit authSuccessSignal (GroundStation.numAuthSuccess gs + 1);
             SendTo [AUTH_SUCCESS] src sp]
    /\ GroundStation.numAuthSuccess gs2 = GroundStation.numAuthSuccess gs + 1
    /\ GroundStation.pendingChallenges gs2 !! id = None
    /\ handleIncomingMessage t2 [AUTH_SUCCESS] a3 = Ok a4
    /\ timeoutMsg a4 = None
    /\ numAuthSuccess a4 = numAuthSuccess a + 1
    /\ parentColor (display a4) = "green".
Proof.
  intros <- <- <-.
  set (id := droneId a). set (c := ZKPModule.getCommitment (zkpModule a)).
  set (chal := (ZKPModule.generateChallenge es1 128
                  (ZKPModule.initializeVerifier c id
                     (ZKPModule.setup es1 0%nat ZKPModule.new))).1).
  intros Hprov Hauth Hlen Hc Hchal Hnew Hothers Hrq Hsu Hgrq Hgsu Hat
         Ht0 Ht0' Ht1 Ht1' Hnow Hfresh.
  (* the station registers and challenges *)
  destruct (GroundStationFacts.handleAuthRequest_session es1 id c src sp gs Hauth Hlen Hc Hgrq)
    as (gs1 & H1 & Hs & _ & _ & Hsu1 & _).
  cbv zeta in Hs. unfold GroundStation.getOrCreateVerifier in Hs. rewrite Hnew in Hs.
  cbn [fst snd] in Hs. fold c id in Hs. fold chal in Hs.
  destruct Hs as (Hdv & Hp & Htr).
  (* the proof the drone will generate, and its verification *)
  set (proof := ZKProof.mk
         (sha256Hash (ZKPModule.combineVectors
                        [ZKPModule.privateSecret (zkpModule a);
                         list_byte_of_string chal;
                         ZKPModule.sessionNonce (zkpModule a)]))
         (ZKPModule.publicCommitment (zkpModule a)) chal
         (to_uint64 (sys_now ec))).
  assert (Hne : id <> "") by (intros E; rewrite E in Hauth; by apply GroundStationFacts.empty_id_not_authorized).
  destruct (GroundStationFacts.handleProof_accepts es2 proof src sp gs1 id
              (ZKPModule.generateChallenge es1 128
                 (ZKPModule.initializeVerifier c id
                    (ZKPModule.setup es1 0%nat ZKPModule.new))).2)
    as (gs2 & H2 & Hp2 & Hs2 & _ & _ & Ht2); try done.
  { rewrite Hdv. apply lookup_insert_eq. }
  { rewrite Hp. apply lookup_insert_eq. }
  { intros k. rewrite Hp. cbn [ZKProof.challenge proof].
    destruct (decide (k = id)) as [->|Hk']; [done|].
    rewrite lookup_insert_ne by done. intros Hk. by destruct (Hothers k Hk'). }
  { unfold size_of. cbn [ZKProof.proofData proof]. by rewrite digest_length. }
  { unfold ZKProof.fits_u32, size_of. cbn [ZKProof.proofData ZKProof.commitment
      ZKProof.challenge proof]. rewrite digest_length.
    split; [lia|]. split; [exact Hc|exact Hchal]. }
  { unfold ZKProof.well_typed, to_uint64. cbn [ZKProof.timestamp proof].
    apply Z.mod_pos_bound. lia. }
  { cbn [ZKProof.timestamp proof]. unfold to_int64, to_uint64.
    rewrite (Z.mod_small (sys_now ec)) by lia. rewrite Z.mod_small by lia.
    by replace (sys_now ec <? 9223372036854775808) with true
      by (symmetry; apply Z.ltb_lt; lia). }
  { lia. }
  eexists. exists gs1. eexists. eexists. eexists. exists gs2. eexists.
  (* 1. the request *)
  rewrite (sendAuthenticationRequest_explicit t0 a Hrq Ht0 Hat Ht0').
  split; [reflexivity|]. cbn [trace]. split; [reflexivity|].
  (* 2. the station's answer *)
  rewrite GroundStationFacts.dispatch_auth_request. split; [exact H1|].
  split; [exact Htr|].
  (* 3. the drone stores the challenge *)
  rewrite dispatch_challenge.
  rewrite (handleChallengeMessage_wellformed t1 chal _ Hchal Ht1 Ht1').
  split; [reflexivity|]. cbn [currentChallenge set_challenge]. split; [reflexivity|].
  (* 4. the proof timer fires *)
  cbn [deliver proofMsgs set_challenge].
  rewrite list_lookup_middle by done. cbn [arrival msgKind].
  unfold handleSelfMessage.
  change (MSG_SEND_PROOF =? MSG_SEND_AUTH_REQUEST) with false.
  change (MSG_SEND_PROOF =? MSG_SEND_PROOF) with true. cbv iota.
  unfold sendZKProof, ZKPModule.generateProof.
  cbn [zkpModule currentChallenge set_challenge]. rewrite Hprov. cbn [negb].
  cbn [mbind result_bind]. split; [reflexivity|].
  cbn [trace sendPacket log set_zkpModule set_challenge destPort].
  split; [reflexivity|].
  (* 5. the station verifies *)
  rewrite GroundStationFacts.dispatch_proof. fold proof. split; [exact H2|].
  split; [by rewrite Ht2, Hsu1|]. split; [lia|].
  split; [rewrite Hp2; apply lookup_delete_eq|].
  (* 6. the drone is authenticated *)
  cbn [handleIncomingMessage].
  rewrite bool_decide_eq_false_2 by (unfold AUTH_SUCCESS, CHALLENGE; discriminate).
  rewrite bool_decide_eq_true_2 by done.
  unfold handleAuthSuccessMessage. cbv zeta.
  cbn [numAuthSuccess set_timers sendPacket log set_zkpModule set_challenge].
  rewrite int_incr_Ok by done. cbn [mbind result_bind].
  split; [reflexivity|]. by cbn.
Qed.

End EndToEnd.

Lemma toy_hash_length (x : list byte) : length (toy_hash x) = 32%nat.
Proof.
  unfold toy_hash. rewrite length_take, length_app, length_replicate. lia.
Qed.

Lemma handshake_end_to_end_witness :
  exists a1 gs1 a2 a3 proofMessage gs2 a4,
    sendAuthenticationRequest sample_params 1000000000000 drone_started = Ok a1
    /\ trace a1 = trace drone_started
                  ++ [Emit authRequestSignal (numAuthRequests drone_started + 1);
                      SendTo (authRequestMessage "DRONE_001"
                                (ZKPModule.getCommitment (zkpModule drone_started)))
                             (destAddress sample_params) (destPort drone_started)]
    /\ GroundStation.handleMessageWhenUp env_fresh
         (Packet (authRequestMessage "DRONE_001"
                    (ZKPModule.getCommitment (zkpModule drone_started)))
                 "10.0.0.2" 6000) (GroundStation.initial 5000)
       = Ok gs1
    /\ GroundStation.trace gs1
       = GroundStation.trace (GroundStation.initial 5000)
         ++ [Emit authRequestSignal
               (GroundStation.numAuthRequests (GroundStation.initial 5000) + 1);
             SendTo (GroundStation.challengeMessage
                       "CHALLENGE_1700000000000000000_0000000000000000")
                    "10.0.0.2" 6000]
    /\ handleIncomingMessage 1000500000000
         (GroundStation.challengeMessage
            "CHALLENGE_1700000000000000000_0000000000000000") a1 = Ok a2
    /\ currentChallenge a2 = "CHALLENGE_1700000000000000000_0000000000000000"
    /\ deliver toy_hash env_fresh sample_params
         (ProofTimer (length (proofMsgs drone_started))) a2
       = Some (1000500000000 + PROOF_DELAY, Ok a3)
    /\ trace a3 = trace a2 ++ [SendTo proofMessage (destAddress sample_params)
                                     (destPort drone_started)]
    /\ GroundStation.handleMessageWhenUp env_fresh
         (Packet proofMessage "10.0.0.2" 6000) gs1 = Ok gs2
    /\ GroundStation.trace gs2
       = GroundStation.trace gs1
         ++ [Emit authSuccessSignal
               (GroundStation.numAuthSuccess (GroundStation.initial 5000) + 1);
             SendTo [AUTH_SUCCESS] "10.0.0.2" 6000]
    /\ GroundStation.numAuthSuccess gs2
       = GroundStation.numAuthSuccess (GroundStation.initial 5000) + 1
    /\ GroundStation.pendingChallenges gs2 !! "DRONE_001" = None
    /\ handleIncomingMessage 1002000000000 [AUTH_SUCCESS] a3 = Ok a4
    /\ timeoutMsg a4 = None
    /\ numAuthSuccess a4 = numAuthSuccess drone_started + 1
    /\ parentColor (display a4) = "green".
Proof.
  apply (handshake_end_to_end toy_hash toy_hash_length sample_params
           env_fresh env_fresh env_fresh 1000000000000 1000500000000 1002000000000
           "10.0.0.2" 6000 drone_started (GroundStation.initial 5000)
           "DRONE_001" (ZKPModule.getCommitment (zkpModule drone_started))
           "CHALLENGE_1700000000000000000_0000000000000000").
  - vm_compute. reflexivity.
  - reflexivity.
  - vm_compute. reflexivity.
  - vm_compute. reflexivity.
  - apply (bool_decide_eq_true_1 _). vm_compute. reflexivity.
  - vm_compute. reflexivity.
  - vm_compute. reflexivity.
  - vm_compute. reflexivity.
  - vm_compute. reflexivity.
  - intros id' _. vm_compute. discriminate.
  - vm_compute. reflexivity.
  - vm_compute. reflexivity.
  - vm_compute. reflexivity.
  - vm_compute. reflexivity.
  - vm_compute. discriminate.
  - vm_compute. discriminate.
  - vm_compute. discriminate.
  - vm_compute. discriminate.
  - vm_compute. discriminate.
  - vm_compute. split; [discriminate|reflexivity].
  - vm_compute. discriminate.
Defined.

End DroneAuthAppFacts.
